(** * PSL core: parser, L-rule validator and metrics calculator

    A shallow embedding of the Python sources

      - [src/ast/models.py]           (the document model),
      - [src/parser/full_parser.py]   (section parser and full parser),
      - [src/validator/l_rules.py]    (rules L-01 .. L-03 and [validate]),
      - [src/metrics/calculator.py]   (CSR, HRR, coverage, 3C score),

    followed by the properties of these functions.

    Conventions of the embedding.

      - A Python [str] is a [string]; every character is a code point
        below 256, and the character classes used by [str.strip],
        [str.lower] and the [re] module are the ones CPython uses on
        these code points.
      - A Python [float] is a primitive binary64 [float]; its operations
        are the IEEE 754 ones, as in CPython.
      - A [dict] is an association list in insertion order: assigning to
        an existing key keeps the position of the key.
      - A raising call returns [Raise e]; a call that returns normally
        returns [Return v]. *)

From Stdlib Require Import Bool Arith ZArith List Ascii String Floats Lia.
From Stdlib Require Import DecimalString.
Import ListNotations.

Set Warnings "-inexact-float".

Local Open Scope string_scope.
Local Open Scope list_scope.

(** ** Python strings *)

Module Py.

(** Code point of a character. *)
Definition ord (c : ascii) : nat := nat_of_ascii c.

Definition between (lo hi n : nat) : bool := (lo <=? n)%nat && (n <=? hi)%nat.

(** [str.isspace] on one character: TAB..CR, FS..US, SPACE, NEL, NBSP. *)
Definition isspace (c : ascii) : bool :=
  between 9 13 (ord c) || between 28 32 (ord c)
  || (ord c =? 133)%nat || (ord c =? 160)%nat.

(** [str.lower] on one character. *)
Definition lower_char (c : ascii) : ascii :=
  if between 65 90 (ord c)
     || (between 192 222 (ord c) && negb (ord c =? 215)%nat)
  then ascii_of_nat (ord c + 32) else c.

Fixpoint lower (s : string) : string :=
  match s with
  | EmptyString => EmptyString
  | String c r => String (lower_char c) (lower r)
  end.

(** [\d] of the [re] module. *)
Definition isdigit (c : ascii) : bool := between 48 57 (ord c).

(** [\w] of the [re] module: alphanumeric characters and the underscore. *)
Definition isword (c : ascii) : bool :=
  let n := ord c in
  between 48 57 n || between 65 90 n || (n =? 95)%nat || between 97 122 n
  || (n =? 170)%nat || between 178 179 n || (n =? 181)%nat
  || between 185 186 n || between 188 190 n
  || between 192 214 n || between 216 246 n || between 248 255 n.

(** Membership of a character in a string used as a character set. *)
Fixpoint char_in (c : ascii) (set : string) : bool :=
  match set with
  | EmptyString => false
  | String d r => Ascii.eqb c d || char_in c r
  end.

(** [s.lstrip(chars)] and [s.rstrip(chars)], the set given as a predicate. *)
Fixpoint lstrip_by (p : ascii -> bool) (s : string) : string :=
  match s with
  | EmptyString => EmptyString
  | String c r => if p c then lstrip_by p r else s
  end.

Fixpoint rstrip_by (p : ascii -> bool) (s : string) : string :=
  match s with
  | EmptyString => EmptyString
  | String c r =>
      match rstrip_by p r with
      | EmptyString => if p c then EmptyString else String c EmptyString
      | r' => String c r'
      end
  end.

Definition lstrip_chars (set : string) (s : string) : string :=
  lstrip_by (fun c => char_in c set) s.

Definition rstrip (s : string) : string := rstrip_by isspace s.
Definition strip (s : string) : string := lstrip_by isspace (rstrip_by isspace s).

(** [s.split(sep)] for a separator of one character: never the empty list. *)
Fixpoint split (sep : ascii) (s : string) : list string :=
  match s with
  | EmptyString => [EmptyString]
  | String c r =>
      if Ascii.eqb c sep then EmptyString :: split sep r
      else match split sep r with
           | h :: t => String c h :: t
           | [] => [String c EmptyString]
           end
  end.

(** [sep.join(parts)]. *)
Definition join (sep : string) (parts : list string) : string :=
  String.concat sep parts.

Definition startswith (p s : string) : bool := String.prefix p s.

Fixpoint endswith_char (c : ascii) (s : string) : bool :=
  match s with
  | EmptyString => false
  | String d EmptyString => Ascii.eqb d c
  | String _ r => endswith_char c r
  end.

(** [needle in s]. *)
Fixpoint contains (needle s : string) : bool :=
  String.prefix needle s ||
  match s with
  | EmptyString => false
  | String _ r => contains needle r
  end.

Fixpoint removelast (s : string) : string :=
  match s with
  | EmptyString => EmptyString
  | String _ EmptyString => EmptyString
  | String c r => String c (removelast r)
  end.

(** [s[1:-1]]. *)
Definition slice_1_m1 (s : string) : string :=
  match s with
  | EmptyString => EmptyString
  | String _ r => removelast r
  end.

(** [str(n)] for a non-negative [int]. *)
Definition str_of_nat (n : nat) : string := NilZero.string_of_uint (Nat.to_uint n).

(** [float(n)] for an [int]: round to nearest, ties to even. The counts
    converted below are list lengths; on integers below 2^53 the
    conversion is exact and the quotient of two converted integers is
    the true division [a / b] of Python. *)
Definition float_of_Z (z : Z) : float :=
  SF2Prim (binary_normalize prec emax z 0 false).

Definition float_of_nat (n : nat) : float := float_of_Z (Z.of_nat n).

(** [max(a, b)] on floats: the second argument only when it is greater. *)
Definition max (a b : float) : float := if PrimFloat.ltb a b then b else a.

Definition LF : ascii := ascii_of_nat 10.

End Py.

(** ** Dictionaries in insertion order *)

Module Dict.
Section Ops.
Context {V : Type}.

Definition t : Type := list (string * V).

(** [d.get(k)] *)
Fixpoint get (k : string) (d : t) : option V :=
  match d with
  | [] => None
  | (k', v) :: r => if String.eqb k k' then Some v else get k r
  end.

(** [k in d] *)
Definition mem (k : string) (d : t) : bool :=
  match get k d with Some _ => true | None => false end.

(** [d[k] = v]: an existing key keeps its place, a new key goes last. *)
Fixpoint set (k : string) (v : V) (d : t) : t :=
  match d with
  | [] => [(k, v)]
  | (k', v') :: r =>
      if String.eqb k k' then (k, v) :: r else (k', v') :: set k v r
  end.

(** [d.keys()] *)
Definition keys (d : t) : list string := map fst d.
End Ops.
Arguments t : clear implicits.
End Dict.

(** ** The fragment of [re] used by the number patterns *)

Module Re.

(** A position in the subject: the character before the cursor (if any)
    and the text after it. *)
Definition pos : Type := option ascii * string.

(** A pattern maps a position to every position at which a match of the
    pattern starting there can end (backtracking as a list of choices). *)
Definition matcher : Type := pos -> list pos.

Definition word_before (p : pos) : bool :=
  match fst p with Some c => Py.isword c | None => false end.

Definition word_after (p : pos) : bool :=
  match snd p with String c _ => Py.isword c | EmptyString => false end.

(** [\b] *)
Definition boundary : matcher :=
  fun p => if xorb (word_before p) (word_after p) then [p] else [].

Fixpoint star_from (cls : ascii -> bool) (prev : option ascii) (s : string)
  : list pos :=
  (prev, s) ::
  match s with
  | String c r => if cls c then star_from cls (Some c) r else []
  | EmptyString => []
  end.

(** [c*] and [c+] for a character class [c] *)
Definition star (cls : ascii -> bool) : matcher :=
  fun p => star_from cls (fst p) (snd p).

Definition plus (cls : ascii -> bool) : matcher :=
  fun p =>
    match snd p with
    | String c r => if cls c then star_from cls (Some c) r else []
    | EmptyString => []
    end.

(** [c?] for a literal character [c] *)
Definition opt_char (c : ascii) : matcher :=
  fun p =>
    match snd p with
    | String d r => if Ascii.eqb d c then [(Some d, r); p] else [p]
    | EmptyString => [p]
    end.

(** A literal under [re.IGNORECASE] *)
Fixpoint lit_ci (w : string) (p : pos) : list pos :=
  match w with
  | EmptyString => [p]
  | String c w' =>
      match snd p with
      | String d r =>
          if Ascii.eqb (Py.lower_char d) (Py.lower_char c)
          then lit_ci w' (Some d, r) else []
      | EmptyString => []
      end
  end.

(** [(?:a|b|...)] *)
Definition alt (ms : list matcher) : matcher :=
  fun p => flat_map (fun m => m p) ms.

(** Concatenation *)
Definition seq (m1 m2 : matcher) : matcher :=
  fun p => flat_map m2 (m1 p).

Definition matches_at (m : matcher) (p : pos) : bool :=
  match m p with [] => false | _ :: _ => true end.

Fixpoint search_from (m : matcher) (prev : option ascii) (s : string) : bool :=
  matches_at m (prev, s) ||
  match s with
  | String c r => search_from m (Some c) r
  | EmptyString => false
  end.

(** [re.search(pattern, s)] as a truth value *)
Definition search (m : matcher) (s : string) : bool := search_from m None s.

(** [\b\d+\.?\d*\s*(?:u1|u2|...)\b] with [re.IGNORECASE] *)
Definition number_with_unit (units : list string) : matcher :=
  seq boundary
    (seq (plus Py.isdigit)
       (seq (opt_char ".")
          (seq (star Py.isdigit)
             (seq (star Py.isspace)
                (seq (alt (map lit_ci units)) boundary))))).

Definition degree_C : string := String (ascii_of_nat 176) "C".

End Re.

(** ** The document model ([src/ast/models.py]) *)

Module Constraint.
Record t : Type := mk {
  name : string;
  operator : string;
  value : float;
  unit : option string
}.
End Constraint.

Module ThreeC.
Record t : Type := mk {
  clear : bool;
  cheap : bool;
  safe : bool
}.
End ThreeC.

Module PSLDocument.
Record t : Type := mk {
  version : string;
  context : string;
  goal : string;
  constraints : list Constraint.t;
  resources : option (list string);
  skill : option string;
  sections : Dict.t (list string);
  three_c : option ThreeC.t;
  gloss : option string
}.
End PSLDocument.

(** ** Exceptions *)

Inductive exn : Type :=
| KeyError (key : string)
| ValidationError (fields : list string).

Inductive result (A : Type) : Type :=
| Return (a : A)
| Raise (e : exn).
Arguments Return {A} a.
Arguments Raise {A} e.

Definition bind {A B : Type} (m : result A) (k : A -> result B) : result B :=
  match m with
  | Return a => k a
  | Raise e => Raise e
  end.

Notation "x <- m ;; k" := (bind m (fun x => k))
  (at level 61, m at next level, right associativity).

Definition returns {A : Type} (m : result A) : bool :=
  match m with Return _ => true | Raise _ => false end.

(** ** The section parser and the full parser ([src/parser/full_parser.py]) *)

Module PSLFullParser.

(** What [_parse_sections] stores under a key of the dictionary it
    returns: the item list of a section, or the [ThreeC] object that the
    3C branch stores under ['3C']. *)
Inductive section_value : Type :=
| Items (items : list string)
| Flags (flags : ThreeC.t).

Definition _parse_three_c (text : string) : ThreeC.t :=
  let clear := Py.contains "clear: yes" (Py.lower text) in
  let cheap := Py.contains "cheap: yes" (Py.lower text) in
  let safe := Py.contains "safe: yes" (Py.lower text) in
  ThreeC.mk clear cheap safe.

(** The local variables of [_parse_sections]. *)
Record scan : Type := mk_scan {
  sections : Dict.t section_value;
  current_section : option string;
  current_items : list string
}.

(** Truth value of [current_section]: [None] and [''] are false. *)
Definition truthy (s : option string) : bool :=
  match s with
  | None => false
  | Some EmptyString => false
  | Some _ => true
  end.

Definition section_name (s : option string) : string :=
  match s with Some n => n | None => EmptyString end.

(** [line.startswith('[') and line.endswith(']')] *)
Definition is_header (line : string) : bool :=
  Py.startswith "[" line && Py.endswith_char "]" line.

(** [line.startswith(('-', '1)', '2)'))] *)
Definition is_item (line : string) : bool :=
  Py.startswith "-" line || Py.startswith "1)" line || Py.startswith "2)" line.

(** [line.lstrip('- ').lstrip('1234567890) ')] *)
Definition item_of (line : string) : string :=
  Py.lstrip_chars "1234567890) " (Py.lstrip_chars "- " line).

(** [line[1:-1].split(':')[0]] *)
Definition tag_of (line : string) : string :=
  hd EmptyString (Py.split ":" (Py.slice_1_m1 line)).

(** One iteration of the loop either goes on to the next line or leaves
    the loop ([break]). *)
Inductive flow : Type :=
| Next (st : scan)
| Break (st : scan).

Definition step (text : string) (st : scan) (raw : string) : flow :=
  let line := Py.strip raw in
  if String.eqb line EmptyString then Next st
  else if is_header line then
    Next {| sections :=
              if truthy (current_section st)
              then Dict.set (section_name (current_section st))
                     (Items (current_items st)) (sections st)
              else sections st;
            current_section := Some (tag_of line);
            current_items := [] |}
  else if truthy (current_section st) && is_item line then
    Next {| sections := sections st;
            current_section := current_section st;
            current_items := current_items st ++ [item_of line] |}
  else if String.eqb (section_name (current_section st)) "3C"
          && Py.contains ":" line then
    Break {| sections := Dict.set "3C" (Flags (_parse_three_c text)) (sections st);
             current_section := current_section st;
             current_items := current_items st |}
  else Next st.

Fixpoint scan_lines (text : string) (st : scan) (lines : list string) : scan :=
  match lines with
  | [] => st
  | raw :: rest =>
      match step text st raw with
      | Next st' => scan_lines text st' rest
      | Break st' => st'
      end
  end.

(** The flush after the loop. *)
Definition final_flush (st : scan) : Dict.t section_value :=
  if truthy (current_section st)
     && match current_items st with [] => false | _ :: _ => true end
  then Dict.set (section_name (current_section st))
         (Items (current_items st)) (sections st)
  else sections st.

Definition initial : scan :=
  {| sections := []; current_section := None; current_items := [] |}.

Definition _parse_sections (text : string) : Dict.t section_value :=
  final_flush (scan_lines text initial (Py.split Py.LF text)).

(** The dictionary returned by [_parse_header]; a key that is absent is
    [None]. *)
Record header_data : Type := mk_header {
  h_version : option string;
  h_context : option string;
  h_goal : option string;
  h_constraints : option (list Constraint.t);
  h_resources : option (list string);
  h_skill : option string
}.

(** [d[key]] *)
Definition getitem {A : Type} (key : string) (v : option A) : result A :=
  match v with
  | Some a => Return a
  | None => Raise (KeyError key)
  end.

(** Modelled from the spec: [_find_header_end] is called by [parse] and is
    not defined in the class; the header is "all lines before the first
    line beginning with [[]", so this is the index of that line, or the
    number of lines when there is none. *)
Fixpoint _find_header_end (lines : list string) : nat :=
  match lines with
  | [] => 0
  | l :: rest => if Py.startswith "[" l then 0 else S (_find_header_end rest)
  end.

(** The constructor of the pydantic model [PSLDocument], called with the
    values [parse] passes: the fields are validated against their declared
    types, and the fields that fail are reported in one [ValidationError].
    [sections] is declared [Dict[str, List[str]]], [three_c] is
    [Optional[ThreeC]], [gloss] is [Optional[str]]. *)
Fixpoint as_item_lists (d : Dict.t section_value) : option (Dict.t (list string)) :=
  match d with
  | [] => Some []
  | (k, Items l) :: r =>
      match as_item_lists r with
      | Some r' => Some ((k, l) :: r')
      | None => None
      end
  | (_, Flags _) :: _ => None
  end.

Definition as_three_c (v : option section_value) : option (option ThreeC.t) :=
  match v with
  | None => Some None
  | Some (Flags f) => Some (Some f)
  | Some (Items _) => None
  end.

Definition as_str (v : option section_value) : option (option string) :=
  match v with
  | None => Some None
  | Some _ => None
  end.

Definition invalid {A : Type} (field : string) (v : option A) : list string :=
  match v with Some _ => [] | None => [field] end.

Definition new_PSLDocument (version context goal : string)
  (constraints : list Constraint.t) (resources : option (list string))
  (skill : option string) (sections : Dict.t section_value)
  (three_c gloss : option section_value) : result PSLDocument.t :=
  match as_item_lists sections, as_three_c three_c, as_str gloss with
  | Some s, Some t, Some g =>
      Return (PSLDocument.mk version context goal constraints resources skill s t g)
  | s, t, g =>
      Raise (ValidationError
               (invalid "sections" s ++ invalid "three_c" t ++ invalid "gloss" g))
  end.

Section Parse.

(** [_parse_header] is called by [parse] and is not defined in the class:
    it is a parameter of the embedding. *)
Variable _parse_header : string -> header_data.

Definition parse (psl_text : string) : result PSLDocument.t :=
  let lines := map Py.rstrip (Py.split Py.LF psl_text) in
  let header_end := _find_header_end lines in
  let header_text := Py.join (String Py.LF EmptyString) (firstn header_end lines) in
  let sections_text := Py.join (String Py.LF EmptyString) (skipn header_end lines) in
  let header_data := _parse_header header_text in
  let sections_data := _parse_sections sections_text in
  version <- getitem "version" (h_version header_data) ;;
  context <- getitem "context" (h_context header_data) ;;
  goal <- getitem "goal" (h_goal header_data) ;;
  constraints <- getitem "constraints" (h_constraints header_data) ;;
  new_PSLDocument version context goal constraints
    (h_resources header_data) (h_skill header_data)
    sections_data (Dict.get "3C" sections_data) (Dict.get "GLOSS" sections_data).

End Parse.

End PSLFullParser.

(** ** The rule validator ([src/validator/l_rules.py]) *)

Module Issue.
Record t : Type := mk {
  rule : string;
  level : string;
  message : string
}.
End Issue.

Module LRuleValidator.

Definition expected_order : list string :=
  ["FACT"; "TECHNIQUE"; "HYP"; "ROLLBACK"; "SAFETY";
   "ASSUMPTIONS"; "CHECKLIST"; "3C"; "GLOSS"].

(** [s in l] for a list of strings *)
Definition str_in (s : string) (l : list string) : bool :=
  existsb (String.eqb s) l.

(** The text of a list of tags inside an f-string: [['FACT', 'HYP']]. *)
Definition repr_tags (l : list string) : string :=
  ("[" ++ Py.join ", " (map (fun s => "'" ++ s ++ "'") l) ++ "]")%string.

(** [len(doc.sections.get(tag, []))] *)
Definition count_items (tag : string) (doc : PSLDocument.t) : nat :=
  List.length (match Dict.get tag (PSLDocument.sections doc) with
               | Some items => items
               | None => []
               end).

(** Every rule reads the document and appends to [self.issues]; the list
    is passed in and the extended list is returned. *)
Definition _validate_l01_section_order (doc : PSLDocument.t)
  (issues : list Issue.t) : list Issue.t :=
  let actual_sections :=
    filter (fun s => str_in s expected_order) (Dict.keys (PSLDocument.sections doc)) in
  let expected_actual :=
    filter (fun s => str_in s actual_sections) expected_order in
  if list_eq_dec string_dec actual_sections expected_actual then issues
  else issues ++
       [Issue.mk "L-01" "error"
          ("Section order violation. Expected: " ++ repr_tags expected_actual
           ++ ", Got: " ++ repr_tags actual_sections)%string].

Definition _validate_l02_hyp_rollback_pairing (doc : PSLDocument.t)
  (issues : list Issue.t) : list Issue.t :=
  let hyp_count := count_items "HYP" doc in
  let rollback_count := count_items "ROLLBACK" doc in
  if negb (hyp_count =? rollback_count)%nat then
    issues ++
    [Issue.mk "L-02" "error"
       ("HYP/ROLLBACK count mismatch. HYP: " ++ Py.str_of_nat hyp_count
        ++ ", ROLLBACK: " ++ Py.str_of_nat rollback_count)%string]
  else issues.

Definition number_pattern : Re.matcher :=
  Re.number_with_unit ["usd"; "min"; "g"; "kg"; "kcal"; Re.degree_C; "mm"; "cm"].

Definition l03_issue (section_name item : string) : Issue.t :=
  Issue.mk "L-03" "warning"
    ("Number found in [" ++ section_name ++ "]: " ++ item)%string.

Definition _validate_l03_numbers_outside_fact (doc : PSLDocument.t)
  (issues : list Issue.t) : list Issue.t :=
  fold_left
    (fun issues (entry : string * list string) =>
       let (section_name, items) := entry in
       if String.eqb section_name "FACT" then issues
       else fold_left
              (fun issues item =>
                 if Re.search number_pattern item
                 then issues ++ [l03_issue section_name item]
                 else issues)
              items issues)
    (PSLDocument.sections doc) issues.

Section Validate.

(** The bodies of rules L-04 .. L-10 are not in the class. Each is taken
    as a parameter of the shape the specification gives all rules: a
    function of the document to the issues the rule appends. *)
Variables rule_l04 rule_l05 rule_l06 rule_l07 rule_l08 rule_l09 rule_l10
  : PSLDocument.t -> list Issue.t.

Definition appending (rule : PSLDocument.t -> list Issue.t)
  (doc : PSLDocument.t) (issues : list Issue.t) : list Issue.t :=
  issues ++ rule doc.

Definition validate (doc : PSLDocument.t) : list Issue.t :=
  let issues := [] in
  let issues := _validate_l01_section_order doc issues in
  let issues := _validate_l02_hyp_rollback_pairing doc issues in
  let issues := _validate_l03_numbers_outside_fact doc issues in
  let issues := appending rule_l04 doc issues in
  let issues := appending rule_l05 doc issues in
  let issues := appending rule_l06 doc issues in
  let issues := appending rule_l07 doc issues in
  let issues := appending rule_l08 doc issues in
  let issues := appending rule_l09 doc issues in
  let issues := appending rule_l10 doc issues in
  issues.

End Validate.

End LRuleValidator.

(** ** The metrics calculator ([src/metrics/calculator.py]) *)

Module PSLMetricsCalculator.

Local Open Scope float_scope.

(** A value stored in [execution_result]: [None], an [int], a [float], or
    an object that is not a number (a [str], say). *)
Inductive value : Type :=
| VNone
| VInt (z : Z)
| VFloat (f : float)
| VOther.

(** Comparison of an [int] with a [float]: exact, and undefined on NaN. *)
Definition compare_int_float (z : Z) (f : float) : option comparison :=
  match Prim2SF f with
  | S754_nan => None
  | S754_infinity s => Some (if s then Gt else Lt)
  | S754_zero _ => Some (z ?= 0)%Z
  | S754_finite s m e =>
      let v := if s then Zneg m else Zpos m in
      if (0 <=? e)%Z then Some (z ?= v * 2 ^ e)%Z
      else Some (z * 2 ^ (- e) ?= v)%Z
  end.

(** [actual_value <= bound], [>=], [<], [>], [==]; a comparison that
    raises [TypeError] is [false], as the [except] clause returns. *)
Definition le (actual : value) (bound : float) : bool :=
  match actual with
  | VFloat x => PrimFloat.leb x bound
  | VInt z => match compare_int_float z bound with
              | Some Lt | Some Eq => true
              | _ => false
              end
  | _ => false
  end.

Definition ge (actual : value) (bound : float) : bool :=
  match actual with
  | VFloat x => PrimFloat.leb bound x
  | VInt z => match compare_int_float z bound with
              | Some Gt | Some Eq => true
              | _ => false
              end
  | _ => false
  end.

Definition lt (actual : value) (bound : float) : bool :=
  match actual with
  | VFloat x => PrimFloat.ltb x bound
  | VInt z => match compare_int_float z bound with
              | Some Lt => true
              | _ => false
              end
  | _ => false
  end.

Definition gt (actual : value) (bound : float) : bool :=
  match actual with
  | VFloat x => PrimFloat.ltb bound x
  | VInt z => match compare_int_float z bound with
              | Some Gt => true
              | _ => false
              end
  | _ => false
  end.

Definition eq (actual : value) (bound : float) : bool :=
  match actual with
  | VFloat x => PrimFloat.eqb x bound
  | VInt z => match compare_int_float z bound with
              | Some Eq => true
              | _ => false
              end
  | _ => false
  end.

Definition _is_constraint_satisfied (constraint : Constraint.t)
  (actual_value : value) : bool :=
  if String.eqb (Constraint.operator constraint) "<=" then
    le actual_value (Constraint.value constraint)
  else if String.eqb (Constraint.operator constraint) ">=" then
    ge actual_value (Constraint.value constraint)
  else if String.eqb (Constraint.operator constraint) "<" then
    lt actual_value (Constraint.value constraint)
  else if String.eqb (Constraint.operator constraint) ">" then
    gt actual_value (Constraint.value constraint)
  else if String.eqb (Constraint.operator constraint) "=" then
    eq actual_value (Constraint.value constraint)
  else false.

(** [not execution_result]: [None] and the empty dictionary. *)
Definition falsy (execution_result : option (Dict.t value)) : bool :=
  match execution_result with
  | None => true
  | Some [] => true
  | Some (_ :: _) => false
  end.

(** [execution_result.get(name)] *)
Definition observed (execution_result : option (Dict.t value)) (name : string)
  : value :=
  match execution_result with
  | None => VNone
  | Some d => match Dict.get name d with
              | Some v => v
              | None => VNone
              end
  end.

Definition is_none (v : value) : bool :=
  match v with VNone => true | _ => false end.

Definition calculate_csr (document : PSLDocument.t)
  (execution_result : option (Dict.t value)) : float :=
  match PSLDocument.constraints document with
  | [] => 1.0
  | _ :: _ =>
      if falsy execution_result then 0.0
      else
        let satisfied_count :=
          fold_left
            (fun satisfied_count constraint =>
               let actual_value :=
                 observed execution_result (Constraint.name constraint) in
               if is_none actual_value then satisfied_count
               else if _is_constraint_satisfied constraint actual_value
                    then S satisfied_count
                    else satisfied_count)
            (PSLDocument.constraints document) 0%nat in
        Py.float_of_nat satisfied_count
        / Py.float_of_nat (List.length (PSLDocument.constraints document))
  end.

Definition number_pattern : Re.matcher :=
  Re.number_with_unit
    ["usd"; "min"; "g"; "kg"; "kcal"; Re.degree_C; "mm"; "cm"; "serves"]%string.

Definition _count_numbers_outside_fact (document : PSLDocument.t) : nat :=
  fold_left
    (fun count (entry : string * list string) =>
       let (section_name, items) := entry in
       if String.eqb section_name "FACT" then count
       else fold_left
              (fun count item =>
                 if Re.search number_pattern item then S count else count)
              items count)
    (PSLDocument.sections document) 0%nat.

Definition risk_keywords : list string :=
  ["allerg"; "danger"; "risk"; "safe"; "toxic"; "harm"; "warn"]%string.

(** [any(keyword in s.lower() for keyword in risk_keywords)] *)
Definition any_keyword (s : string) : bool :=
  existsb (fun keyword => Py.contains keyword (Py.lower s)) risk_keywords.

Section Risk.

(** The text of a [float] inside an f-string ([str(x)]); the digits it
    prints play no part below, so the function is a parameter. *)
Variable float_str : float -> string.

(** [f"{c.name} {c.operator} {c.value} {c.unit or ''}"] *)
Definition constraint_str (constraint : Constraint.t) : string :=
  (Constraint.name constraint ++ " " ++ Constraint.operator constraint ++ " "
   ++ float_str (Constraint.value constraint) ++ " "
   ++ match Constraint.unit constraint with
      | Some u => u
      | None => EmptyString
      end)%string.

Definition _has_risk_constraints (document : PSLDocument.t) : bool :=
  if existsb (fun constraint => any_keyword (constraint_str constraint))
       (PSLDocument.constraints document)
  then true
  else existsb
         (fun entry : string * list string => existsb any_keyword (snd entry))
         (PSLDocument.sections document).

Definition calculate_hrr (document : PSLDocument.t) : float :=
  let base_score := 1.0 in
  let penalties := 0.0 in
  let numbers_outside_fact := _count_numbers_outside_fact document in
  let penalties :=
    if (0 <? numbers_outside_fact)%nat
    then penalties + Py.float_of_nat numbers_outside_fact * 0.1
    else penalties in
  let hyp_count := LRuleValidator.count_items "HYP" document in
  let rollback_count := LRuleValidator.count_items "ROLLBACK" document in
  let penalties :=
    if negb (hyp_count =? rollback_count)%nat then penalties + 0.2
    else penalties in
  let penalties :=
    if _has_risk_constraints document
       && negb (Dict.mem "SAFETY" (PSLDocument.sections document))
    then penalties + 0.15
    else penalties in
  Py.max 0.0 (base_score - penalties).

End Risk.

Definition mandatory_sections : list string :=
  ["FACT"; "TECHNIQUE"; "HYP"; "ROLLBACK"; "SAFETY"; "CHECKLIST"; "3C"]%string.

Definition is_some {A : Type} (o : option A) : bool :=
  match o with Some _ => true | None => false end.

Definition completed_sections (document : PSLDocument.t) : nat :=
  fold_left
    (fun completed section =>
       if Dict.mem section (PSLDocument.sections document) then
         if String.eqb section "3C" && is_some (PSLDocument.three_c document)
         then S completed
         else if negb (String.eqb section "3C") then S completed
         else completed
       else completed)
    mandatory_sections 0%nat.

Definition calculate_psl_coverage (document : PSLDocument.t) : float :=
  Py.float_of_nat (completed_sections document)
  / Py.float_of_nat (List.length mandatory_sections).

Definition calculate_three_c_score (document : PSLDocument.t) : float :=
  match PSLDocument.three_c document with
  | None => 0.0
  | Some three_c =>
      let score := 0.0 in
      let score := if ThreeC.clear three_c then score + 0.34 else score in
      let score := if ThreeC.cheap three_c then score + 0.33 else score in
      let score := if ThreeC.safe three_c then score + 0.33 else score in
      score
  end.

End PSLMetricsCalculator.

(** ** Notions the properties are stated with

    These definitions follow the wording of the specification; the
    theorems below compare them with the functions embedded above. *)

Module Spec.

Local Open Scope float_scope.

(** The items outside [FACT] that contain a number followed by a unit of
    the given pattern, each with the name of its section, in document
    order. *)
Definition offending (pattern : Re.matcher) (doc : PSLDocument.t)
  : list (string * string) :=
  flat_map
    (fun entry : string * list string =>
       if String.eqb (fst entry) "FACT" then []
       else map (pair (fst entry)) (filter (Re.search pattern) (snd entry)))
    (PSLDocument.sections doc).

(** The units the calculator looks for after a number: those of rule
    L-03, and [serves]. *)
Definition counted_units : list string :=
  ["usd"; "min"; "g"; "kg"; "kcal"; Re.degree_C; "mm"; "cm"; "serves"]%string.

(** The items HRR counts: those outside [FACT] with a number followed by
    one of the units of the calculator. *)
Definition counted (doc : PSLDocument.t) : list (string * string) :=
  offending (Re.number_with_unit counted_units) doc.

(** Risk language: one of seven word stems occurs, in any case, in the
    text of a constraint (name, operator, value and unit, separated by
    blanks) or in an item of a section, whichever the section. *)
Definition risk_stems : list string :=
  ["allerg"; "danger"; "risk"; "safe"; "toxic"; "harm"; "warn"]%string.

Definition mentions_risk (s : string) : bool :=
  existsb (fun stem => Py.contains stem (Py.lower s)) risk_stems.

Definition constraint_text (float_str : float -> string) (c : Constraint.t)
  : string :=
  (Constraint.name c ++ " " ++ Constraint.operator c ++ " "
   ++ float_str (Constraint.value c) ++ " "
   ++ match Constraint.unit c with Some u => u | None => EmptyString end)%string.

Definition texts (float_str : float -> string) (doc : PSLDocument.t)
  : list string :=
  map (constraint_text float_str) (PSLDocument.constraints doc)
  ++ flat_map snd (PSLDocument.sections doc).

Definition risky (float_str : float -> string) (doc : PSLDocument.t) : bool :=
  existsb mentions_risk (texts float_str doc).

(** Number of items of a section; a missing section has none. *)
Definition section_size (tag : string) (doc : PSLDocument.t) : nat :=
  match Dict.get tag (PSLDocument.sections doc) with
  | Some items => List.length items
  | None => 0
  end.

(** An observed number or a bound as an exact quantity: no number, an
    infinity, or the number [m * 2 ^ e]. *)
Inductive quantity : Type :=
| NaN
| Infinite (negative : bool)
| Dyadic (m e : Z).

Definition of_float (f : float) : quantity :=
  match Prim2SF f with
  | S754_nan => NaN
  | S754_infinity s => Infinite s
  | S754_zero _ => Dyadic 0 0
  | S754_finite s m e => Dyadic (if s then Z.neg m else Z.pos m) e
  end.

(** The number a value of the execution result stands for: an [int] or
    a [float] is a number, anything else is none. *)
Definition quantity_of (v : PSLMetricsCalculator.value) : option quantity :=
  match v with
  | PSLMetricsCalculator.VInt z => Some (Dyadic z 0)
  | PSLMetricsCalculator.VFloat f => Some (of_float f)
  | _ => None
  end.

(** The order of two quantities, taken on the numbers themselves; what
    is no number is in no order with anything. *)
Definition order (a b : quantity) : option comparison :=
  match a, b with
  | NaN, _ | _, NaN => None
  | Infinite s1, Infinite s2 =>
      Some (if s1 then if s2 then Eq else Lt else if s2 then Gt else Eq)
  | Infinite s, Dyadic _ _ => Some (if s then Lt else Gt)
  | Dyadic _ _, Infinite s => Some (if s then Gt else Lt)
  | Dyadic m1 e1, Dyadic m2 e2 =>
      let e := Z.min e1 e2 in
      Some (m1 * 2 ^ (e1 - e) ?= m2 * 2 ^ (e2 - e))%Z
  end.

(** The five operators of a constraint, read on the order of the observed
    number and the bound. *)
Definition relation (operator : string) : option (comparison -> bool) :=
  if String.eqb operator "<=" then
    Some (fun c => match c with Gt => false | _ => true end)
  else if String.eqb operator ">=" then
    Some (fun c => match c with Lt => false | _ => true end)
  else if String.eqb operator "<" then
    Some (fun c => match c with Lt => true | _ => false end)
  else if String.eqb operator ">" then
    Some (fun c => match c with Gt => true | _ => false end)
  else if String.eqb operator "=" then
    Some (fun c => match c with Eq => true | _ => false end)
  else None.

(** The operator holds of the observed value and the bound: it is one of
    the five, the value is a number, and the two numbers are in the order
    the operator asks for. *)
Definition holds_of (operator : string) (observed : PSLMetricsCalculator.value)
  (bound : float) : bool :=
  match relation operator, quantity_of observed with
  | Some r, Some q =>
      match order q (of_float bound) with
      | Some c => r c
      | None => false
      end
  | _, _ => false
  end.

(** The operator of a constraint holds of the value observed for its
    name; nothing holds when the name is absent from the results. *)
Definition holds (execution_result : option (Dict.t PSLMetricsCalculator.value))
  (c : Constraint.t) : bool :=
  match execution_result with
  | None => false
  | Some d =>
      match Dict.get (Constraint.name c) d with
      | Some v => holds_of (Constraint.operator c) v (Constraint.value c)
      | None => false
      end
  end.

Definition satisfied (execution_result : option (Dict.t PSLMetricsCalculator.value))
  (doc : PSLDocument.t) : nat :=
  List.length (filter (holds execution_result) (PSLDocument.constraints doc)).

(** A mandatory tag is present; [3C] only together with a [ThreeC] value. *)
Definition present (doc : PSLDocument.t) (tag : string) : bool :=
  Dict.mem tag (PSLDocument.sections doc)
  && (negb (String.eqb tag "3C")
      || PSLMetricsCalculator.is_some (PSLDocument.three_c doc)).

(** The seven mandatory tags. *)
Definition mandatory_tags : list string :=
  ["FACT"; "TECHNIQUE"; "HYP"; "ROLLBACK"; "SAFETY"; "CHECKLIST"; "3C"]%string.

Definition present_count (doc : PSLDocument.t) : nat :=
  List.length (filter (present doc) mandatory_tags).

(** The document with one more section (or with the items of a section
    replaced); no other field changes. *)
Definition with_section (tag : string) (items : list string)
  (doc : PSLDocument.t) : PSLDocument.t :=
  PSLDocument.mk (PSLDocument.version doc) (PSLDocument.context doc)
    (PSLDocument.goal doc) (PSLDocument.constraints doc)
    (PSLDocument.resources doc) (PSLDocument.skill doc)
    (Dict.set tag items (PSLDocument.sections doc))
    (PSLDocument.three_c doc) (PSLDocument.gloss doc).

(** HRR as a function of the number of counted items and of the two flat
    penalties. *)
Definition hrr_of (n : nat) (mismatch unsafe : bool) : float :=
  let p := if (0 <? n)%nat then 0.0 + Py.float_of_nat n * 0.1 else 0.0 in
  let p := if mismatch then p + 0.2 else p in
  let p := if unsafe then p + 0.15 else p in
  Py.max 0.0 (1.0 - p).

(** The weight of a flag of the 3C triad. *)
Definition weight (w : float) (flag : bool) : float :=
  w * (if flag then 1.0 else 0.0).

(** The values the specification lists for [three_c_score]. *)
Definition listed_scores : list float := [0.0; 0.33; 0.34; 0.67; 1.0].

(** The issue L-03 reports for an item of a section. *)
Definition l03_issue_of (e : string * string) : Issue.t :=
  LRuleValidator.l03_issue (fst e) (snd e).

(** A pattern that accepts more: every end of a match of the first is an
    end of a match of the second. *)
Definition weaker (m1 m2 : Re.matcher) : Prop :=
  forall p, incl (m1 p) (m2 p).

(** The message of the L-02 issue. *)
Definition l02_message (hyp rollback : nat) : string :=
  ("HYP/ROLLBACK count mismatch. HYP: " ++ Py.str_of_nat hyp
   ++ ", ROLLBACK: " ++ Py.str_of_nat rollback)%string.

End Spec.

(** ** The sections of a text, as the scanner reads its lines *)

Module Layout.

Import PSLFullParser.

(** What a line is to the scanner: blank, a tag line, a list item, or
    anything else. *)
Inductive kind : Type :=
| Blank
| Header (tag : string)
| Item (item : string)
| Other (line : string).

Definition classify (raw : string) : kind :=
  let line := Py.strip raw in
  if String.eqb line EmptyString then Blank
  else if is_header line then Header (tag_of line)
  else if is_item line then Item (item_of line)
  else Other line.

(** The items of the lines before the next tag line. *)
Fixpoint leading_items (ks : list kind) : list string :=
  match ks with
  | [] => []
  | Header _ :: _ => []
  | Item i :: rest => i :: leading_items rest
  | _ :: rest => leading_items rest
  end.

(** The sections in the order of their tag lines, each with its items. *)
Fixpoint sections_of (ks : list kind) : list (string * list string) :=
  match ks with
  | [] => []
  | Header tag :: rest => (tag, leading_items rest) :: sections_of rest
  | _ :: rest => sections_of rest
  end.

Definition text_sections (text : string) : list (string * list string) :=
  sections_of (map classify (Py.split Py.LF text)).

(** The loop of [_parse_sections] leaves through [break]. *)
Fixpoint breaks (text : string) (st : scan) (lines : list string) : bool :=
  match lines with
  | [] => false
  | raw :: rest =>
      match step text st raw with
      | Next st' => breaks text st' rest
      | Break _ => true
      end
  end.

Definition cut_short (text : string) : bool :=
  breaks text initial (Py.split Py.LF text).

(** The lines the scan reaches. The scan ends at the first flags line: a
    line with a colon that is no tag line and no item, met while the open
    section is 3C. [open] is the tag of the open section. *)
Fixpoint reached (open : string) (ks : list kind) : list kind :=
  match ks with
  | [] => []
  | Header tag :: rest => Header tag :: reached tag rest
  | Other line :: rest =>
      if String.eqb open "3C" && Py.contains ":" line then []
      else Other line :: reached open rest
  | k :: rest => k :: reached open rest
  end.

Fixpoint ends_at_flags (open : string) (ks : list kind) : bool :=
  match ks with
  | [] => false
  | Header tag :: rest => ends_at_flags tag rest
  | Other line :: rest =>
      (String.eqb open "3C" && Py.contains ":" line) || ends_at_flags open rest
  | _ :: rest => ends_at_flags open rest
  end.

(** The sections whose tag line the scan reaches, and whether the scan
    ends at a flags line. *)
Definition reached_sections (text : string) : list (string * list string) :=
  sections_of (reached EmptyString (map classify (Py.split Py.LF text))).

Definition stops_at_flags (text : string) : bool :=
  ends_at_flags EmptyString (map classify (Py.split Py.LF text)).

(** Committing a section: its items are stored under its tag, unless the
    tag is empty. *)
Definition commit (d : Dict.t section_value) (b : string * list string)
  : Dict.t section_value :=
  if truthy (Some (fst b)) then Dict.set (fst b) (Items (snd b)) d else d.

(** Every section but the last is committed; the last one is committed
    when it has an item. *)
Fixpoint committed (d : Dict.t section_value) (bs : list (string * list string))
  : Dict.t section_value :=
  match bs with
  | [] => d
  | [b] => match snd b with [] => d | _ :: _ => commit d b end
  | b :: rest => committed (commit d b) rest
  end.

(** The two halves of a text, as [parse] cuts it. *)
Definition lines_of (psl_text : string) : list string :=
  map Py.rstrip (Py.split Py.LF psl_text).

Definition header_text (psl_text : string) : string :=
  Py.join (String Py.LF EmptyString)
    (firstn (_find_header_end (lines_of psl_text)) (lines_of psl_text)).

Definition sections_text (psl_text : string) : string :=
  Py.join (String Py.LF EmptyString)
    (skipn (_find_header_end (lines_of psl_text)) (lines_of psl_text)).

(** Some line of the text is a tag line. *)
Definition has_section_line (text : string) : bool :=
  existsb (fun raw => is_header (Py.strip raw)) (Py.split Py.LF text).

(** Every [ThreeC] object of the dictionary is under the key ['3C']. *)
Definition flags_under_3C (d : Dict.t section_value) : Prop :=
  Forall (fun e : string * section_value =>
            match snd e with
            | Flags _ => fst e = "3C"
            | Items _ => True
            end) d.

(** The item lists of a dictionary of sections. *)
Definition item_lists (d : Dict.t section_value) : Dict.t (list string) :=
  map (fun e : string * section_value =>
         (fst e, match snd e with
                 | Items l => l
                 | Flags _ => []
                 end)) d.

End Layout.

(** ** Sample inputs *)

Module Sample.

(** The text made of the given lines. *)
Definition text_of (lines : list string) : string :=
  Py.join (String Py.LF EmptyString) lines.

(** The example document of the interface description. *)
Definition canonical : string :=
  text_of ["!psl v0.1"; "context: kitchen"; "goal: <free text>";
           "constraints: time<=90min; budget<=12usd; serves=6; repeatability>=0.9";
           "skill: novice"; EmptyString;
           "[FACT]"; "- ..."; "[TECHNIQUE]"; "- ..."; "[HYP]"; "- ...";
           "[ROLLBACK]"; "- ..."; "[SAFETY]"; "- ..."; "[CHECKLIST]"; "- ...";
           "[3C]"; "clear: yes cheap: yes safe: yes"; "[GLOSS]"; "..."].

Definition flags_only : string :=
  text_of ["[3C]"; "clear: yes cheap: yes safe: yes"].

Definition fact_says_clear : string :=
  text_of ["[FACT]"; "- Clear: yes"; "[3C]"; "clear: no cheap: no safe: no"].

Definition flags_after_item : string :=
  text_of ["[3C]"; "- note"; "clear: yes"].

Definition third_step : string :=
  text_of ["[FACT]"; "3) stir"; "- 2 eggs"].

Definition empty_after_flags : string :=
  text_of ["[3C]"; "clear: yes"; "[HYP]"; "[FACT]"; "- a"].

Definition empty_then_full : string :=
  text_of ["[HYP]"; "[FACT]"; "- a"].

Definition empty_before_flags : string :=
  text_of ["[HYP]"; "[FACT]"; "- a"; "[3C]"; "clear: yes"; "[GLOSS]"].

(** A document whose triad is cheap and safe, and not clear. *)
Definition cheap_and_safe : PSLDocument.t :=
  PSLDocument.mk "0.1" "kitchen" "soup" [] None None []
    (Some (ThreeC.mk false true true)) None.

(** A document whose only item is [6 serves], in section TECHNIQUE. *)
Definition six_serves : PSLDocument.t :=
  PSLDocument.mk "0.1" "kitchen" "soup" [] None None
    [("TECHNIQUE", ["6 serves"])] None None.

(** [six_serves] has no constraint, so no float is ever printed for it. *)
Definition no_float_str : float -> string := fun _ => EmptyString.

Definition complete_header : PSLFullParser.header_data :=
  PSLFullParser.mk_header (Some "0.1") (Some "kitchen") (Some "soup")
    (Some []) None None.

(** A header in which no field was found. *)
Definition no_header : PSLFullParser.header_data :=
  PSLFullParser.mk_header None None None None None None.

(** A text that is a header and nothing else. *)
Definition header_only : string :=
  text_of ["!psl v0.1"; "context: kitchen"; "goal: soup"; "constraints:"].

End Sample.

(** ** The header parser ([src/parser/header_parser.py]) *)

Module PSLHeaderParser.

(** [s.split(sep, 1)] for a separator of one character: the text before
    the first separator and the text after it, or the text alone. *)
Fixpoint split_once (sep : ascii) (s : string) : list string :=
  match s with
  | EmptyString => [EmptyString]
  | String c r =>
      if Ascii.eqb c sep then [EmptyString; r]
      else match split_once sep r with
           | h :: t => String c h :: t
           | [] => [String c EmptyString]
           end
  end.

(** [l[1]]; [None] stands for the [IndexError] of a list that is too
    short. *)
Definition item_1 (l : list string) : option string := nth_error l 1.

(** [l[-1]] of a list that is not empty. *)
Definition item_last (l : list string) : string := last l EmptyString.

(** [[x.strip() for x in s.split(sep) if x.strip()]] *)
Definition stripped_parts (sep : ascii) (s : string) : list string :=
  map Py.strip
    (filter (fun x => negb (String.eqb (Py.strip x) EmptyString))
       (Py.split sep s)).

(** The dictionary [result]; a key that is absent is [None]. *)
Record header : Type := mk {
  version : option string;
  context : option string;
  goal : option string;
  constraints : option (list string);
  resources : option (list string);
  skill : option string
}.

Definition empty : header := mk None None None None None None.

Definition _parse_version (line : string) : string :=
  Py.strip (item_last (Py.split "v" line)).

Definition _parse_constraints (line : string) : option (list string) :=
  match item_1 (split_once ":" line) with
  | Some rest => Some (stripped_parts ";" (Py.strip rest))
  | None => None
  end.

Definition _parse_resources (line : string) : option (list string) :=
  match item_1 (split_once ":" line) with
  | Some rest =>
      let resources_str := Py.strip rest in
      let resources_str :=
        if Py.startswith "[" resources_str && Py.endswith_char "]" resources_str
        then Py.slice_1_m1 resources_str else resources_str in
      Some (stripped_parts "," resources_str)
  | None => None
  end.

Definition _parse_skill (line : string) : option string :=
  match item_1 (split_once ":" line) with
  | Some rest => Some (Py.strip rest)
  | None => None
  end.

(** The body of the loop: the branch of the first prefix that matches
    stores its key; [None] is a raised [IndexError]. *)
Definition step (result : header) (line : string) : option header :=
  if Py.startswith "!psl" line then
    Some (mk (Some (_parse_version line)) (context result) (goal result)
            (constraints result) (resources result) (skill result))
  else if Py.startswith "context:" line then
    match item_1 (split_once ":" line) with
    | Some rest =>
        Some (mk (version result) (Some (Py.strip rest)) (goal result)
                (constraints result) (resources result) (skill result))
    | None => None
    end
  else if Py.startswith "goal:" line then
    match item_1 (split_once ":" line) with
    | Some rest =>
        Some (mk (version result) (context result) (Some (Py.strip rest))
                (constraints result) (resources result) (skill result))
    | None => None
    end
  else if Py.startswith "constraints:" line then
    match _parse_constraints line with
    | Some l =>
        Some (mk (version result) (context result) (goal result)
                (Some l) (resources result) (skill result))
    | None => None
    end
  else if Py.startswith "resources:" line then
    match _parse_resources line with
    | Some l =>
        Some (mk (version result) (context result) (goal result)
                (constraints result) (Some l) (skill result))
    | None => None
    end
  else if Py.startswith "skill:" line then
    match _parse_skill line with
    | Some v =>
        Some (mk (version result) (context result) (goal result)
                (constraints result) (resources result) (Some v))
    | None => None
    end
  else Some result.

(** [[line.strip() for line in header_text.split('\n') if line.strip()]] *)
Definition lines_of (header_text : string) : list string :=
  map Py.strip
    (filter (fun line => negb (String.eqb (Py.strip line) EmptyString))
       (Py.split Py.LF header_text)).

Fixpoint run (result : header) (lines : list string) : option header :=
  match lines with
  | [] => Some result
  | line :: rest =>
      match step result line with
      | Some result' => run result' rest
      | None => None
      end
  end.

Definition parse (header_text : string) : option header :=
  run empty (lines_of header_text).

End PSLHeaderParser.

Module HeaderSpec.

(** The line starts with one of the six prefixes the header parser knows. *)
Definition known (line : string) : bool :=
  Py.startswith "!psl" line || Py.startswith "context:" line
  || Py.startswith "goal:" line || Py.startswith "constraints:" line
  || Py.startswith "resources:" line || Py.startswith "skill:" line.

(** The three fields whose value is the text after the colon of their
    line, each with the prefix of its line and its place in the result. *)
Inductive field : Type :=
| Context
| Goal
| Skill.

Definition key (f : field) : string :=
  match f with
  | Context => "context:"
  | Goal => "goal:"
  | Skill => "skill:"
  end.

Definition value_of (f : field) (h : PSLHeaderParser.header) : option string :=
  match f with
  | Context => PSLHeaderParser.context h
  | Goal => PSLHeaderParser.goal h
  | Skill => PSLHeaderParser.skill h
  end.

(** A text without line feed, and a list of such texts. *)
Definition one_line (s : string) : Prop := Py.char_in Py.LF s = false.

Definition all_one_line (l : list string) : Prop :=
  forall s, In s l -> one_line s.

(** An entry of a list field: not empty, without blanks around it, and
    without the separator of the list. *)
Definition entry (sep : ascii) (s : string) : Prop :=
  s <> EmptyString /\ Py.strip s = s /\ Py.char_in sep s = false.

(** The shape of the values of a parsed header: scalar fields without
    blanks around them, a version without the letter [v], lists of clean
    entries. *)
Definition shaped (h : PSLHeaderParser.header) : Prop :=
  (forall v, PSLHeaderParser.version h = Some v ->
             Py.char_in "v" v = false /\ Py.strip v = v)
  /\ (forall v, PSLHeaderParser.context h = Some v -> Py.strip v = v)
  /\ (forall v, PSLHeaderParser.goal h = Some v -> Py.strip v = v)
  /\ (forall cs, PSLHeaderParser.constraints h = Some cs -> Forall (entry ";") cs)
  /\ (forall rs, PSLHeaderParser.resources h = Some rs -> Forall (entry ",") rs)
  /\ (forall v, PSLHeaderParser.skill h = Some v -> Py.strip v = v).

End HeaderSpec.

Module Order.

(** The first list can be obtained from the second by leaving elements
    out. *)
Fixpoint is_subsequence (k l : list string) : bool :=
  match k, l with
  | [], _ => true
  | _ :: _, [] => false
  | x :: k', y :: l' =>
      if String.eqb x y then is_subsequence k' l' else is_subsequence k l'
  end.

(** The tags of the document that rule L-01 knows, in the order in which
    the document has them. *)
Definition known_sections (doc : PSLDocument.t) : list string :=
  filter (fun s => LRuleValidator.str_in s LRuleValidator.expected_order)
    (Dict.keys (PSLDocument.sections doc)).

Definition no_issue (issues : list Issue.t) : bool :=
  match issues with [] => true | _ :: _ => false end.

End Order.

(** ** The quality assessment ([src/metrics/calculator.py]) *)

Module Assessment.

Local Open Scope float_scope.

(** The dictionary [calculate_all_metrics] returns. *)
Record metrics : Type := mk_metrics {
  csr : float;
  hrr : float;
  psl_coverage : float;
  three_c_score : float
}.

Definition _get_quality_level (score : float) : string :=
  if PrimFloat.leb 0.9 score then "EXCELLENT"
  else if PrimFloat.leb 0.7 score then "GOOD"
  else if PrimFloat.leb 0.5 score then "FAIR"
  else "POOR".

(** The dictionary [assess_psl_quality] returns; the keys [error] and
    [document] are each in one of its two shapes only, and [metrics] is
    the empty dictionary ([None]) in the shape of an error. *)
Record assessment : Type := mk_assessment {
  error : option string;
  the_metrics : option metrics;
  quality_score : float;
  validation_issues : nat;
  quality_level : string;
  document : option PSLDocument.t
}.

(** How a call inside the [try] block of [assess_psl_quality] ends: it
    returns a value, or it raises an exception that [except Exception]
    catches, of which only the text [str(e)] is used. *)
Inductive attempt (A : Type) : Type :=
| Done (a : A)
| Failed (text : string).
Arguments Done {A} a.
Arguments Failed {A} text.

Definition returned {A : Type} (m : attempt A) : bool :=
  match m with Done _ => true | Failed _ => false end.

(** A rule that returns its issues for every document. *)
Definition total (rule : PSLDocument.t -> list Issue.t)
  : PSLDocument.t -> attempt (list Issue.t) :=
  fun doc => Done (rule doc).

Section Assess.

(** The text of a float in an f-string, as in the calculator. *)
Variable float_str : float -> string.

Definition calculate_all_metrics (document : PSLDocument.t)
  (execution_result : option (Dict.t PSLMetricsCalculator.value)) : metrics :=
  {| csr := PSLMetricsCalculator.calculate_csr document execution_result;
     hrr := PSLMetricsCalculator.calculate_hrr float_str document;
     psl_coverage := PSLMetricsCalculator.calculate_psl_coverage document;
     three_c_score := PSLMetricsCalculator.calculate_three_c_score document |}.

(** The helper of the parser that is not in its class, as before. *)
Variable _parse_header : string -> PSLFullParser.header_data.

(** The rules L-04 .. L-10 are not in the class of the validator. Here
    the call of such a rule is inside the [try] block, so what matters is
    also whether the call returns: each rule is a parameter that gives the
    issues it appends or raises. *)
Variables rule_l04 rule_l05 rule_l06 rule_l07 rule_l08 rule_l09 rule_l10
  : PSLDocument.t -> attempt (list Issue.t).

(** The call of a rule inside [validate], followed by the rest of
    [validate]: the issues of the rule are appended, or its exception
    leaves [validate]. *)
Definition calling (rule : PSLDocument.t -> attempt (list Issue.t))
  (doc : PSLDocument.t) (issues : list Issue.t)
  (rest : list Issue.t -> attempt (list Issue.t)) : attempt (list Issue.t) :=
  match rule doc with
  | Done appended => rest (issues ++ appended)
  | Failed text => Failed text
  end.

(** [validator.validate(document)] as the [try] block sees it. *)
Definition validate (doc : PSLDocument.t) : attempt (list Issue.t) :=
  let issues := [] in
  let issues := LRuleValidator._validate_l01_section_order doc issues in
  let issues := LRuleValidator._validate_l02_hyp_rollback_pairing doc issues in
  let issues := LRuleValidator._validate_l03_numbers_outside_fact doc issues in
  calling rule_l04 doc issues (fun issues =>
  calling rule_l05 doc issues (fun issues =>
  calling rule_l06 doc issues (fun issues =>
  calling rule_l07 doc issues (fun issues =>
  calling rule_l08 doc issues (fun issues =>
  calling rule_l09 doc issues (fun issues =>
  calling rule_l10 doc issues (fun issues =>
  Done issues))))))).

(** [sum(metrics[key] * weights[key] for key in weights)]: the sum of the
    four weighted scores. How [sum] rounds a sum of floats depends on
    the version of the interpreter, so the sum is a parameter. *)
Variable weighted_sum : metrics -> float.

(** [str(e)] of an exception of [parse]. *)
Variable str_of_exn : exn -> string.

(** The dictionary of the [except] branch. *)
Definition failure (text : string) : assessment :=
  {| error := Some text;
     the_metrics := None;
     quality_score := 0.0;
     validation_issues := 0;
     quality_level := "ERROR";
     document := None |}.

Definition assess_psl_quality (psl_text : string)
  (execution_result : option (Dict.t PSLMetricsCalculator.value)) : assessment :=
  match PSLFullParser.parse _parse_header psl_text with
  | Return document =>
      match validate document with
      | Done issues =>
          let metrics := calculate_all_metrics document execution_result in
          let quality_score := weighted_sum metrics in
          {| error := None;
             the_metrics := Some metrics;
             quality_score := quality_score;
             validation_issues := List.length issues;
             quality_level := _get_quality_level quality_score;
             document := Some document |}
      | Failed text => failure text
      end
  | Raise e => failure (str_of_exn e)
  end.

End Assess.

(** The place of a level among the four levels of a score. *)
Definition rank (level : string) : nat :=
  if String.eqb level "EXCELLENT" then 3
  else if String.eqb level "GOOD" then 2
  else if String.eqb level "FAIR" then 1
  else 0.

End Assessment.

Module Observed.

(** What the calculator can compare of a value of the execution result:
    an integer, a float, or nothing ([None], an absent key, or an object
    that is not a number). *)
Definition number (v : option PSLMetricsCalculator.value)
  : option (Z + float) :=
  match v with
  | Some (PSLMetricsCalculator.VInt z) => Some (inl z)
  | Some (PSLMetricsCalculator.VFloat f) => Some (inr f)
  | _ => None
  end.

(** Two execution results show the same numbers for the constraints of
    the document. *)
Definition agree (doc : PSLDocument.t) (d1 d2 : Dict.t PSLMetricsCalculator.value)
  : Prop :=
  forall c, In c (PSLDocument.constraints doc) ->
            number (Dict.get (Constraint.name c) d1)
            = number (Dict.get (Constraint.name c) d2).

End Observed.

Module Shape.

Import PSLFullParser.

(** The header gives the four keys [parse] reads with a subscript. *)
Definition complete (h : header_data) : bool :=
  match h_version h, h_context h, h_goal h, h_constraints h with
  | Some _, Some _, Some _, Some _ => true
  | _, _, _, _ => false
  end.

(** An item as the section parser stores it: it does not start with a
    digit, a closing bracket or a space, and has no blank at its end. *)
Definition clean_item (x : string) : Prop :=
  Py.lstrip_chars "1234567890) " x = x /\ Py.rstrip x = x.

(** A key of the dictionary of sections: not empty and without colon. *)
Definition clean_key (k : string) : Prop :=
  k <> EmptyString /\ Py.char_in ":" k = false.

Definition clean_entry (e : string * section_value) : Prop :=
  clean_key (fst e)
  /\ match snd e with
     | Items l => Forall clean_item l
     | Flags _ => fst e = "3C"
     end.

(** What the scan keeps true of its variables. *)
Definition clean_scan (st : scan) : Prop :=
  Forall clean_entry (sections st)
  /\ (forall t, current_section st = Some t -> Py.char_in ":" t = false)
  /\ Forall clean_item (current_items st).

End Shape.

(** Two floats that differ as binary64 values are different. *)
Ltac float_discriminate H :=
  apply (f_equal Prim2SF) in H; vm_compute in H; discriminate H.

(** * Properties *)

(** ** Counting and appending loops *)

Lemma count_loop {A : Type} (p : A -> bool) (l : list A) (n : nat) :
  fold_left (fun count x => if p x then S count else count) l n
  = n + List.length (filter p l).
Proof.
  revert n; induction l as [|x l IH]; intro n; simpl.
  - lia.
  - rewrite IH. destruct (p x); simpl; lia.
Qed.

Lemma append_loop {A B : Type} (p : A -> bool) (f : A -> B) (l : list A)
  (acc : list B) :
  fold_left (fun acc x => if p x then acc ++ [f x] else acc) l acc
  = acc ++ map f (filter p l).
Proof.
  revert acc; induction l as [|x l IH]; intro acc; simpl.
  - now rewrite app_nil_r.
  - rewrite IH. destruct (p x); simpl; [now rewrite <- app_assoc|reflexivity].
Qed.

Lemma filter_length_le {A : Type} (p q : A -> bool) (l : list A) :
  (forall x, p x = true -> q x = true) ->
  List.length (filter p l) <= List.length (filter q l).
Proof.
  intro H; induction l as [|x l IH]; simpl; [lia|].
  destruct (p x) eqn:P.
  - rewrite (H x P). simpl. lia.
  - destruct (q x); simpl; lia.
Qed.

(** ** The validator *)

Lemma l01_appends doc issues :
  LRuleValidator._validate_l01_section_order doc issues
  = issues ++ LRuleValidator._validate_l01_section_order doc [].
Proof.
  unfold LRuleValidator._validate_l01_section_order.
  destruct (list_eq_dec string_dec _ _); [now rewrite app_nil_r|reflexivity].
Qed.

Lemma l02_appends doc issues :
  LRuleValidator._validate_l02_hyp_rollback_pairing doc issues
  = issues ++ LRuleValidator._validate_l02_hyp_rollback_pairing doc [].
Proof.
  unfold LRuleValidator._validate_l02_hyp_rollback_pairing.
  destruct (negb _); [reflexivity|now rewrite app_nil_r].
Qed.

Lemma l03_issues doc issues :
  LRuleValidator._validate_l03_numbers_outside_fact doc issues
  = issues ++ map Spec.l03_issue_of (Spec.offending LRuleValidator.number_pattern doc).
Proof.
  unfold LRuleValidator._validate_l03_numbers_outside_fact, Spec.offending.
  generalize (PSLDocument.sections doc) as secs.
  intro secs; revert issues; induction secs as [|[name items] secs IH];
    intro issues; simpl.
  - now rewrite app_nil_r.
  - rewrite IH. destruct (String.eqb name "FACT"); [reflexivity|].
    rewrite (append_loop (Re.search LRuleValidator.number_pattern)
               (LRuleValidator.l03_issue name)).
    rewrite map_app, map_map, <- app_assoc. reflexivity.
Qed.

Lemma l03_appends doc issues :
  LRuleValidator._validate_l03_numbers_outside_fact doc issues
  = issues ++ LRuleValidator._validate_l03_numbers_outside_fact doc [].
Proof. now rewrite (l03_issues doc issues), (l03_issues doc []). Qed.

(** C2. [validate] runs the ten rules in the order L-01 .. L-10 on the
    same document, starting from the empty list; every rule appends its
    issues (none, one or several) after the issues of the rules before
    it, whatever these were, so the result is the concatenation of what
    each rule reports. *)
Theorem validate_collects_all_ten_rules :
  forall (rule_l04 rule_l05 rule_l06 rule_l07 rule_l08 rule_l09 rule_l10
            : PSLDocument.t -> list Issue.t) (doc : PSLDocument.t),
    LRuleValidator.validate rule_l04 rule_l05 rule_l06 rule_l07 rule_l08
      rule_l09 rule_l10 doc
    = LRuleValidator._validate_l01_section_order doc []
      ++ LRuleValidator._validate_l02_hyp_rollback_pairing doc []
      ++ LRuleValidator._validate_l03_numbers_outside_fact doc []
      ++ rule_l04 doc ++ rule_l05 doc ++ rule_l06 doc ++ rule_l07 doc
      ++ rule_l08 doc ++ rule_l09 doc ++ rule_l10 doc.
Proof.
  intros. unfold LRuleValidator.validate, LRuleValidator.appending.
  rewrite (l03_appends doc (LRuleValidator._validate_l02_hyp_rollback_pairing _ _)).
  rewrite (l02_appends doc (LRuleValidator._validate_l01_section_order _ _)).
  repeat rewrite <- app_assoc. reflexivity.
Qed.

(** C8. Rule L-02 appends exactly one issue, of level [error] and with a
    message that gives the two counts, when the number of HYP items
    differs from the number of ROLLBACK items, a missing section having
    no item; it appends nothing when the two numbers are equal. *)
Theorem l02_one_error_when_counts_differ :
  forall (doc : PSLDocument.t) (issues : list Issue.t),
    LRuleValidator._validate_l02_hyp_rollback_pairing doc issues
    = issues ++
      (if (Spec.section_size "HYP" doc =? Spec.section_size "ROLLBACK" doc)%nat
       then []
       else [Issue.mk "L-02" "error"
               (Spec.l02_message (Spec.section_size "HYP" doc)
                  (Spec.section_size "ROLLBACK" doc))]).
Proof.
  intros doc issues.
  unfold LRuleValidator._validate_l02_hyp_rollback_pairing,
    LRuleValidator.count_items, Spec.section_size, Spec.l02_message.
  destruct (Dict.get "HYP" _) as [h|]; destruct (Dict.get "ROLLBACK" _) as [r|];
    simpl List.length;
    match goal with |- context [(?a =? ?b)%nat] => destruct (a =? b)%nat end;
    simpl; now rewrite ?app_nil_r.
Qed.

(** ** The metrics *)

(** *** Exact comparison of binary64 numbers *)

Lemma digits2_bounds (m : positive) :
  (2 ^ (Z.pos (digits2_pos m) - 1) <= Z.pos m < 2 ^ Z.pos (digits2_pos m))%Z.
Proof.
  induction m as [m IH|m IH|]; cbn [digits2_pos].
  - rewrite Pos2Z.inj_succ.
    replace (Z.succ (Z.pos (digits2_pos m)) - 1)%Z
      with (Z.succ (Z.pos (digits2_pos m) - 1)) by lia.
    rewrite !Z.pow_succ_r by lia. lia.
  - rewrite Pos2Z.inj_succ.
    replace (Z.succ (Z.pos (digits2_pos m)) - 1)%Z
      with (Z.succ (Z.pos (digits2_pos m) - 1)) by lia.
    rewrite !Z.pow_succ_r by lia. lia.
  - simpl. lia.
Qed.

(** The mantissa of a binary64 number has at most 53 digits, and exactly
    53 above the least exponent. *)
Lemma bounded_mantissa m e :
  bounded prec emax m e = true ->
  (Z.pos m < 2 ^ 53 /\ (-1074 < e -> 2 ^ 52 <= Z.pos m))%Z.
Proof.
  unfold bounded, canonical_mantissa, fexp, SpecFloat.emin, prec, emax.
  intro H. apply andb_true_iff in H as [H _]. apply Z.eqb_eq in H.
  pose proof (digits2_bounds m) as [L U].
  split.
  - assert (D : (Z.pos (digits2_pos m) <= 53)%Z) by lia.
    apply Z.lt_le_trans with (1 := U). apply Z.pow_le_mono_r; lia.
  - intro E. assert (D : Z.pos (digits2_pos m) = 53%Z) by lia.
    rewrite D in L. exact L.
Qed.

Lemma lower_exponent m1 e1 m2 e2 :
  bounded prec emax m1 e1 = true -> bounded prec emax m2 e2 = true ->
  (e1 < e2)%Z ->
  (Z.pos m1 * 2 ^ (e1 - Z.min e1 e2) < Z.pos m2 * 2 ^ (e2 - Z.min e1 e2))%Z.
Proof.
  intros B1 B2 L.
  destruct (bounded_mantissa _ _ B1) as [U1 _].
  destruct (bounded_mantissa _ _ B2) as [_ L2].
  assert (E1 : (-1074 <= e1)%Z).
  { revert B1. unfold bounded, canonical_mantissa, fexp, SpecFloat.emin, prec, emax.
    intro H. apply andb_true_iff in H as [H _]. apply Z.eqb_eq in H. lia. }
  specialize (L2 ltac:(lia)).
  rewrite Z.min_l by lia. rewrite Z.sub_diag, Z.pow_0_r, Z.mul_1_r.
  assert (P : (2 ^ 1 <= 2 ^ (e2 - e1))%Z) by (apply Z.pow_le_mono_r; lia).
  change (2 ^ 1)%Z with 2%Z in P.
  change (2 ^ 53)%Z with 9007199254740992%Z in U1.
  change (2 ^ 52)%Z with 4503599627370496%Z in L2. nia.
Qed.

Lemma same_exponent (m1 m2 : Z) e :
  (m1 * 2 ^ (e - Z.min e e) ?= m2 * 2 ^ (e - Z.min e e))%Z = (m1 ?= m2)%Z.
Proof. rewrite Z.min_id, Z.sub_diag, Z.pow_0_r, !Z.mul_1_r. reflexivity. Qed.

(** The comparison of two floats is the order of the numbers they stand
    for. *)
Lemma order_floats (x y : float) :
  Spec.order (Spec.of_float x) (Spec.of_float y)
  = SFcompare (Prim2SF x) (Prim2SF y).
Proof.
  pose proof (Prim2SF_valid x) as Vx. pose proof (Prim2SF_valid y) as Vy.
  unfold Spec.of_float.
  destruct (Prim2SF x) as [sx|sx| |sx mx ex], (Prim2SF y) as [sy|sy| |sy my ey];
    try reflexivity.
  - cbn [Spec.order SFcompare]. f_equal.
    assert (P : (0 < 2 ^ (ey - Z.min 0 ey))%Z) by (apply Z.pow_pos_nonneg; lia).
    destruct sy.
    + apply Z.compare_gt_iff. simpl (0 * _)%Z. nia.
    + apply Z.compare_lt_iff. simpl (0 * _)%Z. nia.
  - cbn [Spec.order SFcompare]. f_equal.
    assert (P : (0 < 2 ^ (ex - Z.min ex 0))%Z) by (apply Z.pow_pos_nonneg; lia).
    destruct sx.
    + apply Z.compare_lt_iff. simpl (0 * _)%Z. nia.
    + apply Z.compare_gt_iff. simpl (0 * _)%Z. nia.
  - cbn [Spec.order SFcompare]. f_equal.
    cbn [SpecFloat.valid_binary] in Vx, Vy.
    assert (Px : (0 < 2 ^ (ex - Z.min ex ey))%Z) by (apply Z.pow_pos_nonneg; lia).
    assert (Py : (0 < 2 ^ (ey - Z.min ex ey))%Z) by (apply Z.pow_pos_nonneg; lia).
    destruct sx, sy.
    + destruct (Z.compare_spec ex ey) as [E|L|G].
      * subst ey. rewrite same_exponent.
        change (Z.neg mx ?= Z.neg my)%Z with (CompOpp (Z.pos mx ?= Z.pos my)%Z).
        reflexivity.
      * apply Z.compare_gt_iff.
        pose proof (lower_exponent _ _ _ _ Vx Vy L).
        change (Z.neg mx) with (- Z.pos mx)%Z.
        change (Z.neg my) with (- Z.pos my)%Z. lia.
      * apply Z.compare_lt_iff.
        pose proof (lower_exponent _ _ _ _ Vy Vx ltac:(lia)) as H.
        rewrite (Z.min_comm ey ex) in H.
        change (Z.neg mx) with (- Z.pos mx)%Z.
        change (Z.neg my) with (- Z.pos my)%Z. lia.
    + apply Z.compare_lt_iff. change (Z.neg mx) with (- Z.pos mx)%Z. nia.
    + apply Z.compare_gt_iff. change (Z.neg my) with (- Z.pos my)%Z. nia.
    + destruct (Z.compare_spec ex ey) as [E|L|G].
      * subst ey. rewrite same_exponent. reflexivity.
      * apply Z.compare_lt_iff. apply (lower_exponent _ _ _ _ Vx Vy L).
      * apply Z.compare_gt_iff.
        pose proof (lower_exponent _ _ _ _ Vy Vx ltac:(lia)) as H.
        rewrite (Z.min_comm ey ex) in H. lia.
Qed.

Lemma order_opposite a b :
  Spec.order b a = option_map CompOpp (Spec.order a b).
Proof.
  destruct a as [|[]|m1 e1], b as [|[]|m2 e2]; try reflexivity.
  cbn [Spec.order option_map]. rewrite (Z.min_comm e2 e1).
  now rewrite (Z.compare_antisym (m1 * _)%Z).
Qed.

(** The comparison of an [int] with a float is the order of the two
    numbers. *)
Lemma order_int_float (z : Z) (y : float) :
  Spec.order (Spec.Dyadic z 0) (Spec.of_float y)
  = PSLMetricsCalculator.compare_int_float z y.
Proof.
  unfold Spec.of_float, PSLMetricsCalculator.compare_int_float.
  destruct (Prim2SF y) as [sy|sy| |sy my ey]; try reflexivity.
  - cbn [Spec.order]. now rewrite Z.min_id, Z.sub_diag, Z.pow_0_r, Z.mul_1_r.
  - cbn [Spec.order]. f_equal.
    destruct (Z.leb_spec 0 ey) as [L|L].
    + rewrite Z.min_l by lia. now rewrite !Z.sub_0_r, Z.pow_0_r, Z.mul_1_r.
    + rewrite Z.min_r by lia. now rewrite Z.sub_diag, Z.pow_0_r, Z.mul_1_r.
Qed.

(** Each of the five comparisons of the calculator decides the order of
    the observed number and the bound. *)
Lemma compared (v : PSLMetricsCalculator.value) (bound : float) :
  PSLMetricsCalculator.le v bound = Spec.holds_of "<=" v bound
  /\ PSLMetricsCalculator.ge v bound = Spec.holds_of ">=" v bound
  /\ PSLMetricsCalculator.lt v bound = Spec.holds_of "<" v bound
  /\ PSLMetricsCalculator.gt v bound = Spec.holds_of ">" v bound
  /\ PSLMetricsCalculator.eq v bound = Spec.holds_of "=" v bound.
Proof.
  unfold Spec.holds_of. cbn [Spec.relation String.eqb Ascii.eqb Bool.eqb].
  destruct v as [|z|x|]; cbn [Spec.quantity_of]; [now repeat split| | |now repeat split].
  - rewrite order_int_float.
    unfold PSLMetricsCalculator.le, PSLMetricsCalculator.ge, PSLMetricsCalculator.lt,
      PSLMetricsCalculator.gt, PSLMetricsCalculator.eq.
    destruct (PSLMetricsCalculator.compare_int_float z bound) as [[| |]|];
      now repeat split.
  - unfold PSLMetricsCalculator.le, PSLMetricsCalculator.ge, PSLMetricsCalculator.lt,
      PSLMetricsCalculator.gt, PSLMetricsCalculator.eq.
    rewrite !leb_spec, !ltb_spec, eqb_spec.
    unfold SFleb, SFltb, SFeqb.
    rewrite <- (order_floats bound x), <- (order_floats x bound).
    rewrite (order_opposite (Spec.of_float x) (Spec.of_float bound)).
    destruct (Spec.order (Spec.of_float x) (Spec.of_float bound)) as [[| |]|];
      now repeat split.
Qed.

Lemma satisfied_is_holds (c : Constraint.t) (v : PSLMetricsCalculator.value) :
  PSLMetricsCalculator._is_constraint_satisfied c v
  = Spec.holds_of (Constraint.operator c) v (Constraint.value c).
Proof.
  destruct (compared v (Constraint.value c)) as [Le [Ge [Lt [Gt Eq]]]].
  unfold PSLMetricsCalculator._is_constraint_satisfied.
  destruct (String.eqb (Constraint.operator c) "<=") eqn:E1;
    [apply String.eqb_eq in E1; now rewrite E1|].
  destruct (String.eqb (Constraint.operator c) ">=") eqn:E2;
    [apply String.eqb_eq in E2; now rewrite E2|].
  destruct (String.eqb (Constraint.operator c) "<") eqn:E3;
    [apply String.eqb_eq in E3; now rewrite E3|].
  destruct (String.eqb (Constraint.operator c) ">") eqn:E4;
    [apply String.eqb_eq in E4; now rewrite E4|].
  destruct (String.eqb (Constraint.operator c) "=") eqn:E5;
    [apply String.eqb_eq in E5; now rewrite E5|].
  unfold Spec.holds_of, Spec.relation. now rewrite E1, E2, E3, E4, E5.
Qed.

Lemma satisfied_loop er (cs : list Constraint.t) (n : nat) :
  fold_left
    (fun satisfied_count constraint =>
       let actual_value :=
         PSLMetricsCalculator.observed er (Constraint.name constraint) in
       if PSLMetricsCalculator.is_none actual_value then satisfied_count
       else if PSLMetricsCalculator._is_constraint_satisfied constraint actual_value
            then S satisfied_count
            else satisfied_count) cs n
  = n + List.length (filter (Spec.holds er) cs).
Proof.
  rewrite <- count_loop. revert n.
  induction cs as [|c cs IH]; intro n; simpl; [reflexivity|].
  rewrite IH. f_equal.
  unfold Spec.holds, PSLMetricsCalculator.observed.
  destruct er as [d|]; simpl; [|reflexivity].
  destruct (Dict.get (Constraint.name c) d) as [v|]; simpl; [|reflexivity].
  rewrite satisfied_is_holds. destruct v; try reflexivity.
  unfold Spec.holds_of. now destruct (Spec.relation _).
Qed.

(** C3. CSR is 1.0 when the document has no constraint, whatever the
    execution result; with constraints it is 0.0 when the execution result
    is absent ([None], or a dictionary without entries, which the code
    does not tell apart and in which no constraint is observed); otherwise
    it is the number of constraints whose operator holds of the value
    observed under their name, divided by the number of all constraints:
    a constraint whose name is not in the execution result counts in the
    denominator only. An operator holds when it is one of [<=], [>=],
    [<], [>], [=], the observed value is an [int] or a [float], and the
    observed number and the bound, compared as exact numbers, are in the
    order it names; nothing holds of a value that is no number. *)
Theorem csr_is_satisfied_over_total :
  forall (doc : PSLDocument.t)
         (execution_result : option (Dict.t PSLMetricsCalculator.value)),
    PSLMetricsCalculator.calculate_csr doc execution_result
    = match PSLDocument.constraints doc with
      | [] => 1.0%float
      | _ :: _ =>
          match execution_result with
          | None | Some [] => 0.0%float
          | Some (_ :: _) =>
              (Py.float_of_nat (Spec.satisfied execution_result doc)
               / Py.float_of_nat (List.length (PSLDocument.constraints doc)))%float
          end
      end.
Proof.
  intros doc er. unfold PSLMetricsCalculator.calculate_csr, Spec.satisfied.
  destruct (PSLDocument.constraints doc) as [|c cs]; [reflexivity|].
  destruct er as [[|e d]|]; try reflexivity.
  cbv beta iota delta [PSLMetricsCalculator.falsy].
  now rewrite satisfied_loop.
Qed.

(** Nothing is observed in an absent or empty execution result. *)
Lemma satisfied_without_results doc er :
  PSLMetricsCalculator.falsy er = true -> Spec.satisfied er doc = 0.
Proof.
  intro F. unfold Spec.satisfied.
  assert (H : forall c, Spec.holds er c = false).
  { intro c. destruct er as [[|e d]|]; try discriminate; reflexivity. }
  induction (PSLDocument.constraints doc) as [|c cs IH]; simpl; [reflexivity|].
  now rewrite H.
Qed.

(** A constraint whose name is not a key of the execution result does not
    hold. *)
Lemma unobserved_never_holds d c :
  Dict.get (Constraint.name c) d = None -> Spec.holds (Some d) c = false.
Proof. intro H. unfold Spec.holds. now rewrite H. Qed.

(** C5, as the specification lists the values: a document whose triad is
    cheap and safe but not clear scores 0.66, which is not listed. *)
Lemma three_c_score_not_listed :
  PSLMetricsCalculator.calculate_three_c_score Sample.cheap_and_safe = 0.66%float
  /\ ~ In (PSLMetricsCalculator.calculate_three_c_score Sample.cheap_and_safe)
         Spec.listed_scores.
Proof.
  split; [vm_compute; reflexivity|].
  intro H. simpl in H.
  repeat (destruct H as [H|H]; [float_discriminate H|]). exact H.
Qed.

(** C5, amended. The score is 0.0 without a [ThreeC] value and otherwise
    0.34 for clear plus 0.33 for cheap plus 0.33 for safe; its value is
    one of 0.0, 0.33, 0.34, 0.66, 0.67 and 1.0. *)
Theorem three_c_score_values :
  forall doc : PSLDocument.t,
    PSLMetricsCalculator.calculate_three_c_score doc
    = match PSLDocument.three_c doc with
      | None => 0.0%float
      | Some t =>
          (Spec.weight 0.34 (ThreeC.clear t) + Spec.weight 0.33 (ThreeC.cheap t)
           + Spec.weight 0.33 (ThreeC.safe t))%float
      end
    /\ In (PSLMetricsCalculator.calculate_three_c_score doc)
         [0.0; 0.33; 0.34; 0.66; 0.67; 1.0]%float.
Proof.
  intro doc. unfold PSLMetricsCalculator.calculate_three_c_score.
  destruct (PSLDocument.three_c doc) as [[[] [] []]|]; vm_compute; intuition.
Qed.

(** *** Coverage *)

Lemma fold_left_ext {A B : Type} (f g : A -> B -> A) (l : list B) (a : A) :
  (forall a x, f a x = g a x) -> fold_left f l a = fold_left g l a.
Proof.
  intro H; revert a; induction l as [|x l IH]; intro a; simpl; [reflexivity|].
  now rewrite H, IH.
Qed.

Lemma completed_is_present_count doc :
  PSLMetricsCalculator.completed_sections doc = Spec.present_count doc.
Proof.
  unfold PSLMetricsCalculator.completed_sections, Spec.present_count.
  change PSLMetricsCalculator.mandatory_sections with Spec.mandatory_tags.
  rewrite (fold_left_ext _ (fun c s => if Spec.present doc s then S c else c)).
  - now rewrite count_loop.
  - intros c s. unfold Spec.present.
    destruct (Dict.mem s _), (String.eqb s "3C"),
      (PSLMetricsCalculator.is_some _); reflexivity.
Qed.

Lemma get_set {V : Type} (k k' : string) (v : V) (d : Dict.t V) :
  Dict.get k' (Dict.set k v d) = if String.eqb k' k then Some v else Dict.get k' d.
Proof.
  induction d as [|[k0 v0] d IH]; simpl.
  - reflexivity.
  - destruct (String.eqb k k0) eqn:E; simpl.
    + apply String.eqb_eq in E; subst k0.
      destruct (String.eqb k' k); reflexivity.
    + rewrite IH. destruct (String.eqb k' k0) eqn:E0; [|reflexivity].
      apply String.eqb_eq in E0; subst k0.
      rewrite String.eqb_sym, E. reflexivity.
Qed.

Lemma mem_set {V : Type} (k k' : string) (v : V) (d : Dict.t V) :
  Dict.mem k' (Dict.set k v d) = String.eqb k' k || Dict.mem k' d.
Proof.
  unfold Dict.mem. rewrite get_set. destruct (String.eqb k' k); reflexivity.
Qed.

Lemma present_with_section doc tag items t :
  Spec.present doc t = true ->
  Spec.present (Spec.with_section tag items doc) t = true.
Proof.
  unfold Spec.present, Spec.with_section; simpl. rewrite mem_set.
  intro H. apply andb_true_iff in H as [M R]. rewrite M, R.
  now rewrite orb_true_r.
Qed.

Lemma filter_length {A : Type} (p : A -> bool) (l : list A) :
  List.length (filter p l) <= List.length l.
Proof. induction l as [|x l IH]; simpl; [lia|]. destruct (p x); simpl; lia. Qed.

Lemma sevenths_increase (a b : nat) :
  a <= b -> b <= 7 ->
  PrimFloat.leb (Py.float_of_nat a / Py.float_of_nat 7)
    (Py.float_of_nat b / Py.float_of_nat 7) = true.
Proof.
  intros AB B7.
  do 8 (destruct a as [|a]; [do 8 (destruct b as [|b];
    [first [lia | vm_compute; reflexivity]|]); lia|]); lia.
Qed.

(** C9. The coverage is the number of the tags FACT, TECHNIQUE, HYP,
    ROLLBACK, SAFETY, CHECKLIST and 3C that are present, divided by
    seven, where [3C] is present only when the document also has a
    [ThreeC] value; and giving the document one more section, whichever
    it is and all others kept, does not lower the coverage. *)
Theorem coverage_fraction_and_monotone :
  forall (doc : PSLDocument.t) (tag : string) (items : list string),
    PSLMetricsCalculator.calculate_psl_coverage doc
    = (Py.float_of_nat
         (List.length
            (filter (Spec.present doc)
               ["FACT"; "TECHNIQUE"; "HYP"; "ROLLBACK"; "SAFETY"; "CHECKLIST";
                "3C"]))
       / Py.float_of_nat 7)%float
    /\ PrimFloat.leb (PSLMetricsCalculator.calculate_psl_coverage doc)
         (PSLMetricsCalculator.calculate_psl_coverage
            (Spec.with_section tag items doc)) = true.
Proof.
  intros doc tag items.
  unfold PSLMetricsCalculator.calculate_psl_coverage.
  rewrite !completed_is_present_count.
  change (List.length PSLMetricsCalculator.mandatory_sections) with 7.
  split; [reflexivity|]. fold Spec.mandatory_tags.
  change (List.length (filter (Spec.present doc) Spec.mandatory_tags))
    with (Spec.present_count doc).
  apply sevenths_increase.
  - apply filter_length_le, present_with_section.
  - apply (filter_length (Spec.present _) Spec.mandatory_tags).
Qed.

(** *** HRR *)

Lemma count_is_offending doc :
  PSLMetricsCalculator._count_numbers_outside_fact doc
  = List.length (Spec.counted doc).
Proof.
  unfold PSLMetricsCalculator._count_numbers_outside_fact, Spec.counted, Spec.offending.
  change (Re.number_with_unit Spec.counted_units)
    with PSLMetricsCalculator.number_pattern.
  generalize (PSLDocument.sections doc) as secs. intro secs.
  enough (G : forall n,
    fold_left
      (fun count (entry : string * list string) =>
         let (section_name, items) := entry in
         if String.eqb section_name "FACT" then count
         else fold_left
                (fun count item =>
                   if Re.search PSLMetricsCalculator.number_pattern item
                   then S count else count) items count) secs n
    = n + List.length
            (flat_map
               (fun entry : string * list string =>
                  if String.eqb (fst entry) "FACT" then []
                  else map (pair (fst entry))
                         (filter (Re.search PSLMetricsCalculator.number_pattern)
                            (snd entry))) secs)) by apply (G 0).
  induction secs as [|[name items] secs IH]; intro n; simpl; [lia|].
  rewrite IH, length_app. destruct (String.eqb name "FACT"); simpl; [lia|].
  rewrite count_loop, length_map. lia.
Qed.

Lemma existsb_map {A B : Type} (f : B -> bool) (g : A -> B) (l : list A) :
  existsb f (map g l) = existsb (fun x => f (g x)) l.
Proof. induction l as [|x l IH]; simpl; [reflexivity|now rewrite IH]. Qed.

Lemma existsb_flat_map {A B : Type} (f : B -> bool) (g : A -> list B)
  (l : list A) :
  existsb f (flat_map g l) = existsb (fun x => existsb f (g x)) l.
Proof.
  induction l as [|x l IH]; simpl; [reflexivity|].
  now rewrite existsb_app, IH.
Qed.

(** The risk test of the calculator finds risk language where there is
    some. *)
Lemma risk_is_risky float_str doc :
  PSLMetricsCalculator._has_risk_constraints float_str doc
  = Spec.risky float_str doc.
Proof.
  unfold PSLMetricsCalculator._has_risk_constraints, Spec.risky, Spec.texts.
  rewrite existsb_app, existsb_map, existsb_flat_map.
  change Spec.mentions_risk with PSLMetricsCalculator.any_keyword.
  change (Spec.constraint_text float_str)
    with (PSLMetricsCalculator.constraint_str float_str).
  now destruct (existsb _ (PSLDocument.constraints doc)).
Qed.

Lemma weaker_refl m : Spec.weaker m m.
Proof. intros p x H; exact H. Qed.

Lemma weaker_seq m1 m1' m2 m2' :
  Spec.weaker m1 m1' -> Spec.weaker m2 m2' -> Spec.weaker (Re.seq m1 m2) (Re.seq m1' m2').
Proof.
  intros H1 H2 p x Hx. unfold Re.seq in *.
  apply in_flat_map in Hx as [q [Hq Hx]].
  apply in_flat_map. exists q. split; [now apply H1|now apply H2].
Qed.

Lemma weaker_alt ms ms' : incl ms ms' -> Spec.weaker (Re.alt ms) (Re.alt ms').
Proof.
  intros H p x Hx. unfold Re.alt in *.
  apply in_flat_map in Hx as [m [Hm Hx]].
  apply in_flat_map. exists m. split; [now apply H|exact Hx].
Qed.

Lemma weaker_units units units' :
  incl units units' ->
  Spec.weaker (Re.number_with_unit units) (Re.number_with_unit units').
Proof.
  intro H. unfold Re.number_with_unit.
  repeat (apply weaker_seq; [apply weaker_refl|]).
  apply weaker_seq; [|apply weaker_refl].
  apply weaker_alt, incl_map, H.
Qed.

Lemma weaker_search m1 m2 s :
  Spec.weaker m1 m2 -> Re.search m1 s = true -> Re.search m2 s = true.
Proof.
  intro W. unfold Re.search. generalize (@None ascii) as prev.
  induction s as [|c s IH]; intros prev H; simpl in *.
  - rewrite orb_false_r in *. unfold Re.matches_at in *.
    destruct (m1 (prev, EmptyString)) as [|x l] eqn:E; [discriminate|].
    assert (I : In x (m2 (prev, EmptyString))) by (apply W; rewrite E; now left).
    destruct (m2 (prev, EmptyString)); [destruct I|reflexivity].
  - apply orb_true_iff in H as [H|H]; apply orb_true_iff.
    + left. unfold Re.matches_at in *.
      destruct (m1 (prev, String c s)) as [|x l] eqn:E; [discriminate|].
      assert (I : In x (m2 (prev, String c s))) by (apply W; rewrite E; now left).
      destruct (m2 (prev, String c s)); [destruct I|reflexivity].
    + right. now apply IH.
Qed.

Lemma l03_pattern_is_counted item :
  Re.search LRuleValidator.number_pattern item = true ->
  Re.search (Re.number_with_unit Spec.counted_units) item = true.
Proof.
  apply weaker_search, weaker_units.
  intros u H. simpl in *. tauto.
Qed.

Lemma offending_l03_is_counted doc :
  incl (Spec.offending LRuleValidator.number_pattern doc) (Spec.counted doc).
Proof.
  unfold Spec.counted, Spec.offending. intros e I.
  apply in_flat_map in I as [[name items] [I E]]. cbn [fst snd] in E.
  apply in_flat_map. exists (name, items). split; [exact I|]. cbn [fst snd].
  destruct (String.eqb name "FACT"); [exact E|].
  apply in_map_iff in E as [item [<- F]]. apply filter_In in F as [F S].
  apply in_map, filter_In. split; [exact F|now apply l03_pattern_is_counted].
Qed.

Lemma offending_l03_le_counted doc :
  List.length (Spec.offending LRuleValidator.number_pattern doc)
  <= List.length (Spec.counted doc).
Proof.
  unfold Spec.counted, Spec.offending.
  induction (PSLDocument.sections doc) as [|[name items] secs IH]; simpl; [lia|].
  rewrite !length_app. destruct (String.eqb name "FACT"); simpl; [lia|].
  rewrite !length_map.
  pose proof (filter_length_le _ _ items l03_pattern_is_counted). lia.
Qed.

Lemma count_items_is_size tag doc :
  LRuleValidator.count_items tag doc = Spec.section_size tag doc.
Proof.
  unfold LRuleValidator.count_items, Spec.section_size.
  destruct (Dict.get tag _); reflexivity.
Qed.

(** C4, as stated: HRR would be 1.0 for a document without L-03
    violation, with as many HYP as ROLLBACK items and without risk
    language. The document whose only item is [6 serves], in section
    TECHNIQUE, is such a document and scores 0.9: the pattern of the
    calculator also takes [serves] for a unit. *)
Lemma hrr_counts_serves :
  LRuleValidator._validate_l03_numbers_outside_fact Sample.six_serves [] = []
  /\ Spec.section_size "HYP" Sample.six_serves = Spec.section_size "ROLLBACK" Sample.six_serves
  /\ Spec.risky Sample.no_float_str Sample.six_serves = false
  /\ PSLMetricsCalculator.calculate_hrr Sample.no_float_str Sample.six_serves = 0.9%float
  /\ PSLMetricsCalculator.calculate_hrr Sample.no_float_str Sample.six_serves <> 1.0%float.
Proof.
  repeat split; try (vm_compute; reflexivity).
  intro H. float_discriminate H.
Qed.

(** C4, amended. HRR is 1.0 minus the penalties, and not below 0.0: 0.1
    for every item outside FACT that contains a number followed by one of
    [usd min g kg kcal °C mm cm serves] (an item counts once), 0.2 when
    the numbers of HYP and ROLLBACK items differ, and 0.15 when one of the
    stems [allerg danger risk safe toxic harm warn] occurs in a constraint
    or in an item of any section and there is no SAFETY section. Every
    issue of rule L-03 is the issue of a counted item, so the violations
    of L-03 are among the counted items and not more than these; without
    any penalty HRR is exactly 1.0. *)
Theorem hrr_penalties :
  forall (float_str : float -> string) (doc : PSLDocument.t),
    PSLMetricsCalculator.calculate_hrr float_str doc
    = Spec.hrr_of
        (List.length (Spec.counted doc))
        (negb (Spec.section_size "HYP" doc =? Spec.section_size "ROLLBACK" doc)%nat)
        (Spec.risky float_str doc
         && negb (Dict.mem "SAFETY" (PSLDocument.sections doc)))
    /\ incl (LRuleValidator._validate_l03_numbers_outside_fact doc [])
         (map Spec.l03_issue_of (Spec.counted doc))
    /\ List.length (LRuleValidator._validate_l03_numbers_outside_fact doc [])
       <= List.length (Spec.counted doc)
    /\ Spec.hrr_of 0 false false = 1.0%float.
Proof.
  intros fs doc. split; [|split; [|split]].
  - unfold PSLMetricsCalculator.calculate_hrr, Spec.hrr_of.
    rewrite count_is_offending, !count_items_is_size, risk_is_risky. reflexivity.
  - rewrite l03_issues. simpl. apply incl_map, offending_l03_is_counted.
  - rewrite l03_issues. simpl. rewrite length_map. apply offending_l03_le_counted.
  - vm_compute. reflexivity.
Qed.

(** ** The section parser *)

Section Scanner.

Import PSLFullParser Layout.

Lemma truthy_name cs : truthy (Some (section_name cs)) = truthy cs.
Proof. destruct cs as [[|c s]|]; reflexivity. Qed.

Lemma falsy_is_not_3C cs :
  truthy cs = false -> String.eqb (section_name cs) "3C" = false.
Proof. destruct cs as [[|c s]|]; [reflexivity|discriminate|reflexivity]. Qed.

(** One iteration, read through the kind of the line. *)
Lemma step_by_kind text st raw :
  step text st raw =
  match classify raw with
  | Blank => Next st
  | Header tag =>
      Next {| sections := commit (sections st)
                            (section_name (current_section st), current_items st);
              current_section := Some tag;
              current_items := [] |}
  | Item item =>
      if truthy (current_section st)
      then Next {| sections := sections st;
                   current_section := current_section st;
                   current_items := current_items st ++ [item] |}
      else Next st
  | Other line =>
      if String.eqb (section_name (current_section st)) "3C"
         && Py.contains ":" line
      then Break {| sections := Dict.set "3C" (Flags (_parse_three_c text))
                                  (sections st);
                    current_section := current_section st;
                    current_items := current_items st |}
      else Next st
  end.
Proof.
  unfold step, classify, commit.
  destruct (String.eqb (Py.strip raw) EmptyString); [reflexivity|].
  destruct (is_header (Py.strip raw)).
  - simpl fst; simpl snd. rewrite truthy_name. reflexivity.
  - destruct (is_item (Py.strip raw)).
    + destruct (truthy (current_section st)) eqn:T; simpl; [reflexivity|].
      now rewrite (falsy_is_not_3C _ T).
    + rewrite andb_false_r. reflexivity.
Qed.

Lemma committed_cons d b b' bs :
  committed d (b :: b' :: bs) = committed (commit d b) (b' :: bs).
Proof. reflexivity. Qed.

Lemma committed_unnamed d name items bs :
  truthy (Some name) = false ->
  committed d ((name, items) :: bs) = committed d bs.
Proof.
  intro T. destruct bs as [|b bs].
  - cbn [committed snd]. destruct items; [reflexivity|].
    unfold commit. cbn [fst]. now rewrite T.
  - rewrite committed_cons. unfold commit at 1. simpl fst. now rewrite T.
Qed.

(** Without [break], the dictionary returned is the one obtained by
    committing the open section, extended with the items still to come,
    and then the sections that follow. *)
Lemma scan_commits text lines :
  forall st,
    breaks text st lines = false ->
    final_flush (scan_lines text st lines)
    = committed (sections st)
        ((section_name (current_section st),
          current_items st ++ leading_items (map classify lines))
         :: sections_of (map classify lines)).
Proof.
  induction lines as [|raw lines IH]; intros st B.
  - simpl. rewrite app_nil_r. unfold final_flush, commit. simpl fst; simpl snd.
    rewrite truthy_name.
    destruct (current_items st); [now rewrite andb_false_r|].
    now rewrite andb_true_r.
  - simpl in B. simpl scan_lines. simpl map. rewrite step_by_kind in *.
    destruct (classify raw) as [|tag|item|line].
    + rewrite (IH st B). reflexivity.
    + rewrite (IH _ B). cbn [leading_items sections_of sections current_section
                              current_items section_name app].
      rewrite app_nil_r. reflexivity.
    + destruct (truthy (current_section st)) eqn:T.
      * rewrite (IH _ B). cbn [leading_items sections_of sections
                                current_section current_items].
        now rewrite <- app_assoc.
      * rewrite (IH st B). cbn [leading_items sections_of].
        rewrite !committed_unnamed by now rewrite truthy_name.
        reflexivity.
    + destruct (String.eqb _ "3C" && Py.contains ":" line); [discriminate|].
      rewrite (IH st B). reflexivity.
Qed.

Lemma parse_sections_commits text :
  cut_short text = false ->
  _parse_sections text = committed [] (text_sections text).
Proof.
  intro C. unfold _parse_sections. rewrite (scan_commits _ _ _ C).
  now rewrite committed_unnamed.
Qed.

End Scanner.

Section Committing.

Import PSLFullParser Layout.

Lemma get_commit_other t d b :
  fst b <> t -> Dict.get t (commit d b) = Dict.get t d.
Proof.
  intro N. unfold commit. destruct (truthy (Some (fst b))); [|reflexivity].
  rewrite get_set. destruct (String.eqb t (fst b)) eqn:E; [|reflexivity].
  apply String.eqb_eq in E. now elim N.
Qed.

End Committing.

(** C10, as stated: in the text below the section HYP has no item and is
    followed by the tag line of FACT, yet it is not in the dictionary:
    the line [clear: yes] of the 3C section ended the scan before. *)
Lemma empty_section_after_flags_is_lost :
  nth_error (Layout.text_sections Sample.empty_after_flags) 1 = Some ("HYP", [])
  /\ 1 + 1 < List.length (Layout.text_sections Sample.empty_after_flags)
  /\ Dict.mem "HYP" (PSLFullParser._parse_sections Sample.empty_after_flags) = false.
Proof. vm_compute. repeat split; lia. Qed.

Section Reaching.

Import PSLFullParser Layout Layout.

Variable text : string.
Variable tag : string.
Hypothesis named : tag <> EmptyString.

Lemma named_truthy : truthy (Some tag) = true.
Proof. destruct tag; [now elim named|reflexivity]. Qed.

Lemma get_final_flush_other st :
  section_name (current_section st) <> tag ->
  Dict.get tag (final_flush st) = Dict.get tag (sections st).
Proof.
  intro N. unfold final_flush.
  destruct (truthy (current_section st) && _); [|reflexivity].
  rewrite get_set. destruct (String.eqb tag _) eqn:E; [|reflexivity].
  apply String.eqb_eq in E. now elim N.
Qed.

(** A section that is not open and is not opened later keeps its entry. *)
Lemma entry_kept lines :
  forall st,
    section_name (current_section st) <> tag ->
    ~ In tag (map fst (sections_of (map classify lines))) ->
    Dict.get tag (final_flush (scan_lines text st lines))
    = Dict.get tag (sections st).
Proof.
  induction lines as [|raw lines IH]; intros st N L.
  - now apply get_final_flush_other.
  - cbn [scan_lines map] in *. rewrite step_by_kind.
    destruct (classify raw) as [|t|item|line]; cbn [sections_of map fst] in L.
    + now apply IH.
    + rewrite IH; cbn [current_section section_name sections].
      * now apply get_commit_other.
      * intro E. apply L. now left.
      * intro I. apply L. now right.
    + destruct (truthy (current_section st)); rewrite IH; trivial.
    + destruct (String.eqb _ "3C" && Py.contains ":" line) eqn:C.
      * apply andb_true_iff in C as [C _]. apply String.eqb_eq in C.
        rewrite get_final_flush_other by exact N.
        cbn [sections]. rewrite get_set.
        destruct (String.eqb tag "3C") eqn:E; [|reflexivity].
        apply String.eqb_eq in E. elim N. congruence.
      * now apply IH.
Qed.

(** The open section, without items so far and to come. *)
Lemma open_entry lines :
  forall st,
    section_name (current_section st) = tag ->
    current_items st = [] ->
    leading_items (map classify lines) = [] ->
    ~ In tag (map fst (sections_of (map classify lines))) ->
    Dict.get tag (sections st) = None ->
    Dict.get tag (final_flush (scan_lines text st lines))
    = if (0 <? List.length (sections_of (reached tag (map classify lines))))%nat
      then Some (Items [])
      else if ends_at_flags tag (map classify lines)
           then Some (Flags (_parse_three_c text))
           else None.
Proof.
  induction lines as [|raw lines IH]; intros st O I0 L U G.
  - cbn. unfold final_flush. rewrite I0, andb_false_r. exact G.
  - cbn [scan_lines map] in *. rewrite step_by_kind.
    destruct (classify raw) as [|t|item|line];
      cbn [sections_of map fst leading_items reached ends_at_flags] in *.
    + now apply IH.
    + cbn [List.length]. cbn [Nat.ltb Nat.leb].
      rewrite entry_kept; cbn [current_section section_name sections].
      * unfold commit. cbn [fst snd]. rewrite O, named_truthy, I0, get_set.
        now rewrite String.eqb_refl.
      * intro E. apply U. now left.
      * intro I. apply U. now right.
    + discriminate.
    + rewrite O.
      destruct (String.eqb tag "3C" && Py.contains ":" line) eqn:C.
      * cbn [sections_of List.length Nat.ltb Nat.leb orb].
        apply andb_true_iff in C as [C _]. apply String.eqb_eq in C.
        unfold final_flush. cbn [current_section current_items sections].
        rewrite I0, andb_false_r, get_set, C. reflexivity.
      * cbn [sections_of orb]. now apply IH.
Qed.

Lemma section_entry lines :
  forall st i,
    section_name (current_section st) <> tag ->
    count_occ string_dec (map fst (sections_of (map classify lines))) tag = 1 ->
    nth_error (sections_of (map classify lines)) i = Some (tag, []) ->
    Dict.get tag (sections st) = None ->
    Dict.get tag (final_flush (scan_lines text st lines))
    = if (i + 1 <?
          List.length (sections_of
                         (reached (section_name (current_section st))
                            (map classify lines))))%nat
      then Some (Items [])
      else if (i + 1 =?
               List.length (sections_of
                              (reached (section_name (current_section st))
                                 (map classify lines))))%nat
              && ends_at_flags (section_name (current_section st))
                   (map classify lines)
           then Some (Flags (_parse_three_c text))
           else None.
Proof.
  induction lines as [|raw lines IH]; intros st i N C E G.
  - now destruct i.
  - cbn [scan_lines map] in *. rewrite step_by_kind.
    destruct (classify raw) as [|t|item|line];
      cbn [sections_of map fst reached ends_at_flags] in *.
    + now apply IH.
    + cbn [count_occ] in C. destruct (string_dec t tag) as [T|T].
      * assert (Z : ~ In tag (map fst (sections_of (map classify lines))))
          by (apply count_occ_not_In with string_dec; lia).
        destruct i as [|i].
        -- cbn in E. inversion E as [[E1 E2]]. clear E.
           rewrite (open_entry lines); cbn [current_section section_name
                                              current_items sections]; trivial.
           ++ subst t. cbn [List.length]. rewrite ?E2.
              destruct (List.length (sections_of (reached tag (map classify lines))));
                reflexivity.
           ++ rewrite get_commit_other; [exact G|exact N].
        -- elim Z. cbn [nth_error] in E.
           apply (in_map fst _ (tag, [])), (nth_error_In _ i E).
      * destruct i as [|i]; [cbn in E; inversion E; now elim T|].
        cbn [nth_error] in E.
        rewrite (IH _ i); cbn [current_section section_name sections]; trivial.
        rewrite get_commit_other; [exact G|exact N].
    + destruct (truthy (current_section st)); rewrite (IH _ i); trivial.
    + destruct (String.eqb _ "3C" && Py.contains ":" line) eqn:F.
      * cbn [sections_of List.length orb].
        replace (i + 1 <? 0)%nat with false by (symmetry; apply Nat.ltb_ge; lia).
        replace (i + 1 =? 0)%nat with false by (symmetry; apply Nat.eqb_neq; lia).
        cbn [andb].
        rewrite get_final_flush_other by exact N.
        cbn [sections]. rewrite get_set.
        apply andb_true_iff in F as [F _]. apply String.eqb_eq in F.
        destruct (String.eqb tag "3C") eqn:E3; [|exact G].
        apply String.eqb_eq in E3. elim N. congruence.
      * cbn [sections_of orb]. now apply IH.
Qed.

End Reaching.

Lemma reached_all open ks :
  Layout.ends_at_flags open ks = false -> Layout.reached open ks = ks.
Proof.
  revert open; induction ks as [|k ks IH]; intros open H; [reflexivity|].
  destruct k as [|t|i|l]; cbn [Layout.reached Layout.ends_at_flags] in *;
    try (now rewrite IH).
  apply orb_false_iff in H as [H1 H2]. now rewrite H1, IH.
Qed.

Lemma reached_prefix open ks :
  exists rest, ks = Layout.reached open ks ++ rest.
Proof.
  revert open; induction ks as [|k ks IH]; intro open; [now exists []|].
  destruct k as [|t|i|l]; cbn [Layout.reached].
  - destruct (IH open) as [r R]. exists r. cbn. now rewrite <- R.
  - destruct (IH t) as [r R]. exists r. cbn. now rewrite <- R.
  - destruct (IH open) as [r R]. exists r. cbn. now rewrite <- R.
  - destruct (String.eqb open "3C" && Py.contains ":" l).
    + now exists (Layout.Other l :: ks).
    + destruct (IH open) as [r R]. exists r. cbn. now rewrite <- R.
Qed.

Lemma tags_app a b :
  map fst (Layout.sections_of (a ++ b))
  = map fst (Layout.sections_of a) ++ map fst (Layout.sections_of b).
Proof.
  induction a as [|k a IH]; [reflexivity|].
  destruct k; cbn [app Layout.sections_of map fst]; now rewrite ?IH.
Qed.

Lemma last_reached open ks :
  Layout.ends_at_flags open ks = true ->
  last (open :: map fst (Layout.sections_of (Layout.reached open ks))) EmptyString
  = "3C".
Proof.
  revert open; induction ks as [|k ks IH]; intros open H; [discriminate|].
  destruct k as [|t|i|l]; cbn [Layout.reached Layout.ends_at_flags] in *;
    try (now apply IH).
  destruct (String.eqb open "3C" && Py.contains ":" l) eqn:C.
  - apply andb_true_iff in C as [C _]. apply String.eqb_eq in C. exact C.
  - now apply IH.
Qed.

Lemma nth_error_last {A : Type} (l : list A) (a d : A) :
  nth_error (a :: l) (List.length l) = Some (last (a :: l) d).
Proof.
  revert a; induction l as [|b l IH]; intro a; [reflexivity|].
  cbn [List.length nth_error]. rewrite (IH b). reflexivity.
Qed.

Lemma flags_section_is_3C open ks i tag items :
  Layout.ends_at_flags open ks = true ->
  nth_error (Layout.sections_of ks) i = Some (tag, items) ->
  i + 1 = List.length (Layout.sections_of (Layout.reached open ks)) ->
  tag = "3C".
Proof.
  intros F E L.
  pose proof (last_reached open ks F) as T.
  destruct (reached_prefix open ks) as [rest R].
  assert (E' : nth_error (map fst (Layout.sections_of ks)) i = Some tag)
    by (rewrite nth_error_map, E; reflexivity).
  rewrite R, tags_app in E'.
  rewrite nth_error_app1 in E' by (rewrite length_map; lia).
  destruct (map fst (Layout.sections_of (Layout.reached open ks))) as [|t ts] eqn:M.
  { apply (f_equal (@List.length _)) in M. rewrite length_map in M.
    cbn in M. lia. }
  assert (Li : i = List.length ts).
  { apply (f_equal (@List.length _)) in M. rewrite length_map in M.
    cbn [List.length] in M. lia. }
  subst i. rewrite (nth_error_last ts t EmptyString) in E'.
  inversion E' as [E'']. rewrite <- T. 
  change (last (open :: t :: ts) EmptyString) with (last (t :: ts) EmptyString).
  reflexivity.
Qed.

Lemma firstn_length_app {A : Type} (l r : list A) :
  firstn (List.length l) (l ++ r) = l.
Proof. induction l as [|x l IH]; [reflexivity|]. cbn. now rewrite IH. Qed.

(** The tags of the sections reached are the first tags of the text. *)
Lemma reached_tags open ks :
  map fst (Layout.sections_of (Layout.reached open ks))
  = firstn (List.length (Layout.sections_of (Layout.reached open ks)))
      (map fst (Layout.sections_of ks)).
Proof.
  destruct (reached_prefix open ks) as [rest R].
  rewrite R at 3. rewrite tags_app.
  rewrite <- (length_map fst (Layout.sections_of (Layout.reached open ks))).
  now rewrite firstn_length_app.
Qed.

(** C10, amended. The scan ends at the first flags line: a line with a
    colon that is no tag line and no item, met while the open section is
    3C. A section without items whose tag is not empty and opens no other
    section of the text is in the dictionary, with the empty list, if and
    only if the tag line of another section follows it and is reached by
    the scan. Otherwise it has no entry; only the section 3C, when the scan
    ends at its flags line, holds the [ThreeC] object instead. The
    sections reached are the first sections of the text, and without a
    flags line they are all its sections. *)
Theorem empty_section_kept_iff_followed :
  forall (text : string) (i : nat) (tag : string),
    tag <> EmptyString ->
    count_occ string_dec (map fst (Layout.text_sections text)) tag = 1 ->
    nth_error (Layout.text_sections text) i = Some (tag, []) ->
    Dict.get tag (PSLFullParser._parse_sections text)
    = (if (i + 1 <? List.length (Layout.reached_sections text))%nat
       then Some (PSLFullParser.Items [])
       else if (i + 1 =? List.length (Layout.reached_sections text))%nat
               && Layout.stops_at_flags text
            then Some (PSLFullParser.Flags (PSLFullParser._parse_three_c text))
            else None)
    /\ (Dict.mem tag (PSLFullParser._parse_sections text) = true
        <-> i + 1 < List.length (Layout.reached_sections text)
            \/ (i + 1 = List.length (Layout.reached_sections text)
                /\ Layout.stops_at_flags text = true))
    /\ (i + 1 = List.length (Layout.reached_sections text) ->
        Layout.stops_at_flags text = true -> tag = "3C")
    /\ (Layout.stops_at_flags text = false ->
        Layout.reached_sections text = Layout.text_sections text)
    /\ map fst (Layout.reached_sections text)
       = firstn (List.length (Layout.reached_sections text))
           (map fst (Layout.text_sections text)).
Proof.
  intros text i tag T U N.
  assert (G : Dict.get tag (PSLFullParser._parse_sections text)
    = (if (i + 1 <? List.length (Layout.reached_sections text))%nat
       then Some (PSLFullParser.Items [])
       else if (i + 1 =? List.length (Layout.reached_sections text))%nat
               && Layout.stops_at_flags text
            then Some (PSLFullParser.Flags (PSLFullParser._parse_three_c text))
            else None)).
  { unfold PSLFullParser._parse_sections.
    rewrite (section_entry text tag T (Py.split Py.LF text) PSLFullParser.initial i);
      trivial.
    cbn. intro E. now elim T. }
  split; [exact G|]. split; [|split; [|split]].
  - unfold Dict.mem. rewrite G.
    destruct (i + 1 <? _)%nat eqn:L.
    + apply Nat.ltb_lt in L. split; [intros _; now left|reflexivity].
    + apply Nat.ltb_ge in L.
      destruct (i + 1 =? _)%nat eqn:E.
      * apply Nat.eqb_eq in E.
        destruct (Layout.stops_at_flags text); cbn [andb].
        -- split; [intros _; now right|reflexivity].
        -- split; [discriminate|]. intros [H|[_ H]]; [lia|discriminate].
      * apply Nat.eqb_neq in E. cbn [andb].
        split; [discriminate|]. intros [H|[H _]]; lia.
  - intros L F. apply (flags_section_is_3C _ _ _ _ _ F N L).
  - intro F. unfold Layout.reached_sections, Layout.text_sections.
    now rewrite reached_all.
  - apply reached_tags.
Qed.

(** The section HYP of the text [[HYP] / [FACT] / - a / [3C] / clear: yes /
    [GLOSS]]: empty, followed by FACT before the flags line, and kept with
    the empty list. *)
Lemma empty_section_kept_iff_followed_witness :
  Dict.get "HYP" (PSLFullParser._parse_sections Sample.empty_before_flags)
  = (if (0 + 1 <? List.length (Layout.reached_sections Sample.empty_before_flags))%nat
     then Some (PSLFullParser.Items [])
     else if (0 + 1 =? List.length (Layout.reached_sections Sample.empty_before_flags))%nat
             && Layout.stops_at_flags Sample.empty_before_flags
          then Some (PSLFullParser.Flags
                       (PSLFullParser._parse_three_c Sample.empty_before_flags))
          else None)
  /\ (Dict.mem "HYP" (PSLFullParser._parse_sections Sample.empty_before_flags) = true
      <-> 0 + 1 < List.length (Layout.reached_sections Sample.empty_before_flags)
          \/ (0 + 1 = List.length (Layout.reached_sections Sample.empty_before_flags)
              /\ Layout.stops_at_flags Sample.empty_before_flags = true))
  /\ (0 + 1 = List.length (Layout.reached_sections Sample.empty_before_flags) ->
      Layout.stops_at_flags Sample.empty_before_flags = true -> "HYP" = "3C")
  /\ (Layout.stops_at_flags Sample.empty_before_flags = false ->
      Layout.reached_sections Sample.empty_before_flags
      = Layout.text_sections Sample.empty_before_flags)
  /\ map fst (Layout.reached_sections Sample.empty_before_flags)
     = firstn (List.length (Layout.reached_sections Sample.empty_before_flags))
         (map fst (Layout.text_sections Sample.empty_before_flags)).
Proof.
  apply (empty_section_kept_iff_followed Sample.empty_before_flags 0 "HYP").
  - discriminate.
  - vm_compute; reflexivity.
  - vm_compute; reflexivity.
Defined.

(** C7. In section FACT the line [3) stir] is not taken for a list item,
    and the item of the line [- 2 eggs] is stored as [eggs]: only the
    markers [-], [1)] and [2)] open an item, and the digits, brackets and
    blanks that follow the marker are removed with it. *)
Theorem ordinal_three_skipped_and_digits_stripped :
  PSLFullParser._parse_sections Sample.third_step
  = [("FACT", PSLFullParser.Items ["eggs"])]
  /\ PSLFullParser.is_item "3) stir" = false
  /\ PSLFullParser.item_of "- 2 eggs" = "eggs".
Proof. vm_compute. repeat split. Qed.

(** C6. The flags of the 3C section are looked up in the whole text given
    to the section parser: with [clear: no] in the 3C section and the item
    [Clear: yes] in FACT the flag [clear] is set. With a list item before
    its flags line, the 3C entry ends up being the item list. *)
Theorem flags_read_from_whole_text :
  PSLFullParser._parse_sections Sample.fact_says_clear
  = [("FACT", PSLFullParser.Items ["Clear: yes"]);
     ("3C", PSLFullParser.Flags (ThreeC.mk true false false))]
  /\ PSLFullParser._parse_three_c "clear: no cheap: no safe: no"
     = ThreeC.mk false false false
  /\ PSLFullParser._parse_sections Sample.flags_after_item
     = [("3C", PSLFullParser.Items ["note"])].
Proof. vm_compute. repeat split. Qed.

(** ** The full parser *)

(** *** Lines *)

Lemma split_not_nil sep s : Py.split sep s <> [].
Proof.
  destruct s as [|c s]; simpl; [discriminate|].
  destruct (Ascii.eqb c sep); [discriminate|].
  destruct (Py.split sep s); discriminate.
Qed.

Lemma split_lines_without_sep sep s l :
  In l (Py.split sep s) -> Py.char_in sep l = false.
Proof.
  revert l; induction s as [|c s IH]; intros l H; simpl in H.
  - destruct H as [H|[]]; subst; reflexivity.
  - destruct (Ascii.eqb c sep) eqn:E.
    + destruct H as [H|H]; [subst; reflexivity|now apply IH].
    + destruct (Py.split sep s) as [|h t] eqn:S.
      * destruct H as [H|[]]; subst. simpl.
        rewrite Ascii.eqb_sym, E. reflexivity.
      * destruct H as [H|H].
        -- subst l. simpl. rewrite Ascii.eqb_sym, E. apply IH. now left.
        -- apply IH. now right.
Qed.

Lemma split_line sep l :
  Py.char_in sep l = false -> Py.split sep l = [l].
Proof.
  induction l as [|c l IH]; intro H; simpl in *; [reflexivity|].
  apply orb_false_iff in H as [E H]. rewrite Ascii.eqb_sym, E.
  now rewrite (IH H).
Qed.

Lemma split_line_then sep l rest :
  Py.char_in sep l = false ->
  Py.split sep (l ++ String sep rest) = l :: Py.split sep rest.
Proof.
  induction l as [|c l IH]; intro H; simpl in *.
  - now rewrite Ascii.eqb_refl.
  - apply orb_false_iff in H as [E H]. rewrite Ascii.eqb_sym, E.
    now rewrite (IH H).
Qed.

Lemma split_join sep ls :
  ls <> [] ->
  (forall l, In l ls -> Py.char_in sep l = false) ->
  Py.split sep (Py.join (String sep EmptyString) ls) = ls.
Proof.
  unfold Py.join. induction ls as [|l ls IH]; intros N H; [now elim N|].
  destruct ls as [|l' ls].
  - simpl. apply split_line, H. now left.
  - change (String.concat (String sep EmptyString) (l :: l' :: ls))
      with (l ++ String sep (String.concat (String sep EmptyString) (l' :: ls)))%string.
    rewrite split_line_then by (apply H; now left).
    f_equal. apply IH; [discriminate|]. intros x I. apply H. now right.
Qed.

Lemma rstrip_by_chars p c s :
  Py.char_in c (Py.rstrip_by p s) = true -> Py.char_in c s = true.
Proof.
  induction s as [|d s IH]; simpl; [trivial|].
  destruct (Py.rstrip_by p s) as [|e r] eqn:R.
  - destruct (p d); simpl; [discriminate|].
    rewrite orb_false_r. intro H. now rewrite H.
  - simpl in *. intro H. apply orb_true_iff in H as [H|H].
    + now rewrite H.
    + rewrite (IH H). apply orb_true_r.
Qed.

Lemma rstrip_by_twice p s :
  Py.rstrip_by p (Py.rstrip_by p s) = Py.rstrip_by p s.
Proof.
  induction s as [|d s IH]; simpl; [reflexivity|].
  destruct (Py.rstrip_by p s) as [|e r] eqn:R.
  - destruct (p d) eqn:P; simpl; [reflexivity|now rewrite P].
  - change (Py.rstrip_by p (String d (String e r)))
      with (match Py.rstrip_by p (String e r) with
            | EmptyString => if p d then EmptyString else String d EmptyString
            | r' => String d r'
            end).
    now rewrite IH.
Qed.

Lemma strip_rstrip s : Py.strip (Py.rstrip s) = Py.strip s.
Proof. unfold Py.strip, Py.rstrip. now rewrite rstrip_by_twice. Qed.

(** *** Texts without a section line *)

Section NoSection.

Import PSLFullParser Layout.

Lemma scan_without_headers text lines :
  forall st,
    current_section st = None ->
    (forall raw, In raw lines -> is_header (Py.strip raw) = false) ->
    scan_lines text st lines = st.
Proof.
  induction lines as [|raw lines IH]; intros st C H; [reflexivity|].
  simpl. unfold step.
  rewrite (H raw) by now left. rewrite C. simpl.
  destruct (String.eqb (Py.strip raw) EmptyString);
    (rewrite IH; [reflexivity|exact C|intros r I; apply H; now right]).
Qed.

Lemma parse_sections_without_headers text :
  has_section_line text = false -> _parse_sections text = [].
Proof.
  intro H. unfold _parse_sections.
  rewrite scan_without_headers; [reflexivity|reflexivity|].
  intros raw I.
  destruct (is_header (Py.strip raw)) eqn:E; [|reflexivity].
  assert (T : has_section_line text = true)
    by (apply existsb_exists; now exists raw).
  congruence.
Qed.

Lemma sections_text_without_headers text :
  has_section_line text = false -> has_section_line (sections_text text) = false.
Proof.
  intro H. unfold has_section_line at 1.
  destruct (existsb _ _) eqn:E; [|reflexivity].
  apply existsb_exists in E as [raw [I Hd]].
  unfold sections_text in I.
  remember (skipn (_find_header_end (lines_of text)) (lines_of text)) as ls eqn:L.
  assert (Sub : forall l, In l ls -> exists raw0,
                   In raw0 (Py.split Py.LF text) /\ l = Py.rstrip raw0).
  { intros l Il. rewrite L in Il.
    assert (Il' : In l (lines_of text)).
    { rewrite <- (firstn_skipn (_find_header_end (lines_of text))).
      apply in_or_app. now right. }
    clear Il. rename Il' into Il. unfold lines_of in Il. apply in_map_iff in Il as [raw0 [E0 I0]].
    now exists raw0. }
  destruct ls as [|l0 ls0].
  - simpl in I. destruct I as [I|[]]; subst raw. discriminate.
  - rewrite split_join in I.
    + destruct (Sub raw I) as [raw0 [I0 E0]]. subst raw.
      rewrite strip_rstrip in Hd.
      assert (T : has_section_line text = true)
        by (apply existsb_exists; now exists raw0).
      congruence.
    + discriminate.
    + intros l Il. destruct (Sub l Il) as [raw0 [I0 E0]]. subst l.
      destruct (Py.char_in Py.LF (Py.rstrip raw0)) eqn:C; [|reflexivity].
      apply rstrip_by_chars in C.
      now rewrite (split_lines_without_sep _ _ _ I0) in C.
Qed.

Variable _parse_header : string -> header_data.

Lemma parse_by_parts text :
  parse _parse_header text
  = (version <- getitem "version" (h_version (_parse_header (header_text text))) ;;
     context <- getitem "context" (h_context (_parse_header (header_text text))) ;;
     goal <- getitem "goal" (h_goal (_parse_header (header_text text))) ;;
     constraints <- getitem "constraints"
                      (h_constraints (_parse_header (header_text text))) ;;
     new_PSLDocument version context goal constraints
       (h_resources (_parse_header (header_text text)))
       (h_skill (_parse_header (header_text text)))
       (_parse_sections (sections_text text))
       (Dict.get "3C" (_parse_sections (sections_text text)))
       (Dict.get "GLOSS" (_parse_sections (sections_text text)))).
Proof. reflexivity. Qed.

(** A text without a section line, whose header gives the four mandatory
    fields, is parsed into a document with no section, no [three_c] and
    no [gloss]. *)
Lemma parse_without_sections text version context goal constraints :
  has_section_line text = false ->
  h_version (_parse_header (header_text text)) = Some version ->
  h_context (_parse_header (header_text text)) = Some context ->
  h_goal (_parse_header (header_text text)) = Some goal ->
  h_constraints (_parse_header (header_text text)) = Some constraints ->
  parse _parse_header text
  = Return (PSLDocument.mk version context goal constraints
              (h_resources (_parse_header (header_text text)))
              (h_skill (_parse_header (header_text text))) [] None None).
Proof.
  intros H V C G K. rewrite parse_by_parts, V, C, G, K.
  rewrite (parse_sections_without_headers _ (sections_text_without_headers _ H)).
  reflexivity.
Qed.

(** A mandatory key that [_parse_header] leaves out raises [KeyError]. *)
Lemma parse_without_version text :
  h_version (_parse_header (header_text text)) = None ->
  parse _parse_header text = Raise (KeyError "version").
Proof. intro V. now rewrite parse_by_parts, V. Qed.

Lemma item_lists_have_no_flags d s k f :
  as_item_lists d = Some s -> Dict.get k d <> Some (Flags f).
Proof.
  revert s; induction d as [|[k' v] d IH]; intros s H; simpl in *; [discriminate|].
  destruct v as [l|f']; [|discriminate].
  destruct (as_item_lists d) as [s'|]; [|discriminate].
  destruct (String.eqb k k'); [discriminate|]. now apply (IH s').
Qed.

(** A document that [parse] returns has neither [three_c] nor [gloss]. *)
Lemma parsed_document_has_no_flags text doc :
  parse _parse_header text = Return doc ->
  PSLDocument.three_c doc = None /\ PSLDocument.gloss doc = None.
Proof.
  rewrite parse_by_parts.
  destruct (h_version _); [|discriminate].
  destruct (h_context _); [|discriminate].
  destruct (h_goal _); [|discriminate].
  destruct (h_constraints _); [|discriminate].
  cbn [bind getitem]. unfold new_PSLDocument.
  destruct (as_item_lists _) as [secs|] eqn:S.
  - destruct (Dict.get "3C" _) as [[its|f]|] eqn:T; cbn [as_three_c].
    + destruct (as_str _); discriminate.
    + now elim (item_lists_have_no_flags _ _ "3C" f S).
    + destruct (Dict.get "GLOSS" _); cbn [as_str]; [discriminate|].
      intro H; inversion H; subst; split; reflexivity.
  - destruct (as_three_c _), (as_str _); discriminate.
Qed.

End NoSection.

Section Returned.

Import PSLFullParser Layout.

Lemma set_items_keeps_flags k l d :
  flags_under_3C d -> flags_under_3C (Dict.set k (Items l) d).
Proof.
  unfold flags_under_3C. induction 1 as [|[k' v] d H F IH]; cbn [Dict.set].
  - repeat constructor.
  - destruct (String.eqb k k'); constructor; simpl; trivial.
Qed.

Lemma set_flags_keeps_flags f d :
  flags_under_3C d -> flags_under_3C (Dict.set "3C" (Flags f) d).
Proof.
  unfold flags_under_3C. induction 1 as [|[k' v] d H F IH]; cbn [Dict.set].
  - repeat constructor.
  - destruct (String.eqb "3C" k'); constructor; simpl; trivial.
Qed.

Lemma scan_keeps_flags text lines :
  forall st, flags_under_3C (sections st) ->
             flags_under_3C (sections (scan_lines text st lines)).
Proof.
  induction lines as [|raw lines IH]; intros st F; [exact F|].
  simpl. unfold step.
  destruct (String.eqb (Py.strip raw) EmptyString); [now apply IH|].
  destruct (is_header (Py.strip raw)).
  { apply IH. simpl. destruct (truthy (current_section st)); [|exact F].
    now apply set_items_keeps_flags. }
  destruct (truthy (current_section st) && is_item (Py.strip raw)).
  { now apply IH. }
  destruct (String.eqb _ "3C" && Py.contains ":" (Py.strip raw)).
  - simpl. now apply set_flags_keeps_flags.
  - now apply IH.
Qed.

Lemma parse_sections_keeps_flags text : flags_under_3C (_parse_sections text).
Proof.
  unfold _parse_sections, final_flush.
  pose proof (scan_keeps_flags text (Py.split Py.LF text) initial (Forall_nil _)) as F.
  destruct (truthy _ && _); [now apply set_items_keeps_flags|exact F].
Qed.

Lemma item_lists_accepted d :
  flags_under_3C d -> Dict.mem "3C" d = false ->
  as_item_lists d = Some (Layout.item_lists d).
Proof.
  unfold flags_under_3C, Dict.mem.
  induction 1 as [|[k v] d H F IH]; intro M; [reflexivity|].
  cbn [Dict.get as_item_lists Layout.item_lists map fst snd] in *.
  destruct (String.eqb "3C" k) eqn:E; [discriminate|].
  destruct v as [l|f].
  - now rewrite (IH M).
  - subst k. now rewrite String.eqb_refl in E.
Qed.

End Returned.

(** C1, as stated: [parse] raises [KeyError] on the empty text when the
    header parser finds no field in it, and it raises [ValidationError] on
    the example document of the interface description even when the
    header parser gives every field. *)
Lemma parse_can_raise :
  PSLFullParser.parse (fun _ => Sample.no_header) EmptyString = Raise (KeyError "version")
  /\ PSLFullParser.parse (fun _ => Sample.complete_header) Sample.canonical
     = Raise (ValidationError ["sections"]).
Proof. split; vm_compute; reflexivity. Qed.

(** C1, amended. When the section parser stores no entry under ['3C'] and
    none under ['GLOSS'], [parse] returns a document as soon as the header
    gives [version], [context], [goal] and [constraints], and raises
    [KeyError] for the first of these that is absent; the document has the
    sections that were parsed, no [three_c] and no [gloss]. A text without
    any section line is such a text, and its document has no section. *)
Theorem parse_returns_document :
  forall (_parse_header : string -> PSLFullParser.header_data) (text : string),
    let header_data := _parse_header (Layout.header_text text) in
    let sections_data := PSLFullParser._parse_sections (Layout.sections_text text) in
    (Dict.mem "3C" sections_data = false ->
     Dict.mem "GLOSS" sections_data = false ->
     PSLFullParser.parse _parse_header text
     = (version <- PSLFullParser.getitem "version"
                     (PSLFullParser.h_version header_data) ;;
        context <- PSLFullParser.getitem "context"
                     (PSLFullParser.h_context header_data) ;;
        goal <- PSLFullParser.getitem "goal"
                  (PSLFullParser.h_goal header_data) ;;
        constraints <- PSLFullParser.getitem "constraints"
                         (PSLFullParser.h_constraints header_data) ;;
        Return (PSLDocument.mk version context goal constraints
                  (PSLFullParser.h_resources header_data)
                  (PSLFullParser.h_skill header_data)
                  (Layout.item_lists sections_data) None None)))
    /\ (Layout.has_section_line text = false -> sections_data = []).
Proof.
  intros ph text hd sd. split.
  - intros M3 MG. rewrite parse_by_parts. fold hd sd.
    destruct (PSLFullParser.h_version hd); [|reflexivity].
    destruct (PSLFullParser.h_context hd); [|reflexivity].
    destruct (PSLFullParser.h_goal hd); [|reflexivity].
    destruct (PSLFullParser.h_constraints hd); [|reflexivity].
    cbn [bind PSLFullParser.getitem]. unfold PSLFullParser.new_PSLDocument.
    rewrite (item_lists_accepted sd (parse_sections_keeps_flags _) M3).
    unfold Dict.mem in M3, MG.
    destruct (Dict.get "3C" sd); [discriminate|].
    destruct (Dict.get "GLOSS" sd); [discriminate|]. reflexivity.
  - intro H. apply parse_sections_without_headers.
    now apply sections_text_without_headers.
Qed.

(** A text that is a complete header and nothing else. *)
Lemma parse_returns_document_witness :
  PSLFullParser.parse (fun _ => Sample.complete_header) Sample.header_only
  = Return (PSLDocument.mk "0.1" "kitchen" "soup" [] None None [] None None)
  /\ PSLFullParser._parse_sections (Layout.sections_text Sample.header_only) = [].
Proof.
  destruct (parse_returns_document (fun _ => Sample.complete_header) Sample.header_only)
    as [R E].
  split.
  - rewrite R; [reflexivity|vm_compute; reflexivity|vm_compute; reflexivity].
  - apply E. vm_compute; reflexivity.
Defined.

(** Whatever [_parse_header] returns, [parse] raises on the example
    document of the interface description, and on the two lines of a 3C
    section alone: the dictionary of sections holds a [ThreeC] object,
    which the model [PSLDocument] does not accept among its sections. *)
Lemma parse_raises_on_parsed_flags :
  forall _parse_header : string -> PSLFullParser.header_data,
    returns (PSLFullParser.parse _parse_header Sample.canonical) = false
    /\ returns (PSLFullParser.parse _parse_header Sample.flags_only) = false
    /\ PSLFullParser.parse (fun _ => Sample.complete_header) Sample.canonical
       = Raise (ValidationError ["sections"]).
Proof.
  intro ph. unfold PSLFullParser.parse. repeat split.
  - destruct (PSLFullParser.h_version _); [|reflexivity].
    destruct (PSLFullParser.h_context _); [|reflexivity].
    destruct (PSLFullParser.h_goal _); [|reflexivity].
    destruct (PSLFullParser.h_constraints _); [|reflexivity].
    vm_compute. reflexivity.
  - destruct (PSLFullParser.h_version _); [|reflexivity].
    destruct (PSLFullParser.h_context _); [|reflexivity].
    destruct (PSLFullParser.h_goal _); [|reflexivity].
    destruct (PSLFullParser.h_constraints _); [|reflexivity].
    vm_compute. reflexivity.
Qed.

(** ** Checks of the embedding on small inputs *)

Example strip_removes_blanks : Py.strip "  - a b  " = "- a b".
Proof. reflexivity. Qed.

Example split_keeps_empty_parts : Py.split ":" "a:b::c" = ["a"; "b"; EmptyString; "c"].
Proof. reflexivity. Qed.

Example tag_stops_at_colon : PSLFullParser.tag_of "[GLOSS: short]" = "GLOSS".
Proof. reflexivity. Qed.

Example pattern_needs_a_word_boundary :
  map (Re.search LRuleValidator.number_pattern)
    ["bake 45 min"; "45min"; "x45 min"; "45 minutes"; "12.5 KG."; "6 serves"]
  = [true; true; false; false; true; false].
Proof. vm_compute. reflexivity. Qed.

Example csr_of_one_constraint :
  let doc := PSLDocument.mk "0.1" "kitchen" "soup"
               [Constraint.mk "time" "<=" 10%float (Some "min")]
               None None [] None None in
  PSLMetricsCalculator.calculate_csr doc
    (Some [("time", PSLMetricsCalculator.VInt 5)]) = 1.0%float
  /\ PSLMetricsCalculator.calculate_csr doc
       (Some [("time", PSLMetricsCalculator.VInt 15)]) = 0.0%float
  /\ PSLMetricsCalculator.calculate_csr doc None = 0.0%float.
Proof. vm_compute. repeat split. Qed.

Example operators_on_exact_numbers :
  map (fun c : string * PSLMetricsCalculator.value * float =>
         Spec.holds_of (fst (fst c)) (snd (fst c)) (snd c))
    [("<=", PSLMetricsCalculator.VInt 85, 90%float);
     ("<=", PSLMetricsCalculator.VInt 91, 90%float);
     ("<", PSLMetricsCalculator.VFloat 0.5, 0.5%float);
     (">=", PSLMetricsCalculator.VFloat 0.5, 0.5%float);
     ("=", PSLMetricsCalculator.VInt 9007199254740993, 9007199254740992%float);
     (">", PSLMetricsCalculator.VInt 9007199254740993, 9007199254740992%float);
     ("=", PSLMetricsCalculator.VFloat nan, nan);
     ("<", PSLMetricsCalculator.VInt 0, infinity);
     ("=", PSLMetricsCalculator.VFloat (-0)%float, 0%float);
     ("=", PSLMetricsCalculator.VOther, 0%float);
     ("==", PSLMetricsCalculator.VInt 0, 0%float)]
  = [true; false; false; true; false; true; false; true; true; false; false].
Proof. vm_compute. reflexivity. Qed.

Example order_violation_message :
  LRuleValidator._validate_l01_section_order
    (PSLDocument.mk "0.1" "kitchen" "soup" [] None None
       [("HYP", ["a"]); ("NOTES", []); ("FACT", [])] None None) []
  = [Issue.mk "L-01" "error"
       "Section order violation. Expected: ['FACT', 'HYP'], Got: ['HYP', 'FACT']"].
Proof. vm_compute. reflexivity. Qed.

(** * Further properties *)

(** ** The header parser *)

(** *** Stripping *)

Lemma prefix_app p s :
  String.prefix p s = true -> exists r, s = (p ++ r)%string.
Proof.
  revert s; induction p as [|c p IH]; intros s H.
  - now exists s.
  - destruct s as [|d s]; simpl in H; [discriminate|].
    destruct (ascii_dec c d) as [E|E]; [|discriminate]. subst d.
    destruct (IH s H) as [r R]. exists r. now rewrite R.
Qed.

Lemma lstrip_by_chars p c s :
  Py.char_in c (Py.lstrip_by p s) = true -> Py.char_in c s = true.
Proof.
  induction s as [|d s IH]; simpl; [trivial|].
  destruct (p d); [|trivial]. intro H. rewrite (IH H). apply orb_true_r.
Qed.

Lemma strip_chars c s :
  Py.char_in c s = false -> Py.char_in c (Py.strip s) = false.
Proof.
  intro H. unfold Py.strip.
  destruct (Py.char_in c (Py.lstrip_by _ _)) eqn:E; [|reflexivity].
  apply lstrip_by_chars, rstrip_by_chars in E. congruence.
Qed.

Lemma lstrip_by_twice p s :
  Py.lstrip_by p (Py.lstrip_by p s) = Py.lstrip_by p s.
Proof.
  induction s as [|d s IH]; simpl; [reflexivity|].
  destruct (p d) eqn:P; [exact IH|]. simpl. now rewrite P.
Qed.

Lemma rstrip_by_cons p c s :
  Py.rstrip_by p (String c s)
  = match Py.rstrip_by p s with
    | EmptyString => if p c then EmptyString else String c EmptyString
    | r => String c r
    end.
Proof. reflexivity. Qed.

(** Removing leading blanks keeps a text free of trailing blanks. *)
Lemma rstrip_lstrip p s :
  Py.rstrip_by p s = s -> Py.rstrip_by p (Py.lstrip_by p s) = Py.lstrip_by p s.
Proof.
  induction s as [|c s IH]; intro H; [reflexivity|].
  simpl Py.lstrip_by. destruct (p c) eqn:P; [|exact H].
  apply IH. rewrite rstrip_by_cons, P in H.
  destruct (Py.rstrip_by p s) as [|d r]; [discriminate|]. now inversion H.
Qed.

Lemma strip_twice s : Py.strip (Py.strip s) = Py.strip s.
Proof.
  unfold Py.strip.
  rewrite (rstrip_lstrip _ _ (rstrip_by_twice _ _)). apply lstrip_by_twice.
Qed.

Lemma rstrip_by_app p a b :
  Py.rstrip_by p a = a ->
  Py.rstrip_by p (a ++ b) = (a ++ Py.rstrip_by p b)%string.
Proof.
  induction a as [|c a IH]; intro H; [reflexivity|].
  cbn [append]. rewrite rstrip_by_cons in H.
  destruct (Py.rstrip_by p a) as [|d r] eqn:R.
  - destruct (p c) eqn:P; [discriminate|]. inversion H; subst a.
    cbn [append]. rewrite rstrip_by_cons.
    destruct (Py.rstrip_by p b); [now rewrite P|reflexivity].
  - inversion H as [H']. rewrite H' in *. rewrite rstrip_by_cons, (IH eq_refl).
    destruct a; [discriminate|reflexivity].
Qed.

(** A text that starts with a character that is not blank keeps its
    start when stripped. *)
Lemma strip_after_word c a s :
  Py.isspace c = false ->
  Py.rstrip (String c a) = String c a ->
  Py.strip (String c a ++ s) = (String c a ++ Py.rstrip s)%string.
Proof.
  intros C R. unfold Py.strip, Py.rstrip in *.
  rewrite (rstrip_by_app _ _ _ R). simpl. now rewrite C.
Qed.

Lemma strip_space_first c s :
  Py.isspace c = true -> Py.strip (String c s) = Py.strip s.
Proof.
  intro C. unfold Py.strip. rewrite rstrip_by_cons.
  destruct (Py.rstrip_by Py.isspace s) as [|d r]; simpl; now rewrite C.
Qed.

Lemma stripped_both s :
  Py.strip s = s -> Py.rstrip s = s /\ Py.lstrip_by Py.isspace s = s.
Proof.
  intro H. unfold Py.strip, Py.rstrip in *. split.
  - rewrite <- H at 1. rewrite (rstrip_lstrip _ _ (rstrip_by_twice _ _)). exact H.
  - rewrite <- H at 1. rewrite lstrip_by_twice. exact H.
Qed.

Lemma rstrip_by_app_r p a b :
  Py.rstrip_by p b = b -> b <> EmptyString ->
  Py.rstrip_by p (a ++ b) = (a ++ b)%string.
Proof.
  intros B N. induction a as [|c a IH]; [exact B|].
  simpl append. rewrite rstrip_by_cons, IH.
  destruct (a ++ b)%string eqn:E; [|reflexivity].
  destruct a; simpl in E; [now elim N|discriminate].
Qed.

(** *** Lines of a text *)

Lemma lines_of_text (lines : list string) :
  HeaderSpec.all_one_line lines ->
  PSLHeaderParser.lines_of (Sample.text_of lines)
  = map Py.strip
      (filter (fun line => negb (String.eqb (Py.strip line) EmptyString)) lines).
Proof.
  intro H. unfold PSLHeaderParser.lines_of, Sample.text_of.
  destruct lines as [|l ls]; [reflexivity|].
  rewrite split_join; [reflexivity|discriminate|exact H].
Qed.

Lemma run_app lines1 lines2 :
  forall h,
    PSLHeaderParser.run h (lines1 ++ lines2)
    = match PSLHeaderParser.run h lines1 with
      | Some h' => PSLHeaderParser.run h' lines2
      | None => None
      end.
Proof.
  induction lines1 as [|l ls IH]; intro h; simpl; [reflexivity|].
  destruct (PSLHeaderParser.step h l); [apply IH|reflexivity].
Qed.

(** *** No [IndexError] *)

Lemma step_returns h line :
  exists h', PSLHeaderParser.step h line = Some h'.
Proof.
  unfold PSLHeaderParser.step, PSLHeaderParser._parse_constraints,
    PSLHeaderParser._parse_resources, PSLHeaderParser._parse_skill.
  destruct (Py.startswith "!psl" line); [eexists; reflexivity|].
  destruct (Py.startswith "context:" line) eqn:E1.
  { apply prefix_app in E1 as [r ->]. eexists; reflexivity. }
  destruct (Py.startswith "goal:" line) eqn:E2.
  { apply prefix_app in E2 as [r ->]. eexists; reflexivity. }
  destruct (Py.startswith "constraints:" line) eqn:E3.
  { apply prefix_app in E3 as [r ->]. eexists; reflexivity. }
  destruct (Py.startswith "resources:" line) eqn:E4.
  { apply prefix_app in E4 as [r ->]. eexists; reflexivity. }
  destruct (Py.startswith "skill:" line) eqn:E5.
  { apply prefix_app in E5 as [r ->]. eexists; reflexivity. }
  eexists; reflexivity.
Qed.

Lemma run_returns lines :
  forall h, exists h', PSLHeaderParser.run h lines = Some h'.
Proof.
  induction lines as [|l ls IH]; intro h; simpl; [now exists h|].
  destruct (step_returns h l) as [h' ->]. apply IH.
Qed.

(** X1. The header parser returns a dictionary for every text: each
    subscript [[1]] is taken of a line that starts with a prefix ending
    in a colon, so the split has a second part and no [IndexError] is
    raised. *)
Theorem header_parse_never_raises :
  forall header_text : string,
    exists h, PSLHeaderParser.parse header_text = Some h.
Proof. intro t. apply run_returns. Qed.

(** *** The value of a field *)

Lemma all_one_line_app l1 l2 :
  HeaderSpec.all_one_line l1 -> HeaderSpec.all_one_line l2 ->
  HeaderSpec.all_one_line (l1 ++ l2).
Proof. intros H1 H2 s I. apply in_app_or in I as [I|I]; auto. Qed.

Lemma all_one_line_one s :
  HeaderSpec.one_line s -> HeaderSpec.all_one_line [s].
Proof. intros H x [<-|[]]. exact H. Qed.

Lemma char_in_app c a b :
  Py.char_in c (a ++ b) = Py.char_in c a || Py.char_in c b.
Proof.
  induction a as [|d a IH]; simpl; [reflexivity|].
  now rewrite IH, orb_assoc.
Qed.

(** The lines the loop runs over when a line that is not blank is put
    after other lines. *)
Lemma lines_of_text_then before line :
  HeaderSpec.all_one_line before -> HeaderSpec.one_line line ->
  Py.strip line <> EmptyString ->
  PSLHeaderParser.lines_of (Sample.text_of (before ++ [line]))
  = PSLHeaderParser.lines_of (Sample.text_of before) ++ [Py.strip line].
Proof.
  intros B L N.
  rewrite !lines_of_text by (try apply all_one_line_app; trivial;
                              now apply all_one_line_one).
  rewrite filter_app, map_app. simpl.
  destruct (String.eqb (Py.strip line) EmptyString) eqn:E; [|reflexivity].
  apply String.eqb_eq in E. now elim N.
Qed.

Lemma parse_then before line :
  HeaderSpec.all_one_line before -> HeaderSpec.one_line line ->
  Py.strip line <> EmptyString ->
  exists h0,
    PSLHeaderParser.parse (Sample.text_of before) = Some h0
    /\ PSLHeaderParser.parse (Sample.text_of (before ++ [line]))
       = PSLHeaderParser.step h0 (Py.strip line).
Proof.
  intros B L N. unfold PSLHeaderParser.parse.
  rewrite (lines_of_text_then _ _ B L N), run_app.
  destruct (run_returns (PSLHeaderParser.lines_of (Sample.text_of before))
              PSLHeaderParser.empty) as [h0 R].
  exists h0. rewrite R. split; [reflexivity|]. simpl.
  now destruct (PSLHeaderParser.step h0 (Py.strip line)).
Qed.

Lemma step_context h r :
  PSLHeaderParser.step h ("context:" ++ r)
  = Some (PSLHeaderParser.mk (PSLHeaderParser.version h) (Some (Py.strip r))
            (PSLHeaderParser.goal h) (PSLHeaderParser.constraints h)
            (PSLHeaderParser.resources h) (PSLHeaderParser.skill h)).
Proof. destruct r; reflexivity. Qed.

Lemma step_goal h r :
  PSLHeaderParser.step h ("goal:" ++ r)
  = Some (PSLHeaderParser.mk (PSLHeaderParser.version h) (PSLHeaderParser.context h)
            (Some (Py.strip r)) (PSLHeaderParser.constraints h)
            (PSLHeaderParser.resources h) (PSLHeaderParser.skill h)).
Proof. destruct r; reflexivity. Qed.

Lemma step_skill h r :
  PSLHeaderParser.step h ("skill:" ++ r)
  = Some (PSLHeaderParser.mk (PSLHeaderParser.version h) (PSLHeaderParser.context h)
            (PSLHeaderParser.goal h) (PSLHeaderParser.constraints h)
            (PSLHeaderParser.resources h) (Some (Py.strip r))).
Proof. destruct r; reflexivity. Qed.

Lemma step_constraints h r :
  PSLHeaderParser.step h ("constraints:" ++ r)
  = Some (PSLHeaderParser.mk (PSLHeaderParser.version h) (PSLHeaderParser.context h)
            (PSLHeaderParser.goal h)
            (Some (PSLHeaderParser.stripped_parts ";" (Py.strip r)))
            (PSLHeaderParser.resources h) (PSLHeaderParser.skill h)).
Proof. destruct r; reflexivity. Qed.

Lemma step_field f h v :
  exists h',
    PSLHeaderParser.step h (HeaderSpec.key f ++ v) = Some h'
    /\ HeaderSpec.value_of f h' = Some (Py.strip v).
Proof.
  destruct f; cbn [HeaderSpec.key].
  - rewrite step_context. eexists. split; reflexivity.
  - rewrite step_goal. eexists. split; reflexivity.
  - rewrite step_skill. eexists. split; reflexivity.
Qed.

(** A line of another key leaves the field as it is. *)
Lemma step_keeps_field f h line h' :
  Py.startswith (HeaderSpec.key f) line = false ->
  PSLHeaderParser.step h line = Some h' ->
  HeaderSpec.value_of f h' = HeaderSpec.value_of f h.
Proof.
  intros K S. unfold PSLHeaderParser.step, PSLHeaderParser._parse_constraints,
                PSLHeaderParser._parse_resources, PSLHeaderParser._parse_skill in S.
  destruct (Py.startswith "!psl" line);
    [inversion S; now destruct f|].
  destruct (Py.startswith "context:" line) eqn:E1.
  { destruct (PSLHeaderParser.item_1 _); inversion S.
    destruct f; try reflexivity. cbn [HeaderSpec.key] in K. congruence. }
  destruct (Py.startswith "goal:" line) eqn:E2.
  { destruct (PSLHeaderParser.item_1 _); inversion S.
    destruct f; try reflexivity. cbn [HeaderSpec.key] in K. congruence. }
  destruct (Py.startswith "constraints:" line).
  { destruct (PSLHeaderParser.item_1 _); inversion S. now destruct f. }
  destruct (Py.startswith "resources:" line).
  { destruct (PSLHeaderParser.item_1 _); inversion S. now destruct f. }
  destruct (Py.startswith "skill:" line) eqn:E5.
  { destruct (PSLHeaderParser.item_1 _); inversion S.
    destruct f; try reflexivity. cbn [HeaderSpec.key] in K. congruence. }
  inversion S. reflexivity.
Qed.

Lemma run_keeps_field f lines :
  forall h h',
    (forall l, In l lines -> Py.startswith (HeaderSpec.key f) l = false) ->
    PSLHeaderParser.run h lines = Some h' ->
    HeaderSpec.value_of f h' = HeaderSpec.value_of f h.
Proof.
  induction lines as [|l ls IH]; intros h h' K R; cbn [PSLHeaderParser.run] in R.
  - now inversion R.
  - destruct (PSLHeaderParser.step h l) as [h1|] eqn:S; [|discriminate].
    rewrite (IH h1 h') by (trivial; intros x I; apply K; now right).
    apply (step_keeps_field f h l h1); [apply K; now left|exact S].
Qed.

(** X2. The last [context:], [goal:] or [skill:] line of a header decides
    the field, whatever the lines before it and whatever the lines of
    other keys after it: the value is the text after the first colon of
    the line, without the blanks around it. Blanks around the line itself
    do not count, and later colons stay in the value. *)
Theorem header_field_is_text_after_colon :
  forall (f : HeaderSpec.field) (before after : list string) (line v : string),
    HeaderSpec.all_one_line before -> HeaderSpec.all_one_line after ->
    HeaderSpec.one_line line ->
    Py.strip line = (HeaderSpec.key f ++ v)%string ->
    (forall l, In l after ->
               Py.startswith (HeaderSpec.key f) (Py.strip l) = false) ->
    exists h,
      PSLHeaderParser.parse (Sample.text_of (before ++ line :: after)) = Some h
      /\ HeaderSpec.value_of f h = Some (Py.strip v).
Proof.
  intros f before after line v B A L E K. unfold PSLHeaderParser.parse.
  rewrite lines_of_text
    by (apply all_one_line_app; [exact B|];
        intros s [<-|I]; [exact L|now apply A]).
  rewrite filter_app, map_app, run_app.
  destruct (run_returns
              (map Py.strip
                 (filter (fun l => negb (String.eqb (Py.strip l) EmptyString)) before))
              PSLHeaderParser.empty) as [h0 ->].
  cbn [filter]. rewrite E.
  replace (String.eqb (HeaderSpec.key f ++ v) EmptyString) with false
    by (now destruct f).
  cbn [negb map PSLHeaderParser.run]. rewrite E.
  destruct (step_field f h0 v) as [h1 [-> V]].
  destruct (run_returns
              (map Py.strip
                 (filter (fun l => negb (String.eqb (Py.strip l) EmptyString)) after))
              h1) as [h2 R].
  exists h2. split; [exact R|]. rewrite <- V.
  apply (run_keeps_field f
           (map Py.strip
              (filter (fun l => negb (String.eqb (Py.strip l) EmptyString)) after))
           h1 h2); [|exact R].
  intros l I. apply in_map_iff in I as [x [<- I]].
  apply filter_In in I as [I _]. now apply K.
Qed.

Lemma header_field_is_text_after_colon_witness :
  exists h,
    PSLHeaderParser.parse
      (Sample.text_of (["!psl v0.1"; "context: shed"]
                       ++ "  context: kitchen: east " :: ["goal: soup"; "skill: novice"]))
    = Some h
    /\ HeaderSpec.value_of HeaderSpec.Context h = Some (Py.strip " kitchen: east").
Proof.
  apply (header_field_is_text_after_colon HeaderSpec.Context
           ["!psl v0.1"; "context: shed"] ["goal: soup"; "skill: novice"]
           "  context: kitchen: east " " kitchen: east").
  - intros s [<-|[<-|[]]]; reflexivity.
  - intros s [<-|[<-|[]]]; reflexivity.
  - reflexivity.
  - reflexivity.
  - intros l [<-|[<-|[]]]; reflexivity.
Defined.

(** *** Lists of constraints *)

Lemma lstrip_by_length p s :
  String.length (Py.lstrip_by p s) <= String.length s.
Proof. induction s as [|c s IH]; simpl; [lia|]. destruct (p c); simpl; lia. Qed.

Lemma lstrip_fixed_first p c s :
  Py.lstrip_by p (String c s) = String c s -> p c = false.
Proof.
  simpl. destruct (p c); [|reflexivity]. intro H.
  pose proof (lstrip_by_length p s) as L. rewrite H in L. simpl in L. lia.
Qed.

Lemma append_assoc (a b c : string) : ((a ++ b) ++ c = a ++ (b ++ c))%string.
Proof. induction a as [|x a IH]; simpl; [reflexivity|now rewrite IH]. Qed.

Lemma join_cons sep c c' cs :
  Py.join sep (c :: c' :: cs) = (c ++ sep ++ Py.join sep (c' :: cs))%string.
Proof. reflexivity. Qed.

Lemma join_not_empty sep c cs :
  c <> EmptyString -> Py.join sep (c :: cs) <> EmptyString.
Proof.
  intro N. destruct cs as [|c' cs]; [exact N|]. rewrite join_cons.
  destruct c; [now elim N|discriminate].
Qed.

(** The parts of a list written with [; ] between its entries. *)
Lemma split_joined pre c cs :
  Py.char_in ";" pre = false ->
  Forall (HeaderSpec.entry ";") (c :: cs) ->
  Py.split ";" (pre ++ Py.join "; " (c :: cs))
  = (pre ++ c)%string :: map (append " ") cs.
Proof.
  revert pre c; induction cs as [|c' cs IH]; intros pre c P F.
  - inversion F as [|? ? [_ [_ C]] _]; subst. simpl Py.join.
    apply split_line. now rewrite char_in_app, P, C.
  - inversion F as [|? ? [_ [_ C]] F']; subst. rewrite join_cons.
    change ("; " ++ Py.join "; " (c' :: cs))%string
      with (String ";" (" " ++ Py.join "; " (c' :: cs)))%string.
    rewrite <- append_assoc.
    change ((pre ++ c) ++ String ";" (" " ++ Py.join "; " (c' :: cs)))%string
      with ((pre ++ c) ++ String ";" (" " ++ Py.join "; " (c' :: cs)))%string.
    rewrite split_line_then by now rewrite char_in_app, P, C.
    now rewrite (IH " " c' eq_refl F').
Qed.

Lemma joined_is_stripped c cs :
  Forall (HeaderSpec.entry ";") (c :: cs) ->
  Py.strip (Py.join "; " (c :: cs)) = Py.join "; " (c :: cs).
Proof.
  intro F.
  assert (R : Py.rstrip (Py.join "; " (c :: cs)) = Py.join "; " (c :: cs)).
  { revert c F; induction cs as [|c' cs IH]; intros c F.
    - inversion F as [|? ? [_ [S _]] _]; subst. simpl. now apply stripped_both.
    - inversion F as [|? ? _ F']; subst. rewrite join_cons.
      inversion F' as [|? ? [N _] _]; subst.
      rewrite <- append_assoc. unfold Py.rstrip in *.
      apply rstrip_by_app_r; [now apply IH|now apply join_not_empty]. }
  unfold Py.strip. unfold Py.rstrip in R. rewrite R.
  inversion F as [|? ? [N [S _]] _]; subst.
  destruct c as [|x c]; [now elim N|].
  apply stripped_both in S as [_ L]. apply lstrip_fixed_first in L.
  destruct cs as [|c' cs]; simpl; now rewrite L.
Qed.

Lemma stripped_parts_of_joined cs :
  Forall (HeaderSpec.entry ";") cs ->
  PSLHeaderParser.stripped_parts ";" (Py.strip (Py.join "; " cs)) = cs.
Proof.
  intro F. destruct cs as [|c cs]; [reflexivity|].
  rewrite (joined_is_stripped _ _ F). unfold PSLHeaderParser.stripped_parts.
  pose proof (split_joined EmptyString c cs eq_refl F) as J.
  cbn [append] in J. rewrite J. clear J.
  inversion F as [|? ? [N [S _]] F']; subst. simpl. rewrite S.
  destruct (String.eqb c EmptyString) eqn:E;
    [apply String.eqb_eq in E; now elim N|].
  simpl. rewrite S. f_equal. clear -F'.
  induction F' as [|c' cs [N [S _]] F' IH]; [reflexivity|].
  simpl. rewrite (strip_space_first " " c' eq_refl), S.
  destruct (String.eqb c' EmptyString) eqn:E;
    [apply String.eqb_eq in E; now elim N|].
  simpl. rewrite (strip_space_first " " c' eq_refl), S. now rewrite IH.
Qed.

Lemma one_line_joined cs :
  HeaderSpec.all_one_line cs -> HeaderSpec.one_line (Py.join "; " cs).
Proof.
  unfold HeaderSpec.one_line. induction cs as [|c cs IH]; intro H; [reflexivity|].
  destruct cs as [|c' cs]; [apply H; now left|].
  rewrite join_cons, !char_in_app, (H c) by now left.
  rewrite IH by (intros s I; apply H; now right). reflexivity.
Qed.

(** X3. A list of constraints written on a [constraints:] line with
    [; ] between the entries is read back as it was written, whatever
    the lines before it, when every entry is not empty, has no blank
    around it and no semicolon or line feed in it. *)
Theorem header_constraints_round_trip :
  forall (before cs : list string),
    HeaderSpec.all_one_line before ->
    HeaderSpec.all_one_line cs ->
    Forall (HeaderSpec.entry ";") cs ->
    exists h,
      PSLHeaderParser.parse
        (Sample.text_of (before ++ ["constraints: " ++ Py.join "; " cs]%string))
      = Some h
      /\ PSLHeaderParser.constraints h = Some cs.
Proof.
  intros before cs B L F.
  destruct (parse_then before ("constraints: " ++ Py.join "; " cs)%string B)
    as [h0 [_ ->]].
  - unfold HeaderSpec.one_line.
    change ("constraints: " ++ Py.join "; " cs)%string
      with ("constraints:" ++ (" " ++ Py.join "; " cs))%string.
    rewrite !char_in_app. now rewrite (one_line_joined cs L).
  - change ("constraints: " ++ Py.join "; " cs)%string
      with (String "c" "onstraints:" ++ (" " ++ Py.join "; " cs))%string.
    rewrite (strip_after_word "c" "onstraints:") by reflexivity. discriminate.
  - change ("constraints: " ++ Py.join "; " cs)%string
      with (String "c" "onstraints:" ++ (" " ++ Py.join "; " cs))%string.
    rewrite (strip_after_word "c" "onstraints:") by reflexivity.
    change (String "c" "onstraints:" ++ Py.rstrip (" " ++ Py.join "; " cs))%string
      with ("constraints:" ++ Py.rstrip (" " ++ Py.join "; " cs))%string.
    rewrite step_constraints. eexists. split; [reflexivity|]. simpl.
    rewrite strip_rstrip.
    change (" " ++ Py.join "; " cs)%string with (String " " (Py.join "; " cs)).
    rewrite (strip_space_first " " _ eq_refl).
    now rewrite stripped_parts_of_joined.
Qed.

Lemma header_constraints_round_trip_witness :
  exists h,
    PSLHeaderParser.parse
      (Sample.text_of (["!psl v0.1"]
                       ++ ["constraints: " ++ Py.join "; " ["time<=90min"; "serves=6"]]%string))
    = Some h
    /\ PSLHeaderParser.constraints h = Some ["time<=90min"; "serves=6"].
Proof.
  apply (header_constraints_round_trip ["!psl v0.1"] ["time<=90min"; "serves=6"]).
  - intros s [<-|[]]; reflexivity.
  - intros s [<-|[<-|[]]]; reflexivity.
  - repeat constructor; discriminate.
Defined.

(** *** What the parsed values look like *)

Lemma stripped_parts_entries sep s :
  Forall (HeaderSpec.entry sep) (PSLHeaderParser.stripped_parts sep s).
Proof.
  unfold PSLHeaderParser.stripped_parts. apply Forall_forall. intros x I.
  apply in_map_iff in I as [y [<- I]]. apply filter_In in I as [I N].
  repeat split.
  - intro E. rewrite E in N. discriminate.
  - apply strip_twice.
  - apply strip_chars. now apply split_lines_without_sep with s.
Qed.

Lemma last_in (l : list string) d : l <> [] -> In (last l d) l.
Proof.
  induction l as [|x l IH]; intro N; [now elim N|].
  destruct l as [|y l]; [now left|]. right. apply IH. discriminate.
Qed.

Lemma version_without_v line :
  Py.char_in "v" (PSLHeaderParser._parse_version line) = false.
Proof.
  unfold PSLHeaderParser._parse_version, PSLHeaderParser.item_last.
  apply strip_chars, split_lines_without_sep with line.
  apply last_in, split_not_nil.
Qed.

Lemma empty_shaped : HeaderSpec.shaped PSLHeaderParser.empty.
Proof. repeat split; discriminate. Qed.

Lemma step_keeps_shape h line h' :
  HeaderSpec.shaped h -> PSLHeaderParser.step h line = Some h' ->
  HeaderSpec.shaped h'.
Proof.
  intros [V [C [G [K [R S]]]]].
  unfold PSLHeaderParser.step, PSLHeaderParser._parse_constraints,
    PSLHeaderParser._parse_resources, PSLHeaderParser._parse_skill.
  destruct (Py.startswith "!psl" line).
  { intro H; inversion H; subst; clear H.
    refine (conj _ (conj C (conj G (conj K (conj R S))))).
    intros x E; inversion E; subst.
    split; [apply version_without_v|apply strip_twice]. }
  destruct (Py.startswith "context:" line).
  { destruct (PSLHeaderParser.item_1 _); [|discriminate].
    intro H; inversion H; subst; clear H.
    refine (conj V (conj _ (conj G (conj K (conj R S))))).
    intros x E; inversion E; subst. apply strip_twice. }
  destruct (Py.startswith "goal:" line).
  { destruct (PSLHeaderParser.item_1 _); [|discriminate].
    intro H; inversion H; subst; clear H.
    refine (conj V (conj C (conj _ (conj K (conj R S))))).
    intros x E; inversion E; subst. apply strip_twice. }
  destruct (Py.startswith "constraints:" line).
  { destruct (PSLHeaderParser.item_1 _); [|discriminate].
    intro H; inversion H; subst; clear H.
    refine (conj V (conj C (conj G (conj _ (conj R S))))).
    intros x E; inversion E; subst. apply stripped_parts_entries. }
  destruct (Py.startswith "resources:" line).
  { destruct (PSLHeaderParser.item_1 _); [|discriminate].
    intro H; inversion H; subst; clear H.
    refine (conj V (conj C (conj G (conj K (conj _ S))))).
    intros x E; inversion E; subst. apply stripped_parts_entries. }
  destruct (Py.startswith "skill:" line).
  { destruct (PSLHeaderParser.item_1 _); [|discriminate].
    intro H; inversion H; subst; clear H.
    refine (conj V (conj C (conj G (conj K (conj R _))))).
    intros x E; inversion E; subst. apply strip_twice. }
  intro H; inversion H; subst.
  exact (conj V (conj C (conj G (conj K (conj R S))))).
Qed.

Lemma run_keeps_shape lines :
  forall h h', HeaderSpec.shaped h -> PSLHeaderParser.run h lines = Some h' ->
               HeaderSpec.shaped h'.
Proof.
  induction lines as [|l ls IH]; intros h h' S R; simpl in R.
  - now inversion R; subst.
  - destruct (PSLHeaderParser.step h l) as [h1|] eqn:E; [|discriminate].
    apply (IH h1 h'); [now apply (step_keeps_shape h l)|exact R].
Qed.

(** X4. In the dictionary the header parser returns, every entry of
    [constraints] and of [resources] is a text that is not empty, has no
    blank around it and does not contain the separator of its list ([;]
    and [,]). *)
Theorem header_lists_hold_clean_entries :
  forall (header_text : string) (h : PSLHeaderParser.header),
    PSLHeaderParser.parse header_text = Some h ->
    (forall cs, PSLHeaderParser.constraints h = Some cs ->
                Forall (HeaderSpec.entry ";") cs)
    /\ (forall rs, PSLHeaderParser.resources h = Some rs ->
                   Forall (HeaderSpec.entry ",") rs).
Proof.
  intros t h P.
  destruct (run_keeps_shape _ _ _ empty_shaped P)
    as [_ [_ [_ [K [R _]]]]].
  now split.
Qed.

Lemma header_lists_hold_clean_entries_witness :
  (forall cs,
     PSLHeaderParser.constraints
       (PSLHeaderParser.mk None None None (Some ["x"]) (Some []) None) = Some cs ->
     Forall (HeaderSpec.entry ";") cs)
  /\ (forall rs,
        PSLHeaderParser.resources
          (PSLHeaderParser.mk None None None (Some ["x"]) (Some []) None) = Some rs ->
        Forall (HeaderSpec.entry ",") rs).
Proof.
  apply (header_lists_hold_clean_entries
           (Sample.text_of ["constraints: ; ;x"; "resources: []"])).
  vm_compute. reflexivity.
Defined.

(** X5. The version the header parser stores never contains the letter
    [v] and has no blank around it: it is what follows the last [v] of
    the [!psl] line (and the whole line when the line has no [v]). *)
Theorem header_version_has_no_v :
  forall (header_text : string) (h : PSLHeaderParser.header) (v : string),
    PSLHeaderParser.parse header_text = Some h ->
    PSLHeaderParser.version h = Some v ->
    Py.char_in "v" v = false /\ Py.strip v = v.
Proof.
  intros t h v P E.
  destruct (run_keeps_shape _ _ _ empty_shaped P) as [V _].
  destruct (V v E). now split.
Qed.

Lemma header_version_has_no_v_witness :
  Py.char_in "v" "0.1" = false /\ Py.strip "0.1" = "0.1".
Proof.
  apply (header_version_has_no_v (Sample.text_of ["!psl v0.1"])
           (PSLHeaderParser.mk (Some "0.1") None None None None None) "0.1");
    reflexivity.
Defined.

(** *** Lines the parser does not know *)

Lemma step_unknown h line :
  HeaderSpec.known line = false -> PSLHeaderParser.step h line = Some h.
Proof.
  unfold HeaderSpec.known, PSLHeaderParser.step. intro K.
  repeat (apply orb_false_iff in K as [K ?]).
  repeat match goal with H : Py.startswith _ _ = false |- _ => rewrite H; clear H end.
  reflexivity.
Qed.

(** X6. A line that starts with none of the prefixes [!psl], [context:],
    [goal:], [constraints:], [resources:], [skill:] once the blanks
    around it are removed (a blank line, a comment, an indented remark)
    changes nothing: the header parses as it does without the line. *)
Theorem header_ignores_unknown_lines :
  forall (before after : list string) (line : string),
    HeaderSpec.all_one_line before -> HeaderSpec.all_one_line after ->
    HeaderSpec.one_line line ->
    HeaderSpec.known (Py.strip line) = false ->
    PSLHeaderParser.parse (Sample.text_of (before ++ line :: after))
    = PSLHeaderParser.parse (Sample.text_of (before ++ after)).
Proof.
  intros before after line B A L K. unfold PSLHeaderParser.parse.
  rewrite !lines_of_text.
  - rewrite !filter_app, !map_app, !run_app. simpl filter.
    destruct (negb (String.eqb (Py.strip line) EmptyString)); [|reflexivity].
    simpl map. simpl PSLHeaderParser.run at 2.
    destruct (PSLHeaderParser.run _ _) as [h0|]; [|reflexivity].
    simpl. now rewrite (step_unknown h0 _ K).
  - now apply all_one_line_app.
  - apply all_one_line_app; [exact B|].
    intros s [<-|I]; [exact L|now apply A].
Qed.

Lemma header_ignores_unknown_lines_witness :
  PSLHeaderParser.parse
    (Sample.text_of (["!psl v0.1"] ++ "  # note: draft" :: ["goal: soup"]))
  = PSLHeaderParser.parse (Sample.text_of (["!psl v0.1"] ++ ["goal: soup"])).
Proof.
  apply (header_ignores_unknown_lines ["!psl v0.1"] ["goal: soup"] "  # note: draft").
  - intros s [<-|[]]; reflexivity.
  - intros s [<-|[]]; reflexivity.
  - reflexivity.
  - reflexivity.
Defined.

(** *** Lists of resources and the version *)

Lemma split_joined_by sep pre c cs :
  Ascii.eqb sep " " = false ->
  Py.char_in sep pre = false ->
  Forall (HeaderSpec.entry sep) (c :: cs) ->
  Py.split sep (pre ++ Py.join (String sep " ") (c :: cs))
  = (pre ++ c)%string :: map (append " ") cs.
Proof.
  intro E. revert pre c; induction cs as [|c' cs IH]; intros pre c P F.
  - inversion F as [|? ? [_ [_ C]] _]; subst. simpl Py.join.
    apply split_line. now rewrite char_in_app, P, C.
  - inversion F as [|? ? [_ [_ C]] F']; subst. rewrite join_cons.
    change (String sep " " ++ Py.join (String sep " ") (c' :: cs))%string
      with (String sep (" " ++ Py.join (String sep " ") (c' :: cs)))%string.
    rewrite <- append_assoc.
    rewrite split_line_then by now rewrite char_in_app, P, C.
    rewrite (IH " " c'); [reflexivity| |exact F'].
    simpl. now rewrite E.
Qed.

Lemma stripped_parts_of_joined_by sep cs :
  Ascii.eqb sep " " = false ->
  Forall (HeaderSpec.entry sep) cs ->
  PSLHeaderParser.stripped_parts sep (Py.join (String sep " ") cs) = cs.
Proof.
  intros E F. destruct cs as [|c cs]; [reflexivity|].
  unfold PSLHeaderParser.stripped_parts.
  pose proof (split_joined_by sep EmptyString c cs E eq_refl F) as J.
  cbn [append] in J. rewrite J. clear J.
  inversion F as [|? ? [N [S _]] F']; subst. simpl. rewrite S.
  destruct (String.eqb c EmptyString) eqn:Q;
    [apply String.eqb_eq in Q; now elim N|].
  simpl. rewrite S. f_equal. clear -F'.
  induction F' as [|c' cs [N [S _]] F' IH]; [reflexivity|].
  simpl. rewrite (strip_space_first " " c' eq_refl), S.
  destruct (String.eqb c' EmptyString) eqn:Q;
    [apply String.eqb_eq in Q; now elim N|].
  simpl. rewrite (strip_space_first " " c' eq_refl), S. now rewrite IH.
Qed.

Lemma removelast_app_one s c :
  Py.removelast (s ++ String c EmptyString) = s.
Proof.
  induction s as [|d s IH]; [reflexivity|].
  simpl append. destruct s as [|e s]; [reflexivity|].
  change (Py.removelast (String d (String e s ++ String c EmptyString)))
    with (String d (Py.removelast (String e s ++ String c EmptyString))).
  now rewrite IH.
Qed.

Lemma endswith_app_one s c :
  Py.endswith_char c (s ++ String c EmptyString) = true.
Proof.
  induction s as [|d s IH]; [simpl; apply Ascii.eqb_refl|].
  simpl append. destruct s as [|e s]; [simpl; apply Ascii.eqb_refl|exact IH].
Qed.

Lemma one_line_joined_by sep cs :
  Py.char_in Py.LF (String sep " ") = false ->
  HeaderSpec.all_one_line cs ->
  HeaderSpec.one_line (Py.join (String sep " ") cs).
Proof.
  unfold HeaderSpec.one_line. intro E.
  induction cs as [|c cs IH]; intro H; [reflexivity|].
  destruct cs as [|c' cs]; [apply H; now left|].
  rewrite join_cons, !char_in_app, (H c), E by now left.
  rewrite IH by (intros s I; apply H; now right). reflexivity.
Qed.

Lemma step_resources h r :
  PSLHeaderParser.step h ("resources:" ++ r)
  = Some (PSLHeaderParser.mk (PSLHeaderParser.version h) (PSLHeaderParser.context h)
            (PSLHeaderParser.goal h) (PSLHeaderParser.constraints h)
            (PSLHeaderParser._parse_resources ("resources:" ++ r))
            (PSLHeaderParser.skill h)).
Proof. destruct r; reflexivity. Qed.

(** X18. A list of resources written on a [resources:] line between
    square brackets, with [, ] between the entries, is read back as it
    was written, whatever the lines before it, when every entry is not
    empty, has no blank around it and no comma or line feed in it. *)
Theorem header_resources_round_trip :
  forall (before rs : list string),
    HeaderSpec.all_one_line before ->
    HeaderSpec.all_one_line rs ->
    Forall (HeaderSpec.entry ",") rs ->
    exists h,
      PSLHeaderParser.parse
        (Sample.text_of
           (before ++ ["resources: [" ++ Py.join ", " rs ++ "]"]%string))
      = Some h
      /\ PSLHeaderParser.resources h = Some rs.
Proof.
  intros before rs B L F.
  set (J := Py.join ", " rs).
  assert (R : Py.rstrip (" [" ++ (J ++ "]")) = (" [" ++ (J ++ "]"))%string).
  { unfold Py.rstrip.
    rewrite <- (append_assoc " [" J "]").
    apply rstrip_by_app_r; [reflexivity|discriminate]. }
  destruct (parse_then before ("resources: [" ++ J ++ "]")%string B)
    as [h0 [_ ->]].
  - unfold HeaderSpec.one_line.
    change ("resources: [" ++ J ++ "]")%string
      with ("resources: [" ++ (J ++ "]"))%string.
    rewrite !char_in_app. subst J.
    now rewrite (one_line_joined_by "," rs eq_refl L).
  - change ("resources: [" ++ J ++ "]")%string
      with (String "r" "esources:" ++ (" [" ++ (J ++ "]")))%string.
    rewrite (strip_after_word "r" "esources:") by reflexivity. discriminate.
  - change ("resources: [" ++ J ++ "]")%string
      with (String "r" "esources:" ++ (" [" ++ (J ++ "]")))%string.
    rewrite (strip_after_word "r" "esources:") by reflexivity. rewrite R.
    change (String "r" "esources:" ++ (" [" ++ (J ++ "]")))%string
      with ("resources:" ++ (" [" ++ (J ++ "]")))%string.
    rewrite step_resources. eexists. split; [reflexivity|].
    cbn [PSLHeaderParser.resources].
    unfold PSLHeaderParser._parse_resources.
    change (PSLHeaderParser.item_1
              (PSLHeaderParser.split_once ":" ("resources:" ++ " [" ++ J ++ "]")))
      with (Some (" [" ++ (J ++ "]"))%string).
    cbv beta iota.
    change (" [" ++ (J ++ "]"))%string with (String " " (String "[" (J ++ "]"))).
    rewrite (strip_space_first " " _ eq_refl).
    assert (S : Py.strip (String "[" (J ++ "]")) = String "[" (J ++ "]")).
    { unfold Py.strip.
      change (String "[" (J ++ "]")) with ("[" ++ (J ++ "]"))%string.
      rewrite <- (append_assoc "[" J "]").
      rewrite rstrip_by_app_r by (reflexivity || discriminate).
      reflexivity. }
    rewrite S.
    change (Py.startswith "[" (String "[" (J ++ "]"))) with (Py.startswith EmptyString (J ++ "]")).
    replace (Py.startswith EmptyString (J ++ "]")) with true
      by (now destruct (J ++ "]")%string).
    change (Py.endswith_char "]" (String "[" (J ++ "]")))
      with (Py.endswith_char "]" ("[" ++ (J ++ "]"))).
    rewrite <- (append_assoc "[" J "]"), endswith_app_one.
    cbn [andb Py.slice_1_m1]. rewrite removelast_app_one.
    subst J. now rewrite (stripped_parts_of_joined_by "," rs eq_refl F).
Qed.

Lemma header_resources_round_trip_witness :
  exists h,
    PSLHeaderParser.parse
      (Sample.text_of
         (["!psl v0.1"] ++ ["resources: [" ++ Py.join ", " ["saw"; "glue"] ++ "]"]%string))
    = Some h
    /\ PSLHeaderParser.resources h = Some ["saw"; "glue"].
Proof.
  apply (header_resources_round_trip ["!psl v0.1"] ["saw"; "glue"]).
  - intros s [<-|[]]; reflexivity.
  - intros s [<-|[<-|[]]]; reflexivity.
  - repeat constructor; discriminate.
Defined.

Lemma step_version h r :
  PSLHeaderParser.step h ("!psl" ++ r)
  = Some (PSLHeaderParser.mk
            (Some (PSLHeaderParser._parse_version ("!psl" ++ r)))
            (PSLHeaderParser.context h) (PSLHeaderParser.goal h)
            (PSLHeaderParser.constraints h) (PSLHeaderParser.resources h)
            (PSLHeaderParser.skill h)).
Proof. destruct r; reflexivity. Qed.

(** X19. The version written after [!psl v] is read back without the
    blanks around it, whatever the lines before, when it contains no
    letter [v] and no line feed. *)
Theorem header_version_round_trip :
  forall (before : list string) (w : string),
    HeaderSpec.all_one_line before ->
    HeaderSpec.one_line w ->
    Py.char_in "v" w = false ->
    exists h,
      PSLHeaderParser.parse (Sample.text_of (before ++ ["!psl v" ++ w]%string))
      = Some h
      /\ PSLHeaderParser.version h = Some (Py.strip w).
Proof.
  intros before w B L V.
  destruct (parse_then before ("!psl v" ++ w)%string B) as [h0 [_ ->]].
  - exact L.
  - rewrite (strip_after_word "!" "psl v") by reflexivity. discriminate.
  - rewrite (strip_after_word "!" "psl v") by reflexivity.
    change (String "!" "psl v" ++ Py.rstrip w)%string
      with ("!psl" ++ (" v" ++ Py.rstrip w))%string.
    rewrite step_version. eexists. split; [reflexivity|].
    cbn [PSLHeaderParser.version]. f_equal.
    unfold PSLHeaderParser._parse_version, PSLHeaderParser.item_last.
    change ("!psl" ++ " v" ++ Py.rstrip w)%string
      with ("!psl " ++ String "v" (Py.rstrip w))%string.
    rewrite split_line_then by reflexivity.
    rewrite split_line; [simpl; apply strip_rstrip|].
    destruct (Py.char_in "v" (Py.rstrip w)) eqn:E; [|reflexivity].
    apply rstrip_by_chars in E. congruence.
Qed.

Lemma header_version_round_trip_witness :
  exists h,
    PSLHeaderParser.parse (Sample.text_of (["goal: soup"] ++ ["!psl v" ++ "0.1 "]%string))
    = Some h
    /\ PSLHeaderParser.version h = Some (Py.strip "0.1 ").
Proof.
  apply (header_version_round_trip ["goal: soup"] "0.1 ").
  - intros s [<-|[]]; reflexivity.
  - reflexivity.
  - reflexivity.
Defined.

Lemma full_sevenths (n : nat) :
  n <= 7 ->
  PrimFloat.eqb (Py.float_of_nat n / Py.float_of_nat 7) 1 = (n =? 7)%nat.
Proof.
  intro H. do 8 (destruct n as [|n]; [vm_compute; reflexivity|]). lia.
Qed.

(** X20. The coverage is 1.0 exactly when all seven mandatory tags are
    present (3C with its [ThreeC] value), and the 3C score is 1.0
    exactly when the three flags are set. *)
Theorem full_scores :
  forall doc : PSLDocument.t,
    PrimFloat.eqb (PSLMetricsCalculator.calculate_psl_coverage doc) 1
    = forallb (Spec.present doc) Spec.mandatory_tags
    /\ PrimFloat.eqb (PSLMetricsCalculator.calculate_three_c_score doc) 1
       = match PSLDocument.three_c doc with
         | Some t => ThreeC.clear t && ThreeC.cheap t && ThreeC.safe t
         | None => false
         end.
Proof.
  intro doc. split.
  - unfold PSLMetricsCalculator.calculate_psl_coverage.
    rewrite completed_is_present_count.
    change (List.length PSLMetricsCalculator.mandatory_sections) with 7.
    rewrite full_sevenths
      by apply (filter_length (Spec.present doc) Spec.mandatory_tags).
    unfold Spec.present_count, Spec.mandatory_tags.
    cbn [filter forallb].
    destruct (Spec.present doc "FACT"), (Spec.present doc "TECHNIQUE"),
      (Spec.present doc "HYP"), (Spec.present doc "ROLLBACK"),
      (Spec.present doc "SAFETY"), (Spec.present doc "CHECKLIST"),
      (Spec.present doc "3C"); reflexivity.
  - unfold PSLMetricsCalculator.calculate_three_c_score.
    destruct (PSLDocument.three_c doc) as [[[] [] []]|]; vm_compute; reflexivity.
Qed.

(** ** More on the validator *)

Lemma str_in_In s l : LRuleValidator.str_in s l = true <-> In s l.
Proof.
  unfold LRuleValidator.str_in. rewrite existsb_exists. split.
  - intros [x [I E]]. apply String.eqb_eq in E. now subst.
  - intro I. exists s. split; [exact I|apply String.eqb_refl].
Qed.

Lemma str_in_not_In s l : ~ In s l -> LRuleValidator.str_in s l = false.
Proof.
  intro N. destruct (LRuleValidator.str_in s l) eqn:E; [|reflexivity].
  apply str_in_In in E. now elim N.
Qed.

Lemma subsequence_incl k :
  forall l, Order.is_subsequence k l = true -> incl k l.
Proof.
  induction k as [|x k IHk]; intros l H; [intros y []|].
  induction l as [|y l IHl]; [discriminate|].
  simpl in H. destruct (String.eqb x y) eqn:E.
  - apply String.eqb_eq in E; subst y. intros z [<-|I]; [now left|].
    right. now apply (IHk l H).
  - intros z I. right. now apply (IHl H).
Qed.

Lemma subsequence_nil l : Order.is_subsequence [] l = true.
Proof. now destruct l. Qed.

Lemma filter_in_nothing l :
  filter (fun s => LRuleValidator.str_in s []) l = [].
Proof. induction l as [|x l IH]; [reflexivity|exact IH]. Qed.

(** Keeping the elements of a list without repetition that are in one of
    its subsequences gives back the subsequence. *)
Lemma filter_of_subsequence l :
  NoDup l ->
  forall k, Order.is_subsequence k l = true ->
            filter (fun s => LRuleValidator.str_in s k) l = k.
Proof.
  induction 1 as [|y l N D IH]; intros k H.
  - destruct k; [reflexivity|discriminate].
  - destruct k as [|x k].
    + apply filter_in_nothing.
    + simpl in H. cbn [filter]. destruct (String.eqb x y) eqn:E.
      * apply String.eqb_eq in E; subst y.
        unfold LRuleValidator.str_in at 1. simpl. rewrite String.eqb_refl. simpl.
        f_equal.
        transitivity (filter (fun s => LRuleValidator.str_in s k) l);
          [|now apply IH].
        apply filter_ext_in. intros s I. unfold LRuleValidator.str_in. simpl.
        destruct (String.eqb s x) eqn:E; [|reflexivity].
        apply String.eqb_eq in E; subst s. now elim N.
      * rewrite str_in_not_In; [now apply IH|].
        intro I. apply N. now apply (subsequence_incl _ _ H).
Qed.

Lemma filter_is_subsequence (p : string -> bool) l :
  NoDup l -> Order.is_subsequence (filter p l) l = true.
Proof.
  induction 1 as [|y l N D IH]; [reflexivity|].
  simpl. destruct (p y).
  - simpl. now rewrite String.eqb_refl.
  - destruct (filter p l) as [|x k] eqn:F; [reflexivity|].
    simpl. destruct (String.eqb x y) eqn:E; [|exact IH].
    apply String.eqb_eq in E; subst y. elim N.
    assert (I : In x (filter p l)) by (rewrite F; now left).
    now apply filter_In in I.
Qed.

Lemma expected_order_NoDup : NoDup LRuleValidator.expected_order.
Proof.
  unfold LRuleValidator.expected_order.
  repeat (constructor; [simpl; intuition discriminate|]). constructor.
Qed.

(** X7. Rule L-01 reports nothing exactly when the tags of the document
    that belong to the canonical order appear in that order; sections
    with other tags may stand anywhere. Otherwise it reports one error. *)
Theorem l01_accepts_canonical_order :
  forall (doc : PSLDocument.t) (issues : list Issue.t),
    Order.no_issue (LRuleValidator._validate_l01_section_order doc [])
    = Order.is_subsequence (Order.known_sections doc) LRuleValidator.expected_order
    /\ List.length (LRuleValidator._validate_l01_section_order doc issues)
       = List.length issues
         + (if Order.is_subsequence (Order.known_sections doc)
                 LRuleValidator.expected_order
            then 0 else 1).
Proof.
  intros doc issues.
  assert (E : (if list_eq_dec string_dec (Order.known_sections doc)
                    (filter (fun s => LRuleValidator.str_in s (Order.known_sections doc))
                       LRuleValidator.expected_order)
               then true else false)
              = Order.is_subsequence (Order.known_sections doc)
                  LRuleValidator.expected_order).
  { destruct (list_eq_dec _ _ _) as [Q|Q].
    - rewrite Q at 1. symmetry.
      apply filter_is_subsequence, expected_order_NoDup.
    - destruct (Order.is_subsequence _ _) eqn:S; [|reflexivity].
      elim Q. symmetry.
      now apply filter_of_subsequence; [apply expected_order_NoDup|]. }
  unfold LRuleValidator._validate_l01_section_order.
  fold (Order.known_sections doc). rewrite <- E.
  destruct (list_eq_dec _ _ _); split; try reflexivity.
  - simpl. lia.
  - rewrite length_app. reflexivity.
Qed.

(** X8. Rule L-03 appends one warning for every item outside [FACT] that
    contains a number followed by one of its units, in the order of the
    sections and of their items, and the warning names the section and
    the item; an item of [FACT] never gives a warning. *)
Theorem l03_one_warning_per_item :
  forall (doc : PSLDocument.t) (issues : list Issue.t),
    LRuleValidator._validate_l03_numbers_outside_fact doc issues
    = issues
      ++ flat_map
           (fun entry : string * list string =>
              if String.eqb (fst entry) "FACT" then []
              else map (fun item =>
                          Issue.mk "L-03" "warning"
                            ("Number found in [" ++ fst entry ++ "]: " ++ item)%string)
                     (filter (Re.search LRuleValidator.number_pattern) (snd entry)))
           (PSLDocument.sections doc).
Proof.
  intros doc issues. rewrite l03_issues. f_equal.
  unfold Spec.offending.
  induction (PSLDocument.sections doc) as [|[name items] secs IH]; [reflexivity|].
  simpl. rewrite map_app, IH. f_equal.
  destruct (String.eqb name "FACT"); [reflexivity|]. now rewrite map_map.
Qed.

(** ** More on the metrics *)

(** *** Order of floats *)

Lemma ltb_leb (x y : float) : PrimFloat.ltb x y = true -> PrimFloat.leb x y = true.
Proof.
  rewrite ltb_spec, leb_spec. unfold SFltb, SFleb.
  destruct (SFcompare _ _) as [[]|]; easy.
Qed.

Lemma SFleb_trans a b c :
  SFleb a b = true -> SFleb b c = true -> SFleb a c = true.
Proof.
  unfold SFleb.
  destruct a as [sa|sa| |sa ma ea], b as [sb|sb| |sb mb eb],
    c as [sc|sc| |sc mc ec]; simpl;
    try (destruct sa); try (destruct sb); try (destruct sc);
    simpl; try easy;
    repeat match goal with
      | |- context [Z.compare ?x ?y] =>
          destruct (Z.compare_spec x y); simpl; try easy; try lia
      end;
    subst;
    repeat match goal with
      | |- context [Pos.compare_cont Eq ?x ?y] =>
          change (Pos.compare_cont Eq x y) with (Pos.compare x y);
          destruct (Pos.compare_spec x y); simpl; try easy; try lia
      end.
Qed.

Lemma leb_trans (x y z : float) :
  PrimFloat.leb x y = true -> PrimFloat.leb y z = true -> PrimFloat.leb x z = true.
Proof. rewrite !leb_spec. apply SFleb_trans. Qed.

(** X9. HRR is never negative and never NaN, however many penalties
    add up: the result is 0.0 or a float above it. *)
Theorem hrr_is_never_negative :
  forall (float_str : float -> string) (doc : PSLDocument.t),
    PrimFloat.leb 0 (PSLMetricsCalculator.calculate_hrr float_str doc) = true.
Proof.
  intros fs doc. unfold PSLMetricsCalculator.calculate_hrr, Py.max.
  match goal with |- context [if PrimFloat.ltb ?a ?b then _ else _] =>
    destruct (PrimFloat.ltb a b) eqn:L end.
  - now apply ltb_leb.
  - reflexivity.
Qed.

Lemma in_unit_interval_sevenths (n : nat) :
  n <= 7 ->
  PrimFloat.leb 0 (Py.float_of_nat n / Py.float_of_nat 7) = true
  /\ PrimFloat.leb (Py.float_of_nat n / Py.float_of_nat 7) 1 = true.
Proof.
  intro H. do 8 (destruct n as [|n]; [split; vm_compute; reflexivity|]). lia.
Qed.

(** X10. The coverage and the 3C score of every document lie between 0.0
    and 1.0. *)
Theorem coverage_and_three_c_score_in_unit_interval :
  forall doc : PSLDocument.t,
    PrimFloat.leb 0 (PSLMetricsCalculator.calculate_psl_coverage doc) = true
    /\ PrimFloat.leb (PSLMetricsCalculator.calculate_psl_coverage doc) 1 = true
    /\ PrimFloat.leb 0 (PSLMetricsCalculator.calculate_three_c_score doc) = true
    /\ PrimFloat.leb (PSLMetricsCalculator.calculate_three_c_score doc) 1 = true.
Proof.
  intro doc.
  assert (C : PSLMetricsCalculator.completed_sections doc <= 7).
  { rewrite completed_is_present_count.
    apply (filter_length (Spec.present doc) Spec.mandatory_tags). }
  destruct (in_unit_interval_sevenths _ C) as [C0 C1].
  split; [exact C0|]. split; [exact C1|].
  unfold PSLMetricsCalculator.calculate_three_c_score.
  destruct (PSLDocument.three_c doc) as [[[] [] []]|]; split; vm_compute; reflexivity.
Qed.

(** *** The level of a score *)

(** X11. The level of a score does not go down when the score goes up:
    of two scores the greater has the level EXCELLENT, GOOD, FAIR or POOR
    that is at least as high. *)
Theorem quality_level_is_monotone :
  forall s1 s2 : float,
    PrimFloat.leb s1 s2 = true ->
    Assessment.rank (Assessment._get_quality_level s1)
    <= Assessment.rank (Assessment._get_quality_level s2).
Proof.
  intros s1 s2 H. unfold Assessment._get_quality_level.
  destruct (PrimFloat.leb 0.9 s1) eqn:A1.
  { now rewrite (leb_trans _ _ _ A1 H). }
  destruct (PrimFloat.leb 0.7 s1) eqn:B1.
  { pose proof (leb_trans _ _ _ B1 H) as B2. rewrite B2.
    destruct (PrimFloat.leb 0.9 s2); cbv; lia. }
  destruct (PrimFloat.leb 0.5 s1) eqn:C1.
  { pose proof (leb_trans _ _ _ C1 H) as C2. rewrite C2.
    destruct (PrimFloat.leb 0.9 s2), (PrimFloat.leb 0.7 s2); cbv; lia. }
  change (Assessment.rank "POOR") with 0. lia.
Qed.

Lemma quality_level_is_monotone_witness :
  Assessment.rank (Assessment._get_quality_level 0.65)
  <= Assessment.rank (Assessment._get_quality_level 0.9).
Proof.
  apply (quality_level_is_monotone 0.65 0.9). vm_compute. reflexivity.
Defined.

(** *** What CSR looks at *)

Lemma no_number_holds_nothing operator v bound :
  Spec.quantity_of v = None -> Spec.holds_of operator v bound = false.
Proof.
  intro H. unfold Spec.holds_of. rewrite H. now destruct (Spec.relation operator).
Qed.

Lemma holds_by_number d1 d2 c :
  Observed.number (Dict.get (Constraint.name c) d1)
  = Observed.number (Dict.get (Constraint.name c) d2) ->
  Spec.holds (Some d1) c = Spec.holds (Some d2) c.
Proof.
  unfold Spec.holds, Observed.number.
  destruct (Dict.get (Constraint.name c) d1) as [[]|],
    (Dict.get (Constraint.name c) d2) as [[]|];
    intro H; try discriminate; try (inversion H; subst);
    rewrite ?no_number_holds_nothing by reflexivity; reflexivity.
Qed.

Lemma filter_holds_by_number d1 d2 (l : list Constraint.t) :
  (forall c, In c l ->
             Observed.number (Dict.get (Constraint.name c) d1)
             = Observed.number (Dict.get (Constraint.name c) d2)) ->
  filter (Spec.holds (Some d1)) l = filter (Spec.holds (Some d2)) l.
Proof.
  intro A. apply filter_ext_in. intros c I. now apply holds_by_number, A.
Qed.

(** X12. CSR depends on the execution result only through the numbers it
    gives for the names of the constraints: two results that are not
    empty and give the same numbers for these names have the same CSR,
    whatever else they hold. Entries under other names, and values that
    are [None] or not numbers, count for nothing. *)
Theorem csr_reads_only_numbers_of_constraints :
  forall (doc : PSLDocument.t) (d1 d2 : Dict.t PSLMetricsCalculator.value),
    d1 <> [] -> d2 <> [] ->
    Observed.agree doc d1 d2 ->
    PSLMetricsCalculator.calculate_csr doc (Some d1)
    = PSLMetricsCalculator.calculate_csr doc (Some d2).
Proof.
  intros doc d1 d2 N1 N2 A. unfold PSLMetricsCalculator.calculate_csr.
  destruct (PSLDocument.constraints doc) as [|c cs] eqn:C; [reflexivity|].
  destruct d1 as [|e1 d1]; [now elim N1|].
  destruct d2 as [|e2 d2]; [now elim N2|].
  cbv beta iota delta [PSLMetricsCalculator.falsy].
  rewrite !satisfied_loop.
  unfold Observed.agree in A. rewrite C in A.
  now rewrite (filter_holds_by_number _ _ _ A).
Qed.

Lemma csr_reads_only_numbers_of_constraints_witness :
  PSLMetricsCalculator.calculate_csr
    (PSLDocument.mk "0.1" "kitchen" "soup"
       [Constraint.mk "time" "<=" 10%float (Some "min")] None None [] None None)
    (Some [("note", PSLMetricsCalculator.VOther);
           ("time", PSLMetricsCalculator.VInt 5)])
  = PSLMetricsCalculator.calculate_csr
      (PSLDocument.mk "0.1" "kitchen" "soup"
         [Constraint.mk "time" "<=" 10%float (Some "min")] None None [] None None)
      (Some [("time", PSLMetricsCalculator.VInt 5)]).
Proof.
  apply csr_reads_only_numbers_of_constraints.
  - discriminate.
  - discriminate.
  - intros c [<-|[]]. reflexivity.
Defined.

(** ** More on the section parser *)

Section Shapes.

Import PSLFullParser Layout Shape.

(** What is left of a text without trailing blanks, once characters are
    removed from its start, has no trailing blanks. *)
Lemma rstrip_of_suffix p q s :
  Py.rstrip_by p s = s -> Py.rstrip_by p (Py.lstrip_by q s) = Py.lstrip_by q s.
Proof.
  induction s as [|c s IH]; intro H; [reflexivity|].
  simpl Py.lstrip_by. destruct (q c); [|exact H].
  apply IH. rewrite rstrip_by_cons in H.
  destruct (Py.rstrip_by p s) as [|d r].
  - destruct (p c); [discriminate|]. now inversion H.
  - now inversion H.
Qed.

Lemma strip_is_rstripped raw : Py.rstrip (Py.strip raw) = Py.strip raw.
Proof. unfold Py.rstrip, Py.strip. apply rstrip_of_suffix, rstrip_by_twice. Qed.

Lemma item_is_clean raw : clean_item (item_of (Py.strip raw)).
Proof.
  unfold clean_item, item_of, Py.lstrip_chars. split.
  - apply lstrip_by_twice.
  - unfold Py.rstrip. do 2 apply rstrip_of_suffix. apply strip_is_rstripped.
Qed.

Lemma hd_in_split sep s : In (hd EmptyString (Py.split sep s)) (Py.split sep s).
Proof.
  pose proof (split_not_nil sep s) as N.
  destruct (Py.split sep s); [now elim N|now left].
Qed.

Lemma tag_without_colon line : Py.char_in ":" (tag_of line) = false.
Proof.
  unfold tag_of. apply split_lines_without_sep with (Py.slice_1_m1 line).
  apply hd_in_split.
Qed.

Lemma set_keeps_entries k v d :
  clean_entry (k, v) -> Forall clean_entry d -> Forall clean_entry (Dict.set k v d).
Proof.
  intros E. induction 1 as [|[k' v'] d H F IH]; cbn [Dict.set].
  - constructor; [exact E|constructor].
  - destruct (String.eqb k k'); constructor; trivial.
Qed.

Lemma flush_keeps_entries st :
  clean_scan st ->
  Forall clean_entry
    (Dict.set (section_name (current_section st)) (Items (current_items st))
       (sections st))
  \/ truthy (current_section st) = false.
Proof.
  intros [D [T I]]. destruct (current_section st) as [[|c t]|] eqn:C.
  - now right.
  - left. apply set_keeps_entries; [|exact D].
    split; [split; [discriminate|now apply T]|exact I].
  - now right.
Qed.

Lemma step_keeps_clean text st raw :
  clean_scan st ->
  match step text st raw with
  | Next st' => clean_scan st'
  | Break st' => clean_scan st'
  end.
Proof.
  intro S. pose proof S as [D [T I]]. unfold step.
  destruct (String.eqb (Py.strip raw) EmptyString); [exact S|].
  destruct (is_header (Py.strip raw)).
  { split; [|split]; cbn [sections current_section current_items].
    - destruct (flush_keeps_entries st S) as [F|F]; [|now rewrite F].
      now destruct (truthy (current_section st)).
    - intros t E. inversion E. apply tag_without_colon.
    - constructor. }
  destruct (truthy (current_section st) && is_item (Py.strip raw)).
  { split; [exact D|split; [exact T|]]. cbn [current_items].
    apply Forall_app. split; [exact I|].
    constructor; [apply item_is_clean|constructor]. }
  destruct (String.eqb _ "3C" && Py.contains ":" (Py.strip raw)); [|exact S].
  split; [|split; [exact T|exact I]]. cbn [sections].
  apply set_keeps_entries; [|exact D].
  split; [split; [discriminate|reflexivity]|reflexivity].
Qed.

Lemma scan_keeps_clean text lines :
  forall st, clean_scan st -> clean_scan (scan_lines text st lines).
Proof.
  induction lines as [|raw lines IH]; intros st S; [exact S|].
  simpl. pose proof (step_keeps_clean text st raw S) as K.
  destruct (step text st raw); [now apply IH|exact K].
Qed.

Lemma initial_clean : clean_scan initial.
Proof. split; [constructor|split; [discriminate|constructor]]. Qed.

End Shapes.

(** X13. In the dictionary the section parser returns, no key is empty
    or contains a colon; no stored item starts with a digit, a closing
    bracket or a space, or ends with a blank; and a [ThreeC] object is
    found under the key ['3C'] only. *)
Theorem parsed_sections_are_clean :
  forall text : string,
    Forall Shape.clean_entry (PSLFullParser._parse_sections text).
Proof.
  intro text. unfold PSLFullParser._parse_sections, PSLFullParser.final_flush.
  pose proof (scan_keeps_clean text (Py.split Py.LF text) _ initial_clean) as S.
  destruct (flush_keeps_entries _ S) as [F|F].
  - destruct (PSLFullParser.truthy _ && _); [exact F|apply S].
  - rewrite F. apply S.
Qed.

(** X14. When the scan is not cut short by the 3C branch, the dictionary
    is built from the sections of the text in their order: the items of
    a section are stored under its tag, a later section with the same
    tag replaces the items and keeps the place of the key, a section
    with an empty tag is left out, and the last section is stored only
    when it has an item. *)
Theorem sections_are_committed_in_order :
  forall text : string,
    Layout.cut_short text = false ->
    PSLFullParser._parse_sections text
    = Layout.committed [] (Layout.text_sections text).
Proof. intros text C. now apply parse_sections_commits. Qed.

Lemma sections_are_committed_in_order_witness :
  PSLFullParser._parse_sections
    (Sample.text_of ["[FACT]"; "- a"; "[HYP]"; "[FACT]"; "- b"; "[GLOSS]"])
  = Layout.committed []
      (Layout.text_sections
         (Sample.text_of ["[FACT]"; "- a"; "[HYP]"; "[FACT]"; "- b"; "[GLOSS]"])).
Proof.
  apply sections_are_committed_in_order. vm_compute. reflexivity.
Defined.

(** ** More on the full parser *)

Lemma parse_returns_when (_parse_header : string -> PSLFullParser.header_data)
  (text : string) :
  returns (PSLFullParser.parse _parse_header text)
  = Shape.complete (_parse_header (Layout.header_text text))
    && negb (Dict.mem "3C" (PSLFullParser._parse_sections (Layout.sections_text text)))
    && negb (Dict.mem "GLOSS" (PSLFullParser._parse_sections (Layout.sections_text text))).
Proof.
  rewrite parse_by_parts. unfold Shape.complete.
  destruct (PSLFullParser.h_version _); [|reflexivity].
  destruct (PSLFullParser.h_context _); [|reflexivity].
  destruct (PSLFullParser.h_goal _); [|reflexivity].
  destruct (PSLFullParser.h_constraints _); [|reflexivity].
  cbn [bind PSLFullParser.getitem andb]. unfold PSLFullParser.new_PSLDocument.
  set (sd := PSLFullParser._parse_sections (Layout.sections_text text)).
  destruct (Dict.mem "3C" sd) eqn:M.
  - unfold Dict.mem in M.
    destruct (Dict.get "3C" sd) as [[its|f]|] eqn:G; [| |discriminate].
    + cbn [PSLFullParser.as_three_c].
      now destruct (PSLFullParser.as_item_lists sd), (PSLFullParser.as_str _).
    + destruct (PSLFullParser.as_item_lists sd) as [secs|] eqn:S.
      * now elim (item_lists_have_no_flags sd secs "3C" f S).
      * now destruct (PSLFullParser.as_three_c _), (PSLFullParser.as_str _).
  - rewrite (item_lists_accepted sd (parse_sections_keeps_flags _) M).
    unfold Dict.mem in *.
    destruct (Dict.get "3C" sd); [discriminate|].
    destruct (Dict.get "GLOSS" sd); reflexivity.
Qed.

(** X15. [parse] returns a document exactly when the header gives
    [version], [context], [goal] and [constraints] and the section
    parser has stored nothing under ['3C'] and nothing under ['GLOSS'];
    in every other case it raises. *)
Theorem parse_returns_exactly_when :
  forall (_parse_header : string -> PSLFullParser.header_data) (text : string),
    returns (PSLFullParser.parse _parse_header text)
    = Shape.complete (_parse_header (Layout.header_text text))
      && negb (Dict.mem "3C"
                 (PSLFullParser._parse_sections (Layout.sections_text text)))
      && negb (Dict.mem "GLOSS"
                 (PSLFullParser._parse_sections (Layout.sections_text text))).
Proof. exact parse_returns_when. Qed.

Lemma level_is_not_error score :
  String.eqb (Assessment._get_quality_level score) "ERROR" = false.
Proof.
  unfold Assessment._get_quality_level.
  destruct (PrimFloat.leb 0.9 score); [reflexivity|].
  destruct (PrimFloat.leb 0.7 score); [reflexivity|].
  destruct (PrimFloat.leb 0.5 score); reflexivity.
Qed.

Lemma validate_of_total_rules
  (r4 r5 r6 r7 r8 r9 r10 : PSLDocument.t -> list Issue.t) (doc : PSLDocument.t) :
  Assessment.validate (Assessment.total r4) (Assessment.total r5)
    (Assessment.total r6) (Assessment.total r7) (Assessment.total r8)
    (Assessment.total r9) (Assessment.total r10) doc
  = Assessment.Done (LRuleValidator.validate r4 r5 r6 r7 r8 r9 r10 doc).
Proof. reflexivity. Qed.

(** X16. [assess_psl_quality] raises nothing: it reports the level ERROR,
    with the score 0.0, no metrics, no issue count, no document and the
    text of the exception, exactly when [parse] raises or a rule of the
    validator raises; otherwise it reports the document, the number of
    issues of [validate], the metrics and one of the four levels of a
    score. With rules that always return, the issues counted are those
    of the validator; with a rule L-04 that raises, every text is
    reported as ERROR. *)
Theorem assessment_is_error_exactly_when_a_step_raises :
  forall (float_str : float -> string)
         (_parse_header : string -> PSLFullParser.header_data)
         (rule_l04 rule_l05 rule_l06 rule_l07 rule_l08 rule_l09 rule_l10
            : PSLDocument.t -> Assessment.attempt (list Issue.t))
         (weighted_sum : Assessment.metrics -> float)
         (str_of_exn : exn -> string)
         (text : string)
         (execution_result : option (Dict.t PSLMetricsCalculator.value)),
    let validate := Assessment.validate rule_l04 rule_l05 rule_l06 rule_l07
                      rule_l08 rule_l09 rule_l10 in
    let a := Assessment.assess_psl_quality float_str _parse_header
               rule_l04 rule_l05 rule_l06 rule_l07 rule_l08 rule_l09 rule_l10
               weighted_sum str_of_exn text execution_result in
    String.eqb (Assessment.quality_level a) "ERROR"
    = negb match PSLFullParser.parse _parse_header text with
           | Return doc => Assessment.returned (validate doc)
           | Raise _ => false
           end
    /\ match Assessment.document a with
       | Some doc =>
           PSLFullParser.parse _parse_header text = Return doc
           /\ (exists issues,
                 validate doc = Assessment.Done issues
                 /\ Assessment.validation_issues a = List.length issues)
           /\ Assessment.the_metrics a
              = Some (Assessment.calculate_all_metrics float_str doc execution_result)
           /\ Assessment.quality_level a
              = Assessment._get_quality_level (Assessment.quality_score a)
           /\ Assessment.error a = None
       | None =>
           Assessment.quality_level a = "ERROR"
           /\ Assessment.quality_score a = 0%float
           /\ Assessment.validation_issues a = 0
           /\ Assessment.the_metrics a = None
           /\ Assessment.error a
              = Some match PSLFullParser.parse _parse_header text with
                     | Return doc =>
                         match validate doc with
                         | Assessment.Failed raised => raised
                         | Assessment.Done _ => EmptyString
                         end
                     | Raise e => str_of_exn e
                     end
       end
    /\ (forall r4 r5 r6 r7 r8 r9 r10 : PSLDocument.t -> list Issue.t,
          Assessment.validation_issues
            (Assessment.assess_psl_quality float_str _parse_header
               (Assessment.total r4) (Assessment.total r5) (Assessment.total r6)
               (Assessment.total r7) (Assessment.total r8) (Assessment.total r9)
               (Assessment.total r10) weighted_sum str_of_exn text execution_result)
          = match PSLFullParser.parse _parse_header text with
            | Return doc =>
                List.length (LRuleValidator.validate r4 r5 r6 r7 r8 r9 r10 doc)
            | Raise _ => 0
            end)
    /\ (forall raised : string,
          Assessment.quality_level
            (Assessment.assess_psl_quality float_str _parse_header
               (fun _ => Assessment.Failed raised) rule_l05 rule_l06 rule_l07
               rule_l08 rule_l09 rule_l10 weighted_sum str_of_exn text
               execution_result)
          = "ERROR").
Proof.
  intros fs ph r4 r5 r6 r7 r8 r9 r10 ws se text er validate a.
  subst a validate. unfold Assessment.assess_psl_quality.
  split; [|split; [|split]].
  - destruct (PSLFullParser.parse ph text) as [doc|e]; [|reflexivity].
    destruct (Assessment.validate _ _ _ _ _ _ _ doc) as [issues|raised];
      [apply level_is_not_error|reflexivity].
  - destruct (PSLFullParser.parse ph text) as [doc|e]; [|now repeat split].
    destruct (Assessment.validate _ _ _ _ _ _ _ doc) as [issues|raised] eqn:V;
      cbn.
    + split; [reflexivity|]. split; [now exists issues|]. now repeat split.
    + now repeat split.
  - intros t4 t5 t6 t7 t8 t9 t10.
    destruct (PSLFullParser.parse ph text) as [doc|e]; [|reflexivity].
    now rewrite validate_of_total_rules.
  - intro raised. destruct (PSLFullParser.parse ph text) as [doc|e]; reflexivity.
Qed.

(** *** The flags *)

Lemma lower_app a b : Py.lower (a ++ b) = (Py.lower a ++ Py.lower b)%string.
Proof. induction a as [|c a IH]; simpl; [reflexivity|now rewrite IH]. Qed.

Lemma prefix_app_r n :
  forall a b, String.prefix n a = true -> String.prefix n (a ++ b) = true.
Proof.
  induction n as [|c n IH]; intros a b H.
  - now destruct (a ++ b)%string.
  - destruct a as [|d a]; simpl in H; [discriminate|].
    simpl. destruct (ascii_dec c d); [now apply IH|discriminate].
Qed.

Lemma contains_unfold n s :
  Py.contains n s
  = String.prefix n s
    || match s with
       | EmptyString => false
       | String _ r => Py.contains n r
       end.
Proof. destruct s; reflexivity. Qed.

Lemma contains_app_r n a b :
  Py.contains n a = true -> Py.contains n (a ++ b) = true.
Proof.
  induction a as [|c a IH]; intro H; rewrite contains_unfold in H;
    apply orb_true_iff in H as [H|H]; try discriminate.
  - rewrite contains_unfold. now rewrite (prefix_app_r _ _ b H).
  - rewrite contains_unfold. now rewrite (prefix_app_r _ _ b H).
  - simpl append. rewrite contains_unfold, (IH H). apply orb_true_r.
Qed.

Lemma contains_app_l n pre a :
  Py.contains n a = true -> Py.contains n (pre ++ a) = true.
Proof.
  intro H. induction pre as [|c pre IH]; [exact H|].
  simpl append. rewrite contains_unfold, IH. apply orb_true_r.
Qed.

Lemma contains_inside n pre a post :
  Py.contains n (Py.lower a) = true ->
  Py.contains n (Py.lower (pre ++ a ++ post)) = true.
Proof.
  intro H. rewrite !lower_app. now apply contains_app_l, contains_app_r.
Qed.

(** X17. A flag of the triad that is set for a text is set for every
    text that contains it: text before or after can set a flag and can
    never clear one. *)
Theorem flags_only_grow_with_text :
  forall pre text post : string,
    implb (ThreeC.clear (PSLFullParser._parse_three_c text))
      (ThreeC.clear (PSLFullParser._parse_three_c (pre ++ text ++ post))) = true
    /\ implb (ThreeC.cheap (PSLFullParser._parse_three_c text))
         (ThreeC.cheap (PSLFullParser._parse_three_c (pre ++ text ++ post))) = true
    /\ implb (ThreeC.safe (PSLFullParser._parse_three_c text))
         (ThreeC.safe (PSLFullParser._parse_three_c (pre ++ text ++ post))) = true.
Proof.
  intros pre text post. unfold PSLFullParser._parse_three_c. cbn [ThreeC.clear ThreeC.cheap ThreeC.safe].
  repeat split.
  - destruct (Py.contains "clear: yes" (Py.lower text)) eqn:H; [|reflexivity].
    now rewrite (contains_inside _ pre _ post H).
  - destruct (Py.contains "cheap: yes" (Py.lower text)) eqn:H; [|reflexivity].
    now rewrite (contains_inside _ pre _ post H).
  - destruct (Py.contains "safe: yes" (Py.lower text)) eqn:H; [|reflexivity].
    now rewrite (contains_inside _ pre _ post H).
Qed.
